(** * The container construction engine of the Singularity runtime

    A shallow embedding of [container.go] of the Singularity engine
    (package [singularity]): the session layout selection, the two
    mounters ([localMount], [rpcMount]) with their generic and loop
    back ends, the image loader, every concern that [create] runs
    (root file system, overlay images, kernel, devices, host file
    systems, binds, home, user binds, temporary and scratch
    directories, working directory, libraries) and the hooks
    ([switchMount], [addFilesMount], [overlayUpperWork]).

    The operating system is an oracle ([Host]); every system call and
    every call into a collaborator that the assembler performs is
    recorded, in program order, in the trace of the [World]. *)

From Stdlib Require Import ZArith List String Ascii Bool Lia DecimalString Sorted.
Import ListNotations.

Local Open Scope string_scope.
Local Open Scope Z_scope.
Local Open Scope list_scope.

(** ** Go values *)

(** A Go [error]: [None] is [nil], [Some msg] carries the message. *)
Definition error := option string.

Definition is_nil (e : error) : bool :=
  match e with None => true | Some _ => false end.

(** [fmt.Sprintf]-style rendering of an error inside a message. *)
Definition errstr (e : error) : string :=
  match e with None => "<nil>" | Some m => m end.

Module strings.

(** [strings.HasPrefix(s, prefix)]. *)
Definition HasPrefix (s pre : string) : bool := String.prefix pre s.

(** [strings.Split(s, sep)] for a one-character separator: the pieces
    between the separators; a string without separator is its own
    single piece (also the empty one). *)
Fixpoint Split (s : string) (sep : ascii) : list string :=
  match s with
  | EmptyString => [EmptyString]
  | String ch rest =>
      if Ascii.eqb ch sep then EmptyString :: Split rest sep
      else match Split rest sep with
           | [] => [String ch EmptyString]
           | hd :: tl => String ch hd :: tl
           end
  end.

(** [strings.SplitN(s, sep, 2)]: cut at the first separator only. *)
Fixpoint SplitN2 (s : string) (sep : ascii) : list string :=
  match s with
  | EmptyString => [EmptyString]
  | String ch rest =>
      if Ascii.eqb ch sep then [EmptyString; rest]
      else match SplitN2 rest sep with
           | [] => [String ch EmptyString]
           | hd :: tl => String ch hd :: tl
           end
  end.

(** [strings.Join(elems, sep)]. *)
Definition Join (elems : list string) (sep : string) : string :=
  String.concat sep elems.

End strings.

(** ** Kernel constants ([syscall] and [os] packages, linux) *)

Module syscall.
Definition MS_RDONLY      : Z := 1.
Definition MS_NOSUID      : Z := 2.
Definition MS_NODEV       : Z := 4.
Definition MS_NOEXEC      : Z := 8.
Definition MS_SYNCHRONOUS : Z := 16.
Definition MS_REMOUNT     : Z := 32.
Definition MS_DIRSYNC     : Z := 128.
Definition MS_NOATIME     : Z := 1024.
Definition MS_BIND        : Z := 4096.
Definition MS_REC         : Z := 16384.
Definition MS_UNBINDABLE  : Z := 131072.
Definition MS_PRIVATE     : Z := 262144.
Definition MS_SLAVE       : Z := 524288.
Definition MS_SHARED      : Z := 1048576.
Definition MS_RELATIME    : Z := 2097152.
Definition MS_STRICTATIME : Z := 16777216.
End syscall.

Module os.
Definition O_RDONLY : Z := 0.
Definition O_RDWR   : Z := 2.
End os.

(** Modelled from the spec: the [loop] package is not part of the
    sources at hand.  The spec names the two flags of the [Info64]
    structure ([FLAGS_AUTOCLEAR], [FLAGS_READ_ONLY]); their values are
    those of the Linux loop driver ([LO_FLAGS_AUTOCLEAR],
    [LO_FLAGS_READ_ONLY]). *)
Module loop.
Definition FlagsReadOnly  : Z := 1.
Definition FlagsAutoClear : Z := 4.

Record Info64 := mkInfo64 {
  Offset    : Z;
  SizeLimit : Z;
  Flags     : Z
}.
End loop.

(** Levels of the message sink ([sylog]). *)
Inductive messageLevel :=
  | WARNING | VERBOSE | DEBUG.

(** ** The mount plan (package [mount]) *)

Module mount.

(** The tags of the plan, in execution order. *)
Inductive AuthorizedTag :=
  | SessionTag | RootfsTag | PreLayerTag | LayerTag | DevTag
  | HostfsTag | BindsTag | KernelTag | HomeTag | TmpTag
  | ScratchTag | CwdTag | UserbindsTag | FilesTag | OtherTag | FinalTag.

Definition tag_index (t : AuthorizedTag) : nat :=
  match t with
  | SessionTag => 0 | RootfsTag => 1 | PreLayerTag => 2 | LayerTag => 3
  | DevTag => 4 | HostfsTag => 5 | BindsTag => 6 | KernelTag => 7
  | HomeTag => 8 | TmpTag => 9 | ScratchTag => 10 | CwdTag => 11
  | UserbindsTag => 12 | FilesTag => 13 | OtherTag => 14 | FinalTag => 15
  end%nat.

Definition tag_eqb (a b : AuthorizedTag) : bool :=
  Nat.eqb (tag_index a) (tag_index b).

(** Modelled from the spec: [GetTagList], the fixed order of section 3
    ("Session, RootfsTag, PreLayerTag, LayerTag, DevTag, ..."). *)
Definition GetTagList : list AuthorizedTag :=
  [ SessionTag; RootfsTag; PreLayerTag; LayerTag; DevTag; HostfsTag;
    BindsTag; KernelTag; HomeTag; TmpTag; ScratchTag; CwdTag;
    UserbindsTag; FilesTag; OtherTag; FinalTag ].

(** One planned mount: the fields [container.go] reads from a
    [*mount.Point]. *)
Record Point := mkPoint {
  Source          : string;
  Destination     : string;
  Type_           : string;
  Options         : list string;
  InternalOptions : list string
}.

(** Modelled from the spec: the table behind [ConvertOptions]
    (section 4.A): the recognised option tokens and the kernel mount
    flags they stand for. *)
Definition mountFlags : list (string * Z) :=
  [ ("bind", syscall.MS_BIND);
    ("rbind", Z.lor syscall.MS_BIND syscall.MS_REC);
    ("ro", syscall.MS_RDONLY);
    ("rw", 0);
    ("nosuid", syscall.MS_NOSUID);
    ("nodev", syscall.MS_NODEV);
    ("noexec", syscall.MS_NOEXEC);
    ("sync", syscall.MS_SYNCHRONOUS);
    ("async", 0);
    ("remount", syscall.MS_REMOUNT);
    ("private", syscall.MS_PRIVATE);
    ("rprivate", Z.lor syscall.MS_PRIVATE syscall.MS_REC);
    ("slave", syscall.MS_SLAVE);
    ("rslave", Z.lor syscall.MS_SLAVE syscall.MS_REC);
    ("shared", syscall.MS_SHARED);
    ("rshared", Z.lor syscall.MS_SHARED syscall.MS_REC);
    ("unbindable", syscall.MS_UNBINDABLE);
    ("runbindable", Z.lor syscall.MS_UNBINDABLE syscall.MS_REC);
    ("dirsync", syscall.MS_DIRSYNC);
    ("atime", 0);
    ("noatime", syscall.MS_NOATIME);
    ("relatime", syscall.MS_RELATIME);
    ("norelatime", 0);
    ("strictatime", syscall.MS_STRICTATIME);
    ("nostrictatime", 0) ].

Fixpoint lookupFlag (tok : string) (table : list (string * Z)) : option Z :=
  match table with
  | [] => None
  | (name, bits) :: rest =>
      if String.eqb name tok then Some bits else lookupFlag tok rest
  end.

(** Modelled from the spec: [ConvertOptions(options)] returns the
    kernel flag set of the recognised tokens and, in order, the
    tokens it does not know (the pass-through data). *)
Fixpoint ConvertOptions (options : list string) : Z * list string :=
  match options with
  | [] => (0, [])
  | o :: rest =>
      let '(flags, opts) := ConvertOptions rest in
      match lookupFlag o mountFlags with
      | Some bits => (Z.lor bits flags, opts)
      | None => (flags, o :: opts)
      end
  end.

Definition digit_of (ch : ascii) : option Z :=
  let n := Z.of_nat (nat_of_ascii ch) in
  if (48 <=? n) && (n <=? 57) then Some (n - 48) else None.

Fixpoint parseDigits (s : string) (acc : Z) : option Z :=
  match s with
  | EmptyString => Some acc
  | String ch rest =>
      match digit_of ch with
      | Some d => parseDigits rest (acc * 10 + d)
      | None => None
      end
  end.

(** A decimal [uint64]. *)
Definition parseUint64 (s : string) : option Z :=
  match s with
  | EmptyString => None
  | _ => match parseDigits s 0 with
         | Some n => if n <? 2 ^ 64 then Some n else None
         | None => None
         end
  end.

Definition dropPrefix (pre s : string) : string :=
  String.substring (String.length pre) (String.length s - String.length pre) s.

Fixpoint getInternal (key : string) (options : list string) : Z * error :=
  match options with
  | [] => (0, Some (key ++ " option not found")%string)
  | o :: rest =>
      if strings.HasPrefix o (key ++ "=")
      then match parseUint64 (dropPrefix (key ++ "=") o) with
           | Some n => (n, None)
           | None => (0, Some ("invalid " ++ key ++ " option")%string)
           end
      else getInternal key rest
  end.

(** Modelled from the spec: [GetOffset] reads the internal option
    [offset=<u64>]; it fails when there is none (the point is then not
    a loop-backed one) or when the number is malformed. *)
Definition GetOffset (options : list string) : Z * error :=
  getInternal "offset" options.

(** Modelled from the spec: [GetSizeLimit] reads [sizelimit=<u64>]. *)
Definition GetSizeLimit (options : list string) : Z * error :=
  getInternal "sizelimit" options.

End mount.


(** ** The operating system *)

(** The four user identities of a Linux process. *)
Record Creds := mkCreds {
  ruid  : Z;
  euid  : Z;
  suid  : Z;
  fsuid : Z
}.

(** What [os.Stat] can answer. *)
Inductive StatResult :=
  | StatOK (isDir : bool)
  | StatNotExist
  | StatErr (msg : string).

(** [os.IsNotExist(err)] on the error of an [os.Stat]. *)
Definition IsNotExist (r : StatResult) : bool :=
  match r with StatNotExist => true | _ => false end.

Definition stat_error (r : StatResult) : error :=
  match r with
  | StatOK _ => None
  | StatNotExist => Some "no such file or directory"
  | StatErr m => Some m
  end.

(** The two layer strategies of package [layout]; a session without
    layer has none ([nil] in the Go code). *)
Inductive LayerKind := Overlay | Underlay.

(** The two mounters a plan can hold in its [Mount] field: the
    closures [c.localMount] and [c.rpcMount]. *)
Inductive mountFn := MountLocal | MountRpc.

(** The hooks a plan can hold: [c.switchMount], and the ones that leave
    the mounter alone ([c.addFilesMount], [c.overlayUpperWork], the
    realisation hook of a layer). *)
Inductive otherHook :=
  | HookAddFilesMount
  | HookOverlayUpperWork
  | HookLayer (k : LayerKind).

Inductive hookFn :=
  | HookSwitchMount
  | HookOther (o : otherHook).

(** What the assembler does to the outside, in program order.  The
    calls that touch the file system while mounting carry the
    credentials they were issued under.  [ECallMounter] and [ERunHook]
    mark the steps of [MountAll]; [EAddFS], [EAddBind], [EAddRemount]
    and [EAddImage] the registrations in the plan. *)
Inductive Event :=
  | ESetresuid (r e s : Z)
  | ESetfsuid (u : Z)
  | EStat (c : Creds) (path : string)
  | EMount (c : Creds) (src dst typ : string) (flags : Z) (data : string)
  | ERpcMount (src dst typ : string) (flags : Z) (data : string)
  | ELoopAttach (c : Creds) (src : string) (flag : Z)
  | ELoopSetStatus (c : Creds) (info : loop.Info64)
  | EImageInit (path : string) (writable : bool)
  | ENewSession (layer : option LayerKind)
  | EAddFS (tag : mount.AuthorizedTag) (dst typ : string) (flags : Z)
           (data : string)
  | EAddBind (tag : mount.AuthorizedTag) (src dst : string) (flags : Z)
  | EAddRemount (tag : mount.AuthorizedTag) (dst : string) (flags : Z)
  | EAddImage (tag : mount.AuthorizedTag) (src dst typ : string) (flags : Z)
              (offset size : Z)
  | ESessionAddDir (dir : string)
  | ESessionAddFile (path : string)
  | ESessionAddSymlink (path target : string)
  | ESessionUpdate
  | EOverlayAddLowerDir (dir : string)
  | EOverlayAddUpperDir (dir : string)
  | EOverlayAddWorkDir (dir : string)
  | EMkdirAll (path : string) (perm : Z)
  | ECallMounter (tag : mount.AuthorizedTag) (m : mountFn) (p : mount.Point)
  | ERunHook (tag : mount.AuthorizedTag) (f : hookFn)
  | ERpcChroot (path : string)
  | EChdir (path : string)
  | ELog (lvl : messageLevel) (fmt : string) (args : list string).

(** The mutable part of the process: its credentials and the trace so
    far (oldest event first). *)
Record World := mkWorld {
  creds : Creds;
  trace : list Event
}.

(** A state monad over the world. *)
Definition M (A : Type) : Type := World -> A * World.

Definition ret {A} (a : A) : M A := fun w => (a, w).

Definition bind {A B} (m : M A) (k : A -> M B) : M B :=
  fun w => let (a, w') := m w in k a w'.

Declare Scope go_scope.
Delimit Scope go_scope with go.
Notation "x <- m ;; k" := (bind m (fun x => k))
  (at level 61, m at next level, right associativity) : go_scope.
Notation "m ;;; k" := (bind m (fun _ => k))
  (at level 61, right associativity) : go_scope.
Local Open Scope go_scope.

Definition emit (e : Event) : M unit :=
  fun w => (tt, mkWorld (creds w) (trace w ++ [e])).

Definition get_world : M World := fun w => (w, w).

Definition set_creds (c : Creds) : M unit :=
  fun w => (tt, mkWorld c (trace w)).

(** The image descriptor of package [image], as far as the assembler
    reads it. *)
Inductive ImageType := SANDBOX | EXT3 | SQUASHFS | SIF.

Record Image := mkImage {
  ImgPath     : string;
  ImgType     : ImageType;
  ImgWritable : bool;
  ImgFd       : Z;
  ImgOffset   : Z;
  ImgSize     : Z
}.

(** The [nil] image that comes with an error. *)
Definition nilImage : Image := mkImage "" SANDBOX false 0 0 0.

(** The default-group partition of a SIF image (package [sif]), as
    far as the assembler reads it. *)
Module sif.
Inductive Parttype := PartSystem | PartOther.
Inductive Fstype := FsSquash | FsExt3 | FsOther.

Record Descriptor := mkDescriptor {
  Fileoff     : Z;
  Filelen     : Z;
  GetPartType : Parttype * error;
  GetFsType   : Fstype * error
}.
End sif.

(** The staging area of package [layout], as far as the assembler
    reads it: its three paths and its layer ([None] is Go's [nil]). *)
Module layout.
Record Session := mkSession {
  Path       : string;
  FinalPath  : string;
  RootFsPath : string;
  Layer      : option LayerKind
}.
End layout.

(** The registry of the plan: the planned points with their tags, in
    insertion order. *)
Definition Points := list (mount.AuthorizedTag * mount.Point).

(** The environment: the kernel and the collaborators of the assembler
    that are out of its scope.  Every answer may depend on the whole
    history (the world at the time of the call). *)
Record Host := mkHost {
  os_Stat          : World -> string -> StatResult;
  sys_Mount        : World -> string -> string -> string -> Z -> string -> error;
  rpc_Mount        : World -> string -> string -> string -> Z -> string -> error;
  rpc_Chroot       : World -> string -> error;
  sys_Chdir        : World -> string -> error;
  os_Getwd         : World -> string * error;
  setresuid_err    : World -> Z -> Z -> Z -> bool;
  setfsuid_err     : World -> Z -> bool;
  loop_Attach      : World -> string -> Z -> Z * error;
  loop_SetStatus   : World -> loop.Info64 -> error;
  image_Init       : World -> string -> bool -> Image * error;
  img_AuthorizedPath  : World -> Image -> list string -> bool * error;
  img_AuthorizedGroup : World -> Image -> list Z -> bool * error;
  img_AuthorizedOwner : World -> Image -> list Z -> bool * error;
  sif_LoadContainerFp : World -> Z -> bool -> Z * error;
  sif_GetPartFromGroup : World -> Z -> sif.Descriptor * error;
  proc_HasFilesystem  : World -> string -> bool * error;
  proc_ParseMountInfo : World -> string -> (string -> list string) * error;
  user_GetPwUID    : World -> Z -> string * error;
  user_GetGrNam    : World -> string -> Z * error;
  ioutil_ReadDir   : World -> string -> list string * error;
  files_Passwd     : World -> string -> string -> string * error;
  files_Group      : World -> string -> string * error;
  filepath_Abs     : World -> string -> string * error;
  filepath_Clean   : string -> string;
  filepath_Join    : string -> string -> string;
  filepath_Base    : string -> string;
  SESSIONDIR       : string;
  fs_RootDir       : string -> string;
  fs_IsLink        : World -> string -> bool;
  fs_IsDir         : World -> string -> bool;
  fs_MkdirAll      : World -> string -> Z -> error;
  layout_NewSession : World -> string -> string -> Z -> option LayerKind ->
                      layout.Session * error;
  session_AddDir   : World -> string -> error;
  session_AddFile  : World -> string -> error;
  session_AddSymlink : World -> string -> string -> error;
  session_GetPath  : World -> string -> string * error;
  overlay_AddUpperDir : World -> string -> error;
  overlay_AddWorkDir  : World -> string -> error;
  points_add_err   : World -> Points -> mount.AuthorizedTag ->
                     string -> string -> Z -> error;
  layer_hook       : World -> LayerKind -> Points -> Points * error
}.

(** The message sink. *)
Module sylog.
Definition Debugf (fmt : string) (args : list string) : M unit :=
  emit (ELog DEBUG fmt args).
Definition Verbosef (fmt : string) (args : list string) : M unit :=
  emit (ELog VERBOSE fmt args).
Definition Warningf (fmt : string) (args : list string) : M unit :=
  emit (ELog WARNING fmt args).
End sylog.

(** System calls, as the Go wrappers expose them. *)
Section Syscalls.
Variable h : Host.

(** [os.Getuid()]. *)
Definition osGetuid : M Z := fun w => (ruid (creds w), w).

(** [syscall.Setresuid(ruid, euid, suid)]: on success the three
    identities are replaced and the file-system identity follows the
    effective one. *)
Definition syscallSetresuid (r e s : Z) : M error :=
  fun w =>
    let w1 := mkWorld (creds w) (trace w ++ [ESetresuid r e s]) in
    if setresuid_err h w r e s
    then (Some "operation not permitted", w1)
    else (None, mkWorld (mkCreds r e s e) (trace w1)).

(** [syscall.Setfsuid(uid)]. *)
Definition syscallSetfsuid (u : Z) : M error :=
  fun w =>
    let w1 := mkWorld (creds w) (trace w ++ [ESetfsuid u]) in
    if setfsuid_err h w u
    then (Some "operation not permitted", w1)
    else let c := creds w in
         (None, mkWorld (mkCreds (ruid c) (euid c) (suid c) u) (trace w1)).

(** [os.Stat(path)]. *)
Definition osStat (path : string) : M StatResult :=
  fun w => (os_Stat h w path,
            mkWorld (creds w) (trace w ++ [EStat (creds w) path])).

(** [syscall.Mount(source, target, fstype, flags, data)]. *)
Definition syscallMount (src dst typ : string) (flags : Z) (data : string) : M error :=
  fun w => (sys_Mount h w src dst typ flags data,
            mkWorld (creds w)
                    (trace w ++ [EMount (creds w) src dst typ flags data])).

(** [c.rpcOps.Mount(source, target, fstype, flags, data)]. *)
Definition rpcOpsMount (src dst typ : string) (flags : Z) (data : string) : M error :=
  fun w => (rpc_Mount h w src dst typ flags data,
            mkWorld (creds w) (trace w ++ [ERpcMount src dst typ flags data])).

(** [loopdev.Attach(image, mode, &number)]. *)
Definition loopdevAttach (src : string) (flag : Z) : M (Z * error) :=
  fun w => (loop_Attach h w src flag,
            mkWorld (creds w) (trace w ++ [ELoopAttach (creds w) src flag])).

(** [loopdev.SetStatus(info)]. *)
Definition loopdevSetStatus (info : loop.Info64) : M error :=
  fun w => (loop_SetStatus h w info,
            mkWorld (creds w) (trace w ++ [ELoopSetStatus (creds w) info])).

(** [image.Init(path, writable)]. *)
Definition imageInit (path : string) (writable : bool) : M (Image * error) :=
  fun w => (image_Init h w path writable,
            mkWorld (creds w) (trace w ++ [EImageInit path writable])).

(** [os.Geteuid()]. *)
Definition osGeteuid : M Z := fun w => (euid (creds w), w).

(** [c.rpcOps.Chroot(path)]. *)
Definition rpcOpsChroot (path : string) : M error :=
  fun w => (rpc_Chroot h w path,
            mkWorld (creds w) (trace w ++ [ERpcChroot path])).

(** [syscall.Chdir(path)]. *)
Definition syscallChdir (path : string) : M error :=
  fun w => (sys_Chdir h w path,
            mkWorld (creds w) (trace w ++ [EChdir path])).

(** [os.Chdir(path)]. *)
Definition osChdir (path : string) : M error :=
  fun w => (sys_Chdir h w path,
            mkWorld (creds w) (trace w ++ [EChdir path])).

(** [os.Getwd()]. *)
Definition osGetwd : M (string * error) := fun w => (os_Getwd h w, w).

(** [fs.IsLink(path)] and [fs.IsDir(path)]. *)
Definition fsIsLink (path : string) : M bool := fun w => (fs_IsLink h w path, w).
Definition fsIsDir (path : string) : M bool := fun w => (fs_IsDir h w path, w).

(** [fs.MkdirAll(path, perm)]. *)
Definition fsMkdirAll (path : string) (perm : Z) : M error :=
  fun w => (fs_MkdirAll h w path perm,
            mkWorld (creds w) (trace w ++ [EMkdirAll path perm])).

(** [proc.HasFilesystem(fs)]. *)
Definition procHasFilesystem (fs : string) : M (bool * error) :=
  fun w => (proc_HasFilesystem h w fs, w).

(** [proc.ParseMountInfo(path)]: the children of every mount point. *)
Definition procParseMountInfo (path : string)
  : M ((string -> list string) * error) :=
  fun w => (proc_ParseMountInfo h w path, w).

(** [user.GetPwUID(uid)], of which the assembler reads the home
    directory [pw.Dir]. *)
Definition userGetPwUID (uid : Z) : M (string * error) :=
  fun w => (user_GetPwUID h w uid, w).

(** [user.GetGrNam(name)], of which the assembler reads [group.GID]. *)
Definition userGetGrNam (name : string) : M (Z * error) :=
  fun w => (user_GetGrNam h w name, w).

(** [ioutil.ReadDir(dir)]: the names of the entries. *)
Definition ioutilReadDir (dir : string) : M (list string * error) :=
  fun w => (ioutil_ReadDir h w dir, w).

(** [files.Passwd(path, home)] and [files.Group(path)]. *)
Definition filesPasswd (path home : string) : M (string * error) :=
  fun w => (files_Passwd h w path home, w).
Definition filesGroup (path : string) : M (string * error) :=
  fun w => (files_Group h w path, w).

(** [filepath.Abs(path)]. *)
Definition filepathAbs (path : string) : M (string * error) :=
  fun w => (filepath_Abs h w path, w).

(** [sif.LoadContainerFp(file, rdonly)]: a handle on the loaded image. *)
Definition sifLoadContainerFp (fd : Z) (rdonly : bool) : M (Z * error) :=
  fun w => (sif_LoadContainerFp h w fd rdonly, w).

(** [fimg.GetPartFromGroup(sif.DescrDefaultGroup)]. *)
Definition sifGetPartFromGroup (fimg : Z) : M (sif.Descriptor * error) :=
  fun w => (sif_GetPartFromGroup h w fimg, w).

(** The session: [AddDir], [AddFile], [AddSymlink], [GetPath],
    [Update]. *)
Definition sessionAddDir (dir : string) : M error :=
  fun w => (session_AddDir h w dir,
            mkWorld (creds w) (trace w ++ [ESessionAddDir dir])).

Definition sessionAddFile (path : string) : M error :=
  fun w => (session_AddFile h w path,
            mkWorld (creds w) (trace w ++ [ESessionAddFile path])).

Definition sessionAddSymlink (path target : string) : M error :=
  fun w => (session_AddSymlink h w path target,
            mkWorld (creds w) (trace w ++ [ESessionAddSymlink path target])).

Definition sessionGetPath (dir : string) : M (string * error) :=
  fun w => (session_GetPath h w dir, w).

Definition sessionUpdate : M unit := emit ESessionUpdate.

(** The overlay layer: [AddLowerDir], [AddUpperDir], [AddWorkDir]. *)
Definition overlayAddLowerDir (dir : string) : M unit :=
  emit (EOverlayAddLowerDir dir).

Definition overlayAddUpperDir (dir : string) : M error :=
  fun w => (overlay_AddUpperDir h w dir,
            mkWorld (creds w) (trace w ++ [EOverlayAddUpperDir dir])).

Definition overlayAddWorkDir (dir : string) : M error :=
  fun w => (overlay_AddWorkDir h w dir,
            mkWorld (creds w) (trace w ++ [EOverlayAddWorkDir dir])).

End Syscalls.

(** ** Configuration *)

(** The administrator's configuration file ([EngineConfig.File]). *)
Record FileConfig := mkFileConfig {
  AllowContainerDir      : bool;
  AllowContainerExtfs    : bool;
  AllowContainerSquashfs : bool;
  LimitContainerPaths    : list string;
  LimitContainerGroups   : list Z;
  LimitContainerOwners   : list Z;
  EnableOverlay          : string;
  EnableUnderlay         : bool;
  MountProc              : bool;
  MountSys               : bool;
  MountDev               : string;
  MountDevPts            : bool;
  MountHome              : bool;
  MountTmp               : bool;
  MountHostfs            : bool;
  BindPath               : list string;
  UserBindControl        : bool;
  ConfigPasswd           : bool;
  ConfigGroup            : bool;
  MemoryFSType           : string;
  SessiondirMaxSize      : Z
}.

(** The per-invocation request, through its getters. *)
Record EngineConfig := mkEngineConfig {
  File             : FileConfig;
  GetImage         : string;
  GetWritableImage : bool;
  GetOverlayImage  : list string;
  GetContain       : bool;
  GetNv            : bool;
  GetWorkdir       : string;
  GetScratchDir    : list string;
  GetNoHome        : bool;
  GetHome          : string;
  GetHomeDir       : string;
  GetBindPath      : list string
}.

(** The namespaces of the OCI runtime specification. *)
Inductive LinuxNamespaceType :=
  | PIDNamespace | NetworkNamespace | MountNamespace | IPCNamespace
  | UTSNamespace | UserNamespace | CgroupNamespace.

(** [EngineOperations]: the engine configuration and, of the OCI one,
    the namespace list ([None] when [OciConfig.Linux] is [nil]) and the
    working directory of the process ([None] when [OciConfig.Process]
    is [nil]). *)
Record EngineOperations := mkEngineOperations {
  EngineConfig_ : EngineConfig;
  OciNamespaces : option (list LinuxNamespaceType);
  OciProcessCwd : option string
}.

Record container := mkContainer {
  engine        : EngineOperations;
  session       : layout.Session;
  sessionFsType : string;
  sessionSize   : Z;
  userNS        : bool;
  pidNS         : bool
}.

(** The [nil] session of a container that has not set one up yet. *)
Definition nilSession : layout.Session :=
  layout.mkSession "" "" "" None.

Definition set_session (c : container) (s : layout.Session) : container :=
  mkContainer (engine c) s (sessionFsType c) (sessionSize c) (userNS c) (pidNS c).

(** [mount.System]: the registry, the mounter in use and the after-tag
    hooks in registration order. *)
Record System := mkSystem {
  SPoints       : Points;
  SMount        : mountFn;
  afterTagHooks : list (mount.AuthorizedTag * hookFn)
}.

Definition set_points (system : System) (p : Points) : System :=
  mkSystem p (SMount system) (afterTagHooks system).

(** Modelled from the spec: [RunAfterTag(tag, hook)] registers a hook
    behind the ones already registered. *)
Definition RunAfterTag (system : System) (tag : mount.AuthorizedTag)
           (fn : hookFn) : error * System :=
  (None, mkSystem (SPoints system) (SMount system)
                  (afterTagHooks system ++ [(tag, fn)])).

(** Modelled from the spec: [GetByTag(tag)], the points of a tag in
    insertion order. *)
Definition GetByTag (p : Points) (tag : mount.AuthorizedTag) : list mount.Point :=
  map snd (filter (fun e => mount.tag_eqb (fst e) tag) p).

Definition hooksByTag (system : System) (tag : mount.AuthorizedTag) : list hookFn :=
  map snd (filter (fun e => mount.tag_eqb (fst e) tag) (afterTagHooks system)).

(** ** The assembler ([container.go]) *)

Definition itoa (n : Z) : string :=
  DecimalString.NilZero.string_of_int (Z.to_int n).

Section Container.
Variable h : Host.

(** Modelled from the spec: the reverse of [ConvertOptions], the
    tokens of the table whose (non-empty) flag set is contained in
    [flags]. *)
Definition flagsToOptions (flags : Z) : list string :=
  map fst (filter (fun e => negb (snd e =? 0) && (Z.land flags (snd e) =? snd e))
                  mount.mountFlags).

(** Modelled from the spec: [Points.AddBind(tag, src, dst, flags)]
    registers a bind, [MS_BIND] or-ed in.  What makes the registry
    refuse a point is left to the host. *)
Definition AddBind (p : Points) (tag : mount.AuthorizedTag)
           (src dst : string) (flags : Z) : M (error * Points) :=
  emit (EAddBind tag src dst flags) ;;;
  w <- get_world ;;
  match points_add_err h w p tag src dst flags with
  | Some e => ret (Some e, p)
  | None =>
      ret (None,
           p ++ [(tag, mount.mkPoint src dst ""
                         (flagsToOptions (Z.lor flags syscall.MS_BIND)) [])])
  end.

(** Modelled from the spec: [Points.AddRemount(tag, dst, flags)]
    registers a remount of an existing destination,
    [MS_REMOUNT|MS_BIND] or-ed in. *)
Definition AddRemount (p : Points) (tag : mount.AuthorizedTag)
           (dst : string) (flags : Z) : M (error * Points) :=
  emit (EAddRemount tag dst flags) ;;;
  w <- get_world ;;
  match points_add_err h w p tag "" dst flags with
  | Some e => ret (Some e, p)
  | None =>
      ret (None,
           p ++ [(tag, mount.mkPoint "" dst ""
                         (flagsToOptions
                            (Z.lor flags (Z.lor syscall.MS_REMOUNT syscall.MS_BIND)))
                         [])])
  end.

(** Modelled from the spec: [Points.AddFS(tag, dst, type, flags,
    data)] registers a filesystem mount. *)
Definition AddFS (p : Points) (tag : mount.AuthorizedTag)
           (dst typ : string) (flags : Z) (data : string) : M (error * Points) :=
  emit (EAddFS tag dst typ flags data) ;;;
  w <- get_world ;;
  match points_add_err h w p tag typ dst flags with
  | Some e => ret (Some e, p)
  | None =>
      ret (None,
           p ++ [(tag, mount.mkPoint typ dst typ
                         (flagsToOptions flags
                          ++ (if String.eqb data "" then [] else [data]))
                         [])])
  end.

(** Modelled from the spec: [Points.AddImage(tag, source, dst, type,
    flags, offset, size)] registers a loop-backed mount; offset and
    size go to the internal options. *)
Definition AddImage (p : Points) (tag : mount.AuthorizedTag)
           (src dst typ : string) (flags offset size : Z) : M (error * Points) :=
  emit (EAddImage tag src dst typ flags offset size) ;;;
  w <- get_world ;;
  match points_add_err h w p tag src dst flags with
  | Some e => ret (Some e, p)
  | None =>
      ret (None,
           p ++ [(tag, mount.mkPoint src dst typ (flagsToOptions flags)
                         [("offset=" ++ itoa offset)%string;
                          ("sizelimit=" ++ itoa size)%string])])
  end.

(** [if err := m; err != nil { return wrap(err) }] for a registration
    in the plan, then the rest. *)
Definition tryP (m : M (error * Points)) (wrap : string -> string)
           (k : Points -> M (error * Points)) : M (error * Points) :=
  r <- m ;;
  let '(err, p) := r in
  match err with
  | Some e => ret (Some (wrap e), p)
  | None => k p
  end.

(** [if err := m; err != nil { return wrap(err) }] for a call that
    leaves the plan alone, then the rest. *)
Definition tryE (m : M error) (wrap : string -> string) (p : Points)
           (k : M (error * Points)) : M (error * Points) :=
  err <- m ;;
  match err with
  | Some e => ret (Some (wrap e), p)
  | None => k
  end.

(** A concern at work on the registry of the plan. *)
Definition onPoints (system : System) (f : Points -> M (error * Points))
  : M (error * System) :=
  r <- f (SPoints system) ;;
  ret (fst r, set_points system (snd r)).

(** mount any generic mount (not loop dev) *)
Definition mountGeneric (c : container) (mnt : mount.Point) (local : bool)
  : M error :=
  let '(flags, opts) := mount.ConvertOptions (mount.Options mnt) in
  let optsString := strings.Join opts "," in
  let sessionPath := layout.Path (session c) in
  let remount := negb (Z.land flags syscall.MS_REMOUNT =? 0) in
  skip <- (if negb (Z.land flags syscall.MS_BIND =? 0) && negb remount
           then st <- osStat h (mount.Source mnt) ;;
                if IsNotExist st
                then sylog.Debugf "Skipping mount, host source %s doesn't exist"
                                  [mount.Source mnt] ;;;
                     ret true
                else ret false
           else ret false) ;;
  if (skip : bool) then ret None
  else
    if negb (strings.HasPrefix (mount.Destination mnt) sessionPath)
    then
      let dest := (layout.FinalPath (session c) ++ mount.Destination mnt)%string in
      st <- osStat h dest ;;
      if IsNotExist st
      then sylog.Debugf "Skipping mount, %s doesn't exist in container" [dest] ;;;
           ret None
      else
        (if remount then sylog.Debugf "Remounting %s\n" [dest]
         else sylog.Debugf "Mounting %s to %s\n" [mount.Source mnt; dest]) ;;;
        if negb local
        then rpcOpsMount h (mount.Source mnt) dest (mount.Type_ mnt) flags optsString
        else syscallMount h (mount.Source mnt) dest (mount.Type_ mnt) flags optsString
    else
      let dest := mount.Destination mnt in
      st <- osStat h dest ;;
      if IsNotExist st
      then ret (Some ("destination " ++ dest ++ " doesn't exist")%string)
      else
        (if remount then sylog.Debugf "Remounting %s\n" [dest]
         else sylog.Debugf "Mounting %s to %s\n" [mount.Source mnt; dest]) ;;;
        if negb local
        then rpcOpsMount h (mount.Source mnt) dest (mount.Type_ mnt) flags optsString
        else syscallMount h (mount.Source mnt) dest (mount.Type_ mnt) flags optsString.

(** mount image via loop *)
Definition mountImage (c : container) (mnt : mount.Point) : M error :=
  let '(flags, opts) := mount.ConvertOptions (mount.Options mnt) in
  let optsString := strings.Join opts "," in
  let '(offset, err) := mount.GetOffset (mount.InternalOptions mnt) in
  if negb (is_nil err) then ret err
  else
    let '(sizelimit, err) := mount.GetSizeLimit (mount.InternalOptions mnt) in
    if negb (is_nil err) then ret err
    else
      let rdonly := Z.land flags syscall.MS_RDONLY =? 1 in
      let attachFlag := if rdonly then os.O_RDONLY else os.O_RDWR in
      let loopFlags :=
        if rdonly then Z.lor loop.FlagsAutoClear loop.FlagsReadOnly
        else loop.FlagsAutoClear in
      let info := loop.mkInfo64 offset sizelimit loopFlags in
      r <- loopdevAttach h (mount.Source mnt) attachFlag ;;
      let '(number, err) := r in
      if negb (is_nil err) then ret err
      else
        err <- loopdevSetStatus h info ;;
        if negb (is_nil err) then ret err
        else
          let path := ("/dev/loop" ++ itoa number)%string in
          sylog.Debugf "Mounting loop device %s to %s\n"
                       [path; mount.Destination mnt] ;;;
          err <- syscallMount h path (mount.Destination mnt) (mount.Type_ mnt)
                              flags optsString ;;
          if negb (is_nil err)
          then ret (Some ("failed to mount " ++ mount.Type_ mnt
                          ++ " filesystem: " ++ errstr err)%string)
          else ret None.

(** The part of [localMount] behind the credential swap. *)
Definition localMountBody (c : container) (point : mount.Point) : M error :=
  if is_nil (snd (mount.GetOffset (mount.InternalOptions point)))
  then
    err <- mountImage c point ;;
    if negb (is_nil err)
    then ret (Some ("can't mount image " ++ mount.Source point ++ ": "
                    ++ errstr err)%string)
    else ret None
  else
    err <- mountGeneric c point true ;;
    if negb (is_nil err)
    then
      let '(flags, _) := mount.ConvertOptions (mount.Options point) in
      if negb (Z.land flags syscall.MS_REMOUNT =? 0)
      then ret (Some ("can't remount " ++ mount.Destination point ++ ": "
                      ++ errstr err)%string)
      else sylog.Verbosef "can't mount %s: %s" [mount.Source point; errstr err] ;;;
           ret None
    else ret None.

(** The direct mounter.  The deferred [Setresuid(uid, uid, 0)] runs on
    every return that follows its registration; its own result is
    dropped. *)
Definition localMount (c : container) (point : mount.Point) : M error :=
  if negb (userNS c)
  then
    uid <- osGetuid ;;
    err <- syscallSetresuid h uid 0 uid ;;
    if negb (is_nil err) then ret (Some "failed to elevate privileges")
    else
      res <- (err <- syscallSetfsuid h uid ;;
              if negb (is_nil err) then ret (Some "failed to set FS uid")
              else localMountBody c point) ;;
      syscallSetresuid h uid uid 0 ;;;
      ret res
  else localMountBody c point.

(** The mounter that delegates to the privileged helper. *)
Definition rpcMount (c : container) (point : mount.Point) : M error :=
  err <- mountGeneric c point false ;;
  if negb (is_nil err)
  then
    let '(flags, _) := mount.ConvertOptions (mount.Options point) in
    if negb (Z.land flags syscall.MS_REMOUNT =? 0)
    then ret (Some ("can't remount " ++ mount.Destination point ++ ": "
                    ++ errstr err)%string)
    else sylog.Verbosef "can't mount %s: %s" [mount.Source point; errstr err] ;;;
         ret None
  else ret None.

Definition switchMount (c : container) (system : System) : error * System :=
  (None, mkSystem (SPoints system) MountRpc (afterTagHooks system)).

(** The mounter a plan holds, applied to a point. *)
Definition callMount (c : container) (m : mountFn) (point : mount.Point)
  : M error :=
  match m with
  | MountLocal => localMount c point
  | MountRpc => rpcMount c point
  end.

(** [loadImage] opens an image and checks it against the limits of the
    configuration; on every error path the image returned is [nil]. *)
Definition loadImage (c : container) (path : string) (writable : bool)
  : M (Image * error) :=
  fi <- osStat h path ;;
  if negb (is_nil (stat_error fi)) then ret (nilImage, stat_error fi)
  else
    let writable :=
      match fi with StatOK true => false | _ => writable end in
    r <- imageInit h path writable ;;
    let '(imgObject, err) := r in
    if negb (is_nil err) then ret (nilImage, err)
    else
      let file := File (EngineConfig_ (engine c)) in
      w <- get_world ;;
      let r1 := match LimitContainerPaths file with
                | [] => None
                | l => match img_AuthorizedPath h w imgObject l with
                       | (_, Some e) => Some (Some e)
                       | (false, None) =>
                           Some (Some "Singularity image is not an allowed configured path")
                       | (true, None) => None
                       end
                end in
      match r1 with
      | Some e => ret (nilImage, e)
      | None =>
      let r2 := match LimitContainerGroups file with
                | [] => None
                | l => match img_AuthorizedGroup h w imgObject l with
                       | (_, Some e) => Some (Some e)
                       | (false, None) =>
                           Some (Some "Singularity image is not owned by required group(s)")
                       | (true, None) => None
                       end
                end in
      match r2 with
      | Some e => ret (nilImage, e)
      | None =>
      let r3 := match LimitContainerOwners file with
                | [] => None
                | l => match img_AuthorizedOwner h w imgObject l with
                       | (_, Some e) => Some (Some e)
                       | (false, None) =>
                           Some (Some "Singularity image is not owned by required user(s)")
                       | (true, None) => None
                       end
                end in
      match r3 with
      | Some e => ret (nilImage, e)
      | None =>
          match ImgType imgObject with
          | SANDBOX =>
              if negb (AllowContainerDir file)
              then ret (nilImage, Some "configuration disallows users from running sandbox based containers")
              else ret (imgObject, None)
          | EXT3 =>
              if negb (AllowContainerExtfs file)
              then ret (nilImage, Some "configuration disallows users from running extFS based containers")
              else ret (imgObject, None)
          | SQUASHFS =>
              if negb (AllowContainerSquashfs file)
              then ret (nilImage, Some "configuration disallows users from running squashFS based containers")
              else ret (imgObject, None)
          | SIF => ret (imgObject, None)
          end
      end end end.

Definition bindFlags : Z :=
  Z.lor (Z.lor (Z.lor syscall.MS_BIND syscall.MS_NOSUID) syscall.MS_NODEV)
        syscall.MS_REC.

Definition addRootfsMount (c : container) (system : System) : M (error * System) :=
  onPoints system (fun p =>
    let flags := Z.lor syscall.MS_NOSUID syscall.MS_NODEV in
    let rootfs := GetImage (EngineConfig_ (engine c)) in
    r <- loadImage c rootfs false ;;
    let '(imageObject, err) := r in
    match err with
    | Some e => ret (Some e, p)
    | None =>
        let addImage := fun (mountType : string) (offset size : Z) =>
          let flags := Z.lor flags syscall.MS_RDONLY in
          let src := ("/proc/self/fd/" ++ itoa (ImgFd imageObject))%string in
          sylog.Debugf "Mounting block [%v] image: %v\n" [mountType; rootfs] ;;;
          AddImage p mount.RootfsTag src (layout.RootFsPath (session c))
                   mountType flags offset size in
        match ImgType imageObject with
        | SIF =>
            (* Load the SIF file *)
            r <- sifLoadContainerFp h (ImgFd imageObject)
                                    (negb (ImgWritable imageObject)) ;;
            let '(fimg, err) := r in
            match err with
            | Some e => ret (Some e, p)
            | None =>
                (* Get the default system partition image *)
                r <- sifGetPartFromGroup h fimg ;;
                let '(part, err) := r in
                match err with
                | Some e => ret (Some e, p)
                | None =>
                    (* Check that this is a system partition *)
                    match sif.GetPartType part with
                    | (_, Some e) => ret (Some e, p)
                    | (sif.PartOther, None) =>
                        ret (Some "found partition is not system", p)
                    | (sif.PartSystem, None) =>
                        (* record the fs type *)
                        match sif.GetFsType part with
                        | (_, Some e) => ret (Some e, p)
                        | (sif.FsSquash, None) =>
                            addImage "squashfs" (sif.Fileoff part mod 2 ^ 64)
                                     (sif.Filelen part mod 2 ^ 64)
                        | (sif.FsExt3, None) =>
                            addImage "ext3" (sif.Fileoff part mod 2 ^ 64)
                                     (sif.Filelen part mod 2 ^ 64)
                        | (sif.FsOther, None) =>
                            (* the value of the type is not rendered *)
                            ret (Some "unknown file system type: %v", p)
                        end
                    end
                end
            end
        | SQUASHFS =>
            addImage "squashfs" (ImgOffset imageObject) (ImgSize imageObject)
        | EXT3 =>
            addImage "ext3" (ImgOffset imageObject) (ImgSize imageObject)
        | SANDBOX =>
            sylog.Debugf "Mounting directory rootfs: %v\n" [rootfs] ;;;
            let flags := Z.lor flags syscall.MS_BIND in
            tryP (AddBind p mount.RootfsTag rootfs
                          (layout.RootFsPath (session c)) flags)
                 (fun e => e)
                 (fun p =>
                    (* remount sandbox in PreLayerTag to apply flags in
                       container namespace *)
                    r <- AddRemount p mount.PreLayerTag
                                    (layout.RootFsPath (session c)) flags ;;
                    ret (None, snd r))
        end
    end).

(** The hook [c.overlayUpperWork]. *)
Definition overlayUpperWork (c : container) (system : System)
  : M (error * System) :=
  let point :=
    match find (fun p =>
                  String.eqb (mount.Type_ p) "ext3"
                  || (negb (String.eqb (mount.Source p) "")
                      && negb (String.eqb (mount.Destination p) "")
                      && String.eqb (mount.Type_ p) ""))
               (GetByTag (SPoints system) mount.PreLayerTag) with
    | Some p => p
    | None => mount.mkPoint "" "" "" [] []
    end in
  let u := (mount.Destination point ++ "/upper")%string in
  let wk := (mount.Destination point ++ "/work")%string in
  isLink <- fsIsLink h u ;;
  if (isLink : bool)
  then ret (Some ("symlink detected, upper overlay " ++ u
                  ++ " must be a directory")%string, system)
  else
    isLink <- fsIsLink h wk ;;
    if (isLink : bool)
    then ret (Some ("symlink detected, work overlay " ++ wk
                    ++ " must be a directory")%string, system)
    else
      let addDirs :=
        err <- overlayAddUpperDir h u ;;
        match err with
        | Some e => ret (Some ("failed to add overlay upper: " ++ e)%string, system)
        | None =>
            err <- overlayAddWorkDir h wk ;;
            match err with
            | Some e =>
                ret (Some ("failed to add overlay upper: " ++ e)%string, system)
            | None => ret (None, system)
            end
        end in
      let workDir :=
        isDir <- fsIsDir h wk ;;
        if negb isDir
        then
          err <- fsMkdirAll h wk 493 ;;
          match err with
          | Some e => ret (Some ("failed to create " ++ wk ++ " directory: "
                                 ++ e)%string, system)
          | None => addDirs
          end
        else addDirs in
      isDir <- fsIsDir h u ;;
      if negb isDir
      then
        err <- fsMkdirAll h u 493 ;;
        match err with
        | Some e => ret (Some ("failed to create " ++ u ++ " directory: "
                               ++ e)%string, system)
        | None => workDir
        end
      else workDir.

(** The loop of [addOverlayMount] over the overlay images; [nb] counts
    the images staged so far. *)
Fixpoint overlayLoop (c : container) (imgs : list string) (nb : Z)
         (system : System) : M (error * System) :=
  match imgs with
  | [] => ret (None, system)
  | img :: rest =>
      let splitted := strings.SplitN2 img ":" in
      let ro := Nat.eqb (List.length splitted) 2
                && String.eqb (nth 1 splitted "") "ro" in
      let writable := negb ro in
      let overlayImg := if ro then nth 0 splitted "" else img in
      r <- loadImage c overlayImg writable ;;
      let '(imageObject, err) := r in
      match err with
      | Some e =>
          ret (Some ("failed to open overlay image " ++ overlayImg ++ ": "
                     ++ e)%string, system)
      | None =>
          let sessionDest := ("/overlay-images/" ++ itoa nb)%string in
          err <- sessionAddDir h sessionDest ;;
          match err with
          | Some e =>
              ret (Some ("failed to create session directory for overlay: "
                         ++ e)%string, system)
          | None =>
              r <- sessionGetPath h sessionDest ;;
              let dst := fst r in
              let src := ("/proc/self/fd/" ++ itoa (ImgFd imageObject))%string in
              let upperOrLower := fun (system : System) =>
                if writable
                then
                  let '(err, system) :=
                    RunAfterTag system mount.PreLayerTag
                                (HookOther HookOverlayUpperWork) in
                  match err with
                  | Some e => ret (Some e, system)
                  | None => overlayLoop c rest (nb + 1) system
                  end
                else
                  overlayAddLowerDir dst ;;;
                  overlayLoop c rest (nb + 1) system in
              match ImgType imageObject with
              | EXT3 =>
                  let flags := Z.lor syscall.MS_NOSUID syscall.MS_NODEV in
                  r <- AddImage (SPoints system) mount.PreLayerTag src dst "ext3"
                                flags (ImgOffset imageObject) (ImgSize imageObject) ;;
                  let '(err, p) := r in
                  match err with
                  | Some e => ret (Some e, set_points system p)
                  | None => upperOrLower (set_points system p)
                  end
              | SQUASHFS =>
                  let flags := Z.lor (Z.lor syscall.MS_NOSUID syscall.MS_NODEV)
                                     syscall.MS_RDONLY in
                  r <- AddImage (SPoints system) mount.PreLayerTag src dst
                                "squashfs" flags (ImgOffset imageObject)
                                (ImgSize imageObject) ;;
                  let '(err, p) := r in
                  match err with
                  | Some e => ret (Some e, set_points system p)
                  | None =>
                      (if writable
                       then sylog.Warningf "squashfs is not a writable filesystem" []
                       else ret tt) ;;;
                      overlayAddLowerDir dst ;;;
                      overlayLoop c rest (nb + 1) (set_points system p)
                  end
              | SANDBOX =>
                  euid <- osGeteuid ;;
                  if negb (euid =? 0)
                  then ret (Some "only root user can use sandbox as overlay", system)
                  else
                    let flags := Z.lor syscall.MS_NOSUID syscall.MS_NODEV in
                    r <- AddBind (SPoints system) mount.PreLayerTag src dst flags ;;
                    let '(err, p) := r in
                    match err with
                    | Some e => ret (Some e, set_points system p)
                    | None =>
                        r <- AddRemount p mount.PreLayerTag dst flags ;;
                        upperOrLower (set_points system (snd r))
                    end
              | SIF => ret (Some "unkown image format", system)
              end
          end
      end
  end.

Definition addOverlayMount (c : container) (system : System)
  : M (error * System) :=
  overlayLoop c (GetOverlayImage (EngineConfig_ (engine c))) 0 system.


Definition addKernelMount (c : container) (system : System) : M (error * System) :=
  onPoints system (fun p =>
    let file := File (EngineConfig_ (engine c)) in
    let bindFlags := bindFlags in
    let mountSys := fun (p : Points) =>
      sylog.Debugf "Checking configuration file for 'mount sys'" [] ;;;
      if MountSys file
      then
        sylog.Debugf "Adding sysfs to mount list\n" [] ;;;
        r <- (if negb (userNS c)
              then AddFS p mount.KernelTag "/sys" "sysfs"
                         (Z.lor syscall.MS_NOSUID syscall.MS_NODEV) ""
              else
                r <- AddBind p mount.KernelTag "/sys" "/sys" bindFlags ;;
                let '(err, p) := r in
                if is_nil err
                then
                  if negb (userNS c)
                  then r <- AddRemount p mount.KernelTag "/sys" bindFlags ;;
                       ret (err, snd r)
                  else ret (err, p)
                else ret (err, p)) ;;
        let '(err, p) := r in
        match err with
        | Some e => ret (Some ("unable to add sys to mount list: " ++ e)%string, p)
        | None => ret (None, p)
        end
      else
        sylog.Verbosef "Skipping /sys mount" [] ;;;
        ret (None, p) in
    sylog.Debugf "Checking configuration file for 'mount proc'" [] ;;;
    if MountProc file
    then
      sylog.Debugf "Adding proc to mount list\n" [] ;;;
      r <- (if pidNS c
            then AddFS p mount.KernelTag "/proc" "proc"
                       (Z.lor syscall.MS_NOSUID syscall.MS_NODEV) ""
            else
              r <- AddBind p mount.KernelTag "/proc" "/proc" bindFlags ;;
              let '(err, p) := r in
              if is_nil err
              then
                if negb (userNS c)
                then r <- AddRemount p mount.KernelTag "/proc" bindFlags ;;
                     ret (err, snd r)
                else ret (err, p)
              else ret (err, p)) ;;
      let '(err, p) := r in
      match err with
      | Some e => ret (Some ("unable to add proc to mount list: " ++ e)%string, p)
      | None => mountSys p
      end
    else
      sylog.Verbosef "Skipping /proc mount" [] ;;;
      mountSys p).

Definition bindDev (c : container) (devpath : string) (p : Points)
  : M (error * Points) :=
  tryE (sessionAddFile h devpath)
       (fun e => ("failed to " ++ devpath ++ " session file: " ++ e)%string) p
       (r <- sessionGetPath h devpath ;;
        let dst := fst r in
        sylog.Debugf "Mounting device %s at %s" [devpath; dst] ;;;
        tryP (AddBind p mount.DevTag devpath dst syscall.MS_BIND)
             (fun e => ("failed to add " ++ devpath ++ " mount: " ++ e)%string)
             (fun p => ret (None, p))).

(** The loop of [addDevMount] over the entries of [/dev]. *)
Fixpoint nvidiaLoop (c : container) (files : list string) (p : Points)
  : M (error * Points) :=
  match files with
  | [] => ret (None, p)
  | name :: rest =>
      if strings.HasPrefix name "nvidia"
      then tryP (bindDev c (filepath_Join h "/dev" name) p) (fun e => e)
                (fun p => nvidiaLoop c rest p)
      else nvidiaLoop c rest p
  end.

Definition addDevMount (c : container) (system : System) : M (error * System) :=
  onPoints system (fun p =>
    let cfg := EngineConfig_ (engine c) in
    let file := File cfg in
    let devFlags := Z.lor (Z.lor syscall.MS_BIND syscall.MS_NOSUID) syscall.MS_REC in
    sylog.Debugf "Checking configuration file for 'mount dev'" [] ;;;
    if String.eqb (MountDev file) "minimal" || GetContain cfg
    then
      sylog.Debugf "Creating temporary staged /dev" [] ;;;
      tryE (sessionAddDir h "/dev")
           (fun e => ("failed to add /dev session directory: " ++ e)%string) p
      (sylog.Debugf "Creating temporary staged /dev/shm" [] ;;;
       tryE (sessionAddDir h "/dev/shm")
            (fun e => ("failed to add /dev/shm session directory: " ++ e)%string) p
      (r <- sessionGetPath h "/dev/shm" ;;
       let devshmPath := fst r in
       let flags := Z.lor syscall.MS_NOSUID syscall.MS_NODEV in
       tryP (AddFS p mount.DevTag devshmPath (MemoryFSType file) flags "mode=1777")
            (fun e => ("failed to add /dev/shm temporary filesystem: " ++ e)%string)
       (fun p =>
        let symlinksAndBind := fun (p : Points) =>
          tryE (sessionAddSymlink h "/dev/fd" "/proc/self/fd")
               (fun _ => "failed to create symlink /dev/fd") p
          (tryE (sessionAddSymlink h "/dev/stdin" "/proc/self/fd/0")
                (fun _ => "failed to create symlink /dev/stdin") p
          (tryE (sessionAddSymlink h "/dev/stdout" "/proc/self/fd/1")
                (fun _ => "failed to create symlink /dev/stdout") p
          (tryE (sessionAddSymlink h "/dev/stderr" "/proc/self/fd/2")
                (fun _ => "failed to create symlink /dev/stderr") p
          (r <- sessionGetPath h "/dev" ;;
           let devPath := fst r in
           tryP (AddBind p mount.DevTag devPath "/dev" devFlags)
                (fun e => ("unable to add dev to mount list: " ++ e)%string)
                (fun p => ret (None, p)))))) in
        let devices := fun (p : Points) =>
          tryP (bindDev c "/dev/null" p) (fun e => e) (fun p =>
          tryP (bindDev c "/dev/zero" p) (fun e => e) (fun p =>
          tryP (bindDev c "/dev/random" p) (fun e => e) (fun p =>
          tryP (bindDev c "/dev/urandom" p) (fun e => e) (fun p =>
          if GetNv cfg
          then
            r <- ioutilReadDir h "/dev" ;;
            let '(files, err) := r in
            match err with
            | Some e => ret (Some ("failed to read /dev directory: " ++ e)%string, p)
            | None => tryP (nvidiaLoop c files p) (fun e => e) symlinksAndBind
            end
          else symlinksAndBind p)))) in
        if MountDevPts file
        then
          st <- osStat h "/dev/pts/ptmx" ;;
          if IsNotExist st
          then ret (Some "Multiple devpts instances unsupported and /dev/pts configured",
                    p)
          else
            sylog.Debugf "Creating temporary staged /dev/pts" [] ;;;
            tryE (sessionAddDir h "/dev/pts")
                 (fun e => ("failed to /dev/pts session directory: " ++ e)%string) p
            (let devpts := fun (options : string) =>
               sylog.Debugf "Mounting devpts for staged /dev/pts" [] ;;;
               r <- sessionGetPath h "/dev/pts" ;;
               let devptsPath := fst r in
               r <- AddFS p mount.DevTag devptsPath "devpts"
                          (Z.lor syscall.MS_NOSUID syscall.MS_NOEXEC) options ;;
               let '(err, p) := r in
               match err with
               | Some _ =>
                   sylog.Verbosef
                     "Couldn't mount devpts filesystem, continuing with PTY functionality disabled"
                     [] ;;;
                   devices p
               | None =>
                   tryP (bindDev c "/dev/tty" p) (fun e => e) (fun p =>
                   tryE (sessionAddSymlink h "/dev/ptmx" "/dev/pts/ptmx")
                        (fun e => ("failed to create /dev/ptmx symlink: " ++ e)%string)
                        p
                        (devices p))
               end in
             let options := "mode=0620,newinstance,ptmxmode=0666" in
             if negb (userNS c)
             then
               r <- userGetGrNam h "tty" ;;
               let '(gid, err) := r in
               match err with
               | Some e =>
                   ret (Some ("Problem resolving 'tty' group GID: " ++ e)%string, p)
               | None => devpts (options ++ ",gid=" ++ itoa gid)%string
               end
             else
               sylog.Debugf
                 "Not setting /dev/pts filesystem gid: user namespace enabled" [] ;;;
               devpts options)
        else devices p)))
    else if String.eqb (MountDev file) "yes"
    then
      sylog.Debugf "Adding dev to mount list\n" [] ;;;
      tryP (AddBind p mount.DevTag "/dev" "/dev" devFlags)
           (fun e => ("unable to add dev to mount list: " ++ e)%string)
           (fun p => ret (None, p))
    else if String.eqb (MountDev file) "no"
    then
      sylog.Verbosef "Not mounting /dev inside the container" [] ;;;
      ret (None, p)
    else ret (None, p)).

(** The loop of [addHostMount] over the children of the root mount. *)
Fixpoint hostLoop (children : list string) (flags : Z) (p : Points)
  : M (error * Points) :=
  match children with
  | [] => ret (None, p)
  | child :: rest =>
      if strings.HasPrefix child "/proc"
      then sylog.Debugf "Skipping /proc based file system" [] ;;;
           hostLoop rest flags p
      else if strings.HasPrefix child "/sys"
      then sylog.Debugf "Skipping /sys based file system" [] ;;;
           hostLoop rest flags p
      else if strings.HasPrefix child "/dev"
      then sylog.Debugf "Skipping /dev based file system" [] ;;;
           hostLoop rest flags p
      else if strings.HasPrefix child "/run"
      then sylog.Debugf "Skipping /run based file system" [] ;;;
           hostLoop rest flags p
      else if strings.HasPrefix child "/boot"
      then sylog.Debugf "Skipping /boot based file system" [] ;;;
           hostLoop rest flags p
      else if strings.HasPrefix child "/var"
      then sylog.Debugf "Skipping /var based file system" [] ;;;
           hostLoop rest flags p
      else
        sylog.Debugf "Adding %s to mount list\n" [child] ;;;
        tryP (AddBind p mount.HostfsTag child child flags)
             (fun e => ("unable to add " ++ child ++ " to mount list: " ++ e)%string)
             (fun p =>
                r <- AddRemount p mount.HostfsTag child flags ;;
                hostLoop rest flags (snd r))
  end.

Definition addHostMount (c : container) (system : System) : M (error * System) :=
  onPoints system (fun p =>
    if negb (MountHostfs (File (EngineConfig_ (engine c))))
    then sylog.Debugf "Not mounting host file systems per configuration" [] ;;;
         ret (None, p)
    else
      r <- procParseMountInfo h "/proc/self/mountinfo" ;;
      let '(info, err) := r in
      match err with
      | Some e => ret (Some e, p)
      | None => hostLoop (info "/") bindFlags p
      end).

(** The loop of [addBindsMount] over the administrator's binds. *)
Fixpoint bindsLoop (binds : list string) (flags : Z) (p : Points)
  : M (error * Points) :=
  match binds with
  | [] => ret (None, p)
  | bindpath :: rest =>
      let splitted := strings.Split bindpath ":" in
      let src := nth 0 splitted "" in
      let dst := if Nat.ltb 1 (List.length splitted) then nth 1 splitted ""
                 else src in
      sylog.Verbosef "Found 'bind path' = %s, %s" [src; dst] ;;;
      tryP (AddBind p mount.BindsTag src dst flags)
           (fun e => ("unable to add " ++ src ++ " to mount list: " ++ e)%string)
           (fun p => bindsLoop rest flags p)
  end.

Definition addBindsMount (c : container) (system : System) : M (error * System) :=
  onPoints system (fun p =>
    let flags := bindFlags in
    if GetContain (EngineConfig_ (engine c))
    then sylog.Debugf "Skipping bind mounts as contain was requested" [] ;;;
         ret (None, p)
    else bindsLoop (BindPath (File (EngineConfig_ (engine c)))) flags p).


Definition addHomeMount (c : container) (system : System) : M (error * System) :=
  let cfg := EngineConfig_ (engine c) in
  if GetNoHome cfg
  then sylog.Debugf "Skipping home directory mount by user request." [] ;;;
       ret (None, system)
  else if negb (MountHome (File cfg))
  then sylog.Debugf "Skipping home dir mounting (per config)" [] ;;;
       ret (None, system)
  else
    uid <- osGetuid ;;
    r <- userGetPwUID h (uid mod 2 ^ 32) ;;
    let '(pwDir, err) := r in
    if negb (is_nil err)
    then ret (Some "failed to retrieve user information", system)
    else
      let customHome := negb (String.eqb pwDir (GetHome cfg)) in
      sylog.Debugf "Checking if user bind control is allowed" [] ;;;
      if customHome && negb (UserBindControl (File cfg))
      then ret (Some "Not mounting user requested home: user bind control is disallowed",
                system)
      else
        let flags := bindFlags in
        sylog.Debugf "Adding home to mount list\n" [] ;;;
        let homedir := strings.SplitN2 (GetHomeDir cfg) ":" in
        r <- filepathAbs h (nth 0 homedir "") ;;
        let '(src, err) := r in
        (if negb (is_nil err)
         then sylog.Warningf "Can't determine absolute path of %s home directory"
                             [nth 0 homedir ""]
         else ret tt) ;;;
        let dst := if Nat.eqb (List.length homedir) 2 then nth 1 homedir "" else src in
        sylog.Debugf "Checking if overlay/underlay layers are enabled" [] ;;;
        match layout.Layer (session c) with
        | None =>
            sylog.Debugf "Staging home directory base" [] ;;;
            err <- sessionAddDir h dst ;;
            if negb (is_nil err)
            then ret (Some ("failed to add " ++ src ++ " as session directory: "
                            ++ errstr err)%string, system)
            else
              r <- sessionGetPath h dst ;;
              let sessionDir := fst r in
              r <- AddBind (SPoints system) mount.HomeTag src sessionDir flags ;;
              let '(err, p) := r in
              if negb (is_nil err)
              then ret (Some ("unable to add " ++ src ++ " to mount list: "
                              ++ errstr err)%string, set_points system p)
              else
                r <- AddRemount p mount.HomeTag sessionDir flags ;;
                let p := snd r in
                sylog.Debugf "Identifying the base home directory" [] ;;;
                let dstDir := fs_RootDir h dst in
                if String.eqb dstDir "."
                then ret (Some ("could not identify base home directory path: "
                                ++ dst)%string, set_points system p)
                else
                  r <- sessionGetPath h dstDir ;;
                  let sessionDir := fst r in
                  sylog.Verbosef
                    "Mounting staged home directory base to container's base dir" [] ;;;
                  r <- AddBind p mount.FinalTag sessionDir dstDir flags ;;
                  let '(err, p) := r in
                  if negb (is_nil err)
                  then ret (Some ("unable to add " ++ sessionDir ++ " to mount list: "
                                  ++ errstr err)%string, set_points system p)
                  else ret (None, set_points system p)
        | Some _ =>
            sylog.Debugf "Staging home directory" [] ;;;
            r <- AddBind (SPoints system) mount.HomeTag src dst flags ;;
            let '(err, p) := r in
            if negb (is_nil err)
            then ret (Some ("unable to add home to mount list: "
                            ++ errstr err)%string, set_points system p)
            else
              r <- AddRemount p mount.HomeTag dst flags ;;
              ret (None, set_points system (snd r))
        end.

(** The body of the loop of [addUserbindsMount] over the requested
    binds; [flags] is the variable declared before the loop. *)
Fixpoint userbindsLoop (binds : list string) (flags : Z) (p : Points)
  : M (error * Points) :=
  match binds with
  | [] => ret (None, p)
  | b :: rest =>
      let splitted := strings.Split b ":" in
      r <- filepathAbs h (nth 0 splitted "") ;;
      let '(src, err) := r in
      if negb (is_nil err)
      then sylog.Warningf "Can't determine absolute path of %s bind point"
                          [nth 0 splitted ""] ;;;
           userbindsLoop rest flags p
      else
        let dst := if Nat.ltb 1 (List.length splitted) then nth 1 splitted "" else src in
        flags <- (if Nat.ltb 2 (List.length splitted)
                  then
                    if String.eqb (nth 2 splitted "") "ro"
                    then ret (Z.lor flags syscall.MS_RDONLY)
                    else if negb (String.eqb (nth 2 splitted "") "rw")
                    then sylog.Warningf
                           "Not mounting requested %s bind point, invalid mount option %s"
                           [src; nth 2 splitted ""] ;;;
                         ret flags
                    else ret flags
                  else ret flags) ;;
        sylog.Debugf "Adding %s to mount list\n" [src] ;;;
        r <- AddBind p mount.UserbindsTag src dst flags ;;
        let '(err, p) := r in
        if negb (is_nil err)
        then ret (Some ("unabled to " ++ src ++ " to mount list: "
                        ++ errstr err)%string, p)
        else
          r <- AddRemount p mount.UserbindsTag dst flags ;;
          userbindsLoop rest flags (snd r)
  end.

Definition addUserbindsMount (c : container) (system : System)
  : M (error * System) :=
  let cfg := EngineConfig_ (engine c) in
  let flags := bindFlags in
  match GetBindPath cfg with
  | [] => ret (None, system)
  | _ =>
      sylog.Debugf "Checking for 'user bind control' in configuration file" [] ;;;
      if negb (UserBindControl (File cfg))
      then sylog.Warningf
             "Ignoring user bind request: user bind control disabled by system administrator"
             [] ;;;
           ret (None, system)
      else
        r <- userbindsLoop (GetBindPath cfg) flags (SPoints system) ;;
        ret (fst r, set_points system (snd r))
  end.


Definition addTmpMount (c : container) (system : System) : M (error * System) :=
  onPoints system (fun p =>
    let cfg := EngineConfig_ (engine c) in
    let file := File cfg in
    sylog.Debugf "Checking for 'mount tmp' in configuration file" [] ;;;
    if negb (MountTmp file)
    then sylog.Verbosef "Skipping tmp dir mounting (per config)" [] ;;;
         ret (None, p)
    else
      let bindBoth := fun (tmpSource vartmpSource : string) =>
        let flags := bindFlags in
        r <- AddBind p mount.TmpTag tmpSource "/tmp" flags ;;
        let '(err, p) := r in
        match err with
        | Some e =>
            ret (Some ("could not mount container's /tmp directory: " ++ e
                       ++ " " ++ tmpSource)%string, p)
        | None =>
            r <- AddRemount p mount.TmpTag "/tmp" flags ;;
            let p := snd r in
            r <- AddBind p mount.TmpTag vartmpSource "/var/tmp" flags ;;
            let '(err, p) := r in
            match err with
            | Some e =>
                ret (Some ("could not mount container's /var/tmp directory: "
                           ++ e)%string, p)
            | None =>
                r <- AddRemount p mount.TmpTag "/var/tmp" flags ;;
                ret (None, snd r)
            end
        end in
      let tmpSource := "/tmp" in
      let vartmpSource := "/var/tmp" in
      if GetContain cfg
      then
        let workdir := GetWorkdir cfg in
        if negb (String.eqb workdir "")
        then
          if negb (UserBindControl file)
          then sylog.Warningf "User bind control is disabled by system administrator"
                              [] ;;;
               ret (None, p)
          else
            let vartmpSource := "/var_tmp" in
            r <- filepathAbs h (filepath_Clean h workdir) ;;
            let '(workdir, err) := r in
            (if negb (is_nil err)
             then sylog.Warningf "Can't determine absolute path of workdir %s"
                                 [workdir]
             else ret tt) ;;;
            let tmpSource := (workdir ++ tmpSource)%string in
            let vartmpSource := (workdir ++ vartmpSource)%string in
            tryE (fsMkdirAll h tmpSource 493)
                 (fun e => ("failed to create " ++ tmpSource ++ ": " ++ e)%string) p
            (tryE (fsMkdirAll h vartmpSource 493)
                  (fun e => ("failed to create " ++ vartmpSource ++ ": " ++ e)%string)
                  p
                  (bindBoth tmpSource vartmpSource))
        else
          tryE (sessionAddDir h tmpSource) (fun e => e) p
          (tryE (sessionAddDir h vartmpSource) (fun e => e) p
          (r1 <- sessionGetPath h tmpSource ;;
           r2 <- sessionGetPath h vartmpSource ;;
           bindBoth (fst r1) (fst r2)))
      else bindBoth tmpSource vartmpSource).

(** The loop of [addScratchMount] over the scratch directories. *)
Fixpoint scratchLoop (c : container) (dirs : list string) (hasWorkdir : bool)
         (sourceDir : string) (p : Points) : M (error * Points) :=
  match dirs with
  | [] => ret (None, p)
  | dir :: rest =>
      let bindScratch := fun (fullSourceDir : string) =>
        let flags := bindFlags in
        tryP (AddBind p mount.ScratchTag fullSourceDir dir flags)
             (fun e => ("could not bind scratch directory " ++ fullSourceDir
                        ++ " into container: " ++ e)%string)
             (fun p =>
                r <- AddRemount p mount.ScratchTag dir flags ;;
                scratchLoop c rest hasWorkdir sourceDir (snd r)) in
      if hasWorkdir
      then
        let fullSourceDir := filepath_Join h sourceDir (filepath_Base h dir) in
        tryE (fsMkdirAll h fullSourceDir 488)
             (fun e => ("could not create scratch working directory " ++ sourceDir
                        ++ ": " ++ e)%string) p
             (bindScratch fullSourceDir)
      else
        let src := filepath_Join h "/scratch" (filepath_Base h dir) in
        tryE (sessionAddDir h src)
             (fun e => ("could not create scratch working directory " ++ sourceDir
                        ++ ": " ++ e)%string) p
             (r <- sessionGetPath h src ;;
              bindScratch (fst r))
  end.

Definition addScratchMount (c : container) (system : System)
  : M (error * System) :=
  onPoints system (fun p =>
    let cfg := EngineConfig_ (engine c) in
    match GetScratchDir cfg with
    | [] =>
        sylog.Debugf "Not mounting scratch directory: Not requested" [] ;;;
        ret (None, p)
    | first :: others =>
        let scratchdir :=
          match others with
          | [] => strings.Split (filepath_Clean h first) ","
          | _ => first :: others
          end in
        if negb (UserBindControl (File cfg))
        then
          sylog.Verbosef
            "Not mounting scratch: user bind control disabled by system administrator"
            [] ;;;
          ret (None, p)
        else
          let workdir := GetWorkdir cfg in
          let hasWorkdir := negb (String.eqb workdir "") in
          let sourceDir :=
            if hasWorkdir then (filepath_Clean h workdir ++ "/scratch")%string
            else layout.Path (session c) in
          if hasWorkdir
          then
            tryE (fsMkdirAll h sourceDir 488)
                 (fun e => ("could not create scratch working directory "
                            ++ sourceDir ++ ": " ++ e)%string) p
                 (scratchLoop c scratchdir hasWorkdir sourceDir p)
          else scratchLoop c scratchdir hasWorkdir sourceDir p
    end).

Definition addCwdMount (c : container) (system : System) : M (error * System) :=
  onPoints system (fun p =>
    let cfg := EngineConfig_ (engine c) in
    if GetContain cfg
    then sylog.Verbosef "Not mounting current directory: container was requested"
                        [] ;;;
         ret (None, p)
    else if negb (UserBindControl (File cfg))
    then
      sylog.Warningf
        "Not mounting current directory: user bind control is disabled by system administrator"
        [] ;;;
      ret (None, p)
    else
      match OciProcessCwd (engine c) with
      | None => ret (None, p)
      | Some cwd =>
          err <- osChdir h cwd ;;
          match err with
          | Some e =>
              sylog.Debugf "can't go to container working directory: %s" [e] ;;;
              ret (None, p)
          | None =>
              r <- osGetwd h ;;
              let '(current, err) := r in
              match err with
              | Some e =>
                  ret (Some ("could not obtain current directory path: "
                             ++ e)%string, p)
              | None =>
                  if existsb (String.eqb current)
                             ["/"; "/etc"; "/bin"; "/mnt"; "/usr"; "/var"; "/opt";
                              "/sbin"]
                  then
                    sylog.Verbosef
                      "Not mounting CWD within operating system directory: %s"
                      [current] ;;;
                    ret (None, p)
                  else if strings.HasPrefix current "/sys"
                          || strings.HasPrefix current "/proc"
                          || strings.HasPrefix current "/dev"
                  then
                    sylog.Verbosef "Not mounting CWD within virtual directory: %s"
                                   [current] ;;;
                    ret (None, p)
                  else
                    let flags := bindFlags in
                    r <- AddBind p mount.CwdTag current cwd flags ;;
                    let '(err, p) := r in
                    match err with
                    | None =>
                        r <- AddRemount p mount.CwdTag cwd flags ;;
                        ret (None, snd r)
                    | Some e =>
                        sylog.Warningf "Could not bind CWD to container %s: %s"
                                       [current; e] ;;;
                        ret (None, p)
                    end
              end
          end
      end).

Definition addLibsMount (c : container) (system : System) : M (error * System) :=
  ret (None, system).

(** The hook [c.addFilesMount].  The deferred [c.session.Update()] runs
    on every return that follows its registration. *)
Definition addFilesMount (c : container) (system : System) : M (error * System) :=
  onPoints system (fun p =>
    let cfg := EngineConfig_ (engine c) in
    let file := File cfg in
    euid <- osGeteuid ;;
    if euid =? 0
    then sylog.Verbosef "Not updating passwd/group files, running as root!" [] ;;;
         ret (None, p)
    else
      let rootfs := layout.RootFsPath (session c) in
      res <-
        (let groupFile := fun (p : Points) =>
           if ConfigGroup file
           then
             let group := filepath_Join h rootfs "/etc/group" in
             r <- filesGroup h group ;;
             let '(content, err) := r in
             match err with
             | Some e =>
                 sylog.Warningf "%s" [e] ;;;
                 ret (None, p)
             | None =>
                 err <- sessionAddFile h "/etc/group" ;;
                 (match err with
                  | Some e =>
                      sylog.Warningf "failed to add group session file: %s" [e]
                  | None => ret tt
                  end) ;;;
                 r <- sessionGetPath h "/etc/group" ;;
                 let group := fst r in
                 sylog.Debugf "Adding /etc/group to mount list\n" [] ;;;
                 tryP (AddBind p mount.FilesTag group "/etc/group" syscall.MS_BIND)
                      (fun e => ("unable to add /etc/group to mount list: "
                                 ++ e)%string)
                      (fun p => ret (None, p))
             end
           else
             sylog.Verbosef "Skipping bind of the host's /etc/group" [] ;;;
             ret (None, p) in
         if ConfigPasswd file
         then
           let passwd := filepath_Join h rootfs "/etc/passwd" in
           r <- filesPasswd h passwd (GetHome cfg) ;;
           let '(content, err) := r in
           match err with
           | Some e =>
               sylog.Warningf "%s" [e] ;;;
               groupFile p
           | None =>
               err <- sessionAddFile h "/etc/passwd" ;;
               (match err with
                | Some e =>
                    sylog.Warningf "failed to add passwd session file: %s" [e]
                | None => ret tt
                end) ;;;
               r <- sessionGetPath h "/etc/passwd" ;;
               let passwd := fst r in
               sylog.Debugf "Adding /etc/passwd to mount list\n" [] ;;;
               tryP (AddBind p mount.FilesTag passwd "/etc/passwd" syscall.MS_BIND)
                    (fun e => ("unable to add /etc/passwd to mount list: "
                               ++ e)%string)
                    groupFile
           end
         else
           sylog.Verbosef "Skipping bind of the host's /etc/passwd" [] ;;;
           groupFile p) ;;
      sessionUpdate ;;;
      ret res).


(** A hook of the plan, applied to the plan: the closures
    [c.switchMount], [c.addFilesMount] and [c.overlayUpperWork] of this
    file.  Only [switchMount] assigns the [Mount] field.  Modelled from
    the spec for the last case: the realisation hook of a layer belongs
    to package [layout] and works on the registry, as the host says. *)
Definition callHook (c : container) (f : hookFn) (system : System)
  : M (error * System) :=
  match f with
  | HookSwitchMount => ret (switchMount c system)
  | HookOther HookAddFilesMount => addFilesMount c system
  | HookOther HookOverlayUpperWork => overlayUpperWork c system
  | HookOther (HookLayer k) =>
      w <- get_world ;;
      let '(p, err) := layer_hook h w k (SPoints system) in
      ret (err, set_points system p)
  end.

(** Modelled from the spec: the first half of a step of [MountAll],
    every point of the tag goes to the mounter the plan holds, in
    insertion order, until one fails. *)
Fixpoint mountPoints (c : container) (tag : mount.AuthorizedTag) (m : mountFn)
         (pts : list mount.Point) : M error :=
  match pts with
  | [] => ret None
  | p :: rest =>
      emit (ECallMounter tag m p) ;;;
      err <- callMount c m p ;;
      if negb (is_nil err) then ret err
      else mountPoints c tag m rest
  end.

(** Modelled from the spec: the second half of a step of [MountAll],
    the hooks of the tag run in registration order, each on the plan
    the one before has left, until one fails. *)
Fixpoint runHooks (c : container) (tag : mount.AuthorizedTag)
         (hooks : list hookFn) (system : System) : M (error * System) :=
  match hooks with
  | [] => ret (None, system)
  | f :: rest =>
      emit (ERunHook tag f) ;;;
      r <- callHook c f system ;;
      let '(err, system') := r in
      if negb (is_nil err) then ret (err, system')
      else runHooks c tag rest system'
  end.

(** Modelled from the spec: the steps of [MountAll] over a list of
    tags; the mounter and the hooks of a step are read from the plan
    as the step before has left it. *)
Fixpoint mountTags (c : container) (tags : list mount.AuthorizedTag)
         (system : System) : M (error * System) :=
  match tags with
  | [] => ret (None, system)
  | tag :: rest =>
      err <- mountPoints c tag (SMount system) (GetByTag (SPoints system) tag) ;;
      if negb (is_nil err) then ret (err, system)
      else
        r <- runHooks c tag (hooksByTag system tag) system ;;
        let '(err, system') := r in
        if negb (is_nil err) then ret (err, system')
        else mountTags c rest system'
  end.

(** Modelled from the spec: [MountAll] goes through the tags in the
    fixed order; for each tag it mounts every point of the tag with
    the mounter the plan holds, then runs the hooks of the tag in
    registration order.  Any error aborts the whole plan. *)
Definition MountAll (c : container) (system : System) : M (error * System) :=
  mountTags c mount.GetTagList system.


(** Modelled from the spec: [layout.NewSession(base, fstype, size,
    system, layer)] adds the session's tmpfs to the plan at the
    Session tag, stores the layer in the session and, for a layer,
    registers its realisation hook after the Layer tag.  The paths of
    the session and the failures of its staging are the host's. *)
Definition NewSession (base fstype : string) (size : Z) (system : System)
           (layer : option LayerKind) : M (layout.Session * error * System) :=
  emit (ENewSession layer) ;;;
  w <- get_world ;;
  let '(s, err) := layout_NewSession h w base fstype size layer in
  if negb (is_nil err) then ret (nilSession, err, system)
  else
    let tmpfs := mount.mkPoint fstype (layout.Path s) fstype
                               [("size=" ++ itoa size)%string] [] in
    let hooks := match layer with
                 | Some k => [(mount.LayerTag, HookOther (HookLayer k))]
                 | None => []
                 end in
    ret (layout.mkSession (layout.Path s) (layout.FinalPath s)
                          (layout.RootFsPath s) layer,
         None,
         mkSystem (SPoints system ++ [(mount.SessionTag, tmpfs)])
                  (SMount system)
                  (afterTagHooks system ++ hooks)).

(** setupOverlayLayout sets up the session with overlay filesystem *)
Definition setupOverlayLayout (c : container) (system : System)
  : M (error * container * System) :=
  sylog.Debugf "Creating overlay SESSIONDIR layout\n" [] ;;;
  r <- NewSession (SESSIONDIR h) (sessionFsType c) (sessionSize c) system
                  (Some Overlay) ;;
  let '(s, err, system) := r in
  let c := set_session c s in
  if negb (is_nil err) then ret (err, c, system)
  else
    r <- addOverlayMount c system ;;
    let '(err, system) := r in
    if negb (is_nil err) then ret (err, c, system)
    else
      let '(err, system) := RunAfterTag system mount.LayerTag HookSwitchMount in
      ret (err, c, system).

(** setupUnderlayLayout sets up the session with underlay "filesystem" *)
Definition setupUnderlayLayout (c : container) (system : System)
  : M (error * container * System) :=
  sylog.Debugf "Creating underlay SESSIONDIR layout\n" [] ;;;
  r <- NewSession (SESSIONDIR h) (sessionFsType c) (sessionSize c) system
                  (Some Underlay) ;;
  let '(s, err, system) := r in
  let c := set_session c s in
  if negb (is_nil err) then ret (err, c, system)
  else
    let '(err, system) := RunAfterTag system mount.LayerTag HookSwitchMount in
    ret (err, c, system).

(** setupDefaultLayout sets up the session without overlay or underlay *)
Definition setupDefaultLayout (c : container) (system : System)
  : M (error * container * System) :=
  sylog.Debugf "Creating default SESSIONDIR layout\n" [] ;;;
  r <- NewSession (SESSIONDIR h) (sessionFsType c) (sessionSize c) system
                  None ;;
  let '(s, err, system) := r in
  let c := set_session c s in
  if negb (is_nil err) then ret (err, c, system)
  else
    let '(err, system) := RunAfterTag system mount.RootfsTag HookSwitchMount in
    ret (err, c, system).

(** setupSessionLayout will create the session layout according to
    the capabilities of Singularity on the system. It will first
    attempt to use "overlay", followed by "underlay", and if neither
    are available it will not use either. *)
Definition setupSessionLayout (c : container) (system : System)
  : M (error * container * System) :=
  let cfg := EngineConfig_ (engine c) in
  let underlayOrDefault :=
    if EnableUnderlay (File cfg)
    then sylog.Debugf "Attempting to use underlay (enable underlay = yes)\n" [] ;;;
         setupUnderlayLayout c system
    else sylog.Debugf "Not attempting to use underlay or overlay\n" [] ;;;
         setupDefaultLayout c system in
  if GetWritableImage cfg
  then sylog.Debugf "Image is writable, not attempting to use overlay or underlay\n" [] ;;;
       setupDefaultLayout c system
  else
    r <- procHasFilesystem h "overlay" ;;
    let enabled := fst r in
    if enabled && negb (userNS c)
    then
      if String.eqb (EnableOverlay (File cfg)) "yes"
         || String.eqb (EnableOverlay (File cfg)) "try"
      then sylog.Debugf "Attempting to use overlayfs (enable overlay = %v)\n"
                        [EnableOverlay (File cfg)] ;;;
           setupOverlayLayout c system
      else underlayOrDefault
    else underlayOrDefault.

(** [if err := f(system); err != nil { return err }], then the rest. *)
Definition orReturn (m : M (error * System)) (k : System -> M error) : M error :=
  r <- m ;;
  let '(err, system) := r in
  if negb (is_nil err) then ret err else k system.

Definition hasNamespace (t : LinuxNamespaceType) (l : list LinuxNamespaceType)
  : bool :=
  existsb (fun n => match n, t with
                    | UserNamespace, UserNamespace => true
                    | PIDNamespace, PIDNamespace => true
                    | _, _ => false
                    end) l.

(** The container [create] starts from: the session size is set for
    a caller whose effective user is not root, the two namespace
    flags follow the OCI namespace list. *)
Definition initContainer (engine : EngineOperations) (euid : Z) : container :=
  let file := File (EngineConfig_ engine) in
  let size := if negb (euid =? 0) then SessiondirMaxSize file else 0 in
  let ns := match OciNamespaces engine with Some l => l | None => [] end in
  mkContainer engine nilSession (MemoryFSType file) size
              (hasNamespace UserNamespace ns)
              (hasNamespace PIDNamespace ns).

Definition create (engine : EngineOperations) : M error :=
  euid <- osGeteuid ;;
  let c := initContainer engine euid in
  let system := mkSystem [] MountLocal [] in
  r <- setupSessionLayout c system ;;
  let '(err, c, system) := r in
  if negb (is_nil err) then ret err
  else
    orReturn (ret (RunAfterTag system mount.LayerTag (HookOther HookAddFilesMount)))
      (fun system =>
    orReturn (addRootfsMount c system) (fun system =>
    orReturn (addKernelMount c system) (fun system =>
    orReturn (addDevMount c system) (fun system =>
    orReturn (addHostMount c system) (fun system =>
    orReturn (addBindsMount c system) (fun system =>
    orReturn (addHomeMount c system) (fun system =>
    orReturn (addUserbindsMount c system) (fun system =>
    orReturn (addTmpMount c system) (fun system =>
    orReturn (addScratchMount c system) (fun system =>
    orReturn (addCwdMount c system) (fun system =>
    orReturn (addLibsMount c system) (fun system =>
    sylog.Debugf "Mount all" [] ;;;
    orReturn (MountAll c system) (fun system =>
    sylog.Debugf "Chroot into %s\n" [layout.FinalPath (session c)] ;;;
    err <- rpcOpsChroot h (layout.FinalPath (session c)) ;;
    if negb (is_nil err)
    then ret (Some ("chroot failed: " ++ errstr err)%string)
    else
      sylog.Debugf "Chdir into / to avoid errors\n" [] ;;;
      err <- syscallChdir h "/" ;;
      if negb (is_nil err)
      then ret (Some ("change directory failed: " ++ errstr err)%string)
      else ret None))))))))))))).

End Container.


(** ** A host to run the assembler on

    A small machine for the examples: the paths of [present] exist (the
    boolean tells directories from files), [mount(2)] and the helper's
    [Mount] answer [mount_err], [setfsuid(2)] fails when [fsuid_err]
    says so, and only a process that is root, or that asks for
    identities it already holds, may change them. *)

Definition holds_uid (c : Creds) (u : Z) : bool :=
  (u =? ruid c) || (u =? euid c) || (u =? suid c).

Definition lookupPath (present : list (string * bool)) (path : string)
  : StatResult :=
  match find (fun e => String.eqb (fst e) path) present with
  | Some e => StatOK (snd e)
  | None => StatNotExist
  end.

Definition exampleHost (present : list (string * bool)) (mount_err : error)
           (fsuid_err : bool) : Host :=
  {| os_Stat := fun _ path => lookupPath present path;
     sys_Mount := fun _ _ _ _ _ _ => mount_err;
     rpc_Mount := fun _ _ _ _ _ _ => mount_err;
     rpc_Chroot := fun _ _ => None;
     sys_Chdir := fun _ _ => None;
     os_Getwd := fun _ => ("/home/user", None);
     setresuid_err := fun w r e s =>
       negb ((euid (creds w) =? 0)
             || (holds_uid (creds w) r && holds_uid (creds w) e
                 && holds_uid (creds w) s));
     setfsuid_err := fun _ _ => fsuid_err;
     loop_Attach := fun _ _ _ => (0, None);
     loop_SetStatus := fun _ _ => None;
     image_Init := fun _ path writable =>
       (mkImage path
                (match lookupPath present path with
                 | StatOK true => SANDBOX
                 | _ => SQUASHFS
                 end)
                writable 3 0 0, None);
     img_AuthorizedPath := fun _ _ _ => (true, None);
     img_AuthorizedGroup := fun _ _ _ => (true, None);
     img_AuthorizedOwner := fun _ _ _ => (true, None);
     sif_LoadContainerFp := fun _ fd _ => (fd, None);
     sif_GetPartFromGroup := fun _ _ =>
       (sif.mkDescriptor 4096 8192 (sif.PartSystem, None) (sif.FsSquash, None),
        None);
     proc_HasFilesystem := fun _ _ => (true, None);
     proc_ParseMountInfo := fun _ _ => (fun _ => [], None);
     user_GetPwUID := fun _ _ => ("/home/user", None);
     user_GetGrNam := fun _ _ => (5, None);
     ioutil_ReadDir := fun _ _ => ([], None);
     files_Passwd := fun _ _ _ => ("", None);
     files_Group := fun _ _ => ("", None);
     filepath_Abs := fun _ path => (path, None);
     filepath_Clean := fun path => path;
     filepath_Join := fun a b => (a ++ b)%string;
     filepath_Base := fun path => path;
     SESSIONDIR := "/session";
     fs_RootDir := fun _ => "/home";
     fs_IsLink := fun _ _ => false;
     fs_IsDir := fun _ _ => true;
     fs_MkdirAll := fun _ _ _ => None;
     layout_NewSession := fun _ base _ _ layer =>
       (layout.mkSession base (base ++ "/final") (base ++ "/rootfs") layer, None);
     session_AddDir := fun _ _ => None;
     session_AddFile := fun _ _ => None;
     session_AddSymlink := fun _ _ _ => None;
     session_GetPath := fun _ dir => (("/session" ++ dir)%string, None);
     overlay_AddUpperDir := fun _ _ => None;
     overlay_AddWorkDir := fun _ _ => None;
     points_add_err := fun _ _ _ _ _ _ => None;
     layer_hook := fun _ _ p => (p, None) |}.

(** A configuration file with the given overlay and underlay switches
    and user bind control. *)
Definition exampleFile (overlay : string) (underlay userBinds : bool)
  : FileConfig :=
  {| AllowContainerDir := true;
     AllowContainerExtfs := true;
     AllowContainerSquashfs := true;
     LimitContainerPaths := [];
     LimitContainerGroups := [];
     LimitContainerOwners := [];
     EnableOverlay := overlay;
     EnableUnderlay := underlay;
     MountProc := true;
     MountSys := true;
     MountDev := "yes";
     MountDevPts := false;
     MountHome := true;
     MountTmp := true;
     MountHostfs := false;
     BindPath := ["/etc/hosts"];
     UserBindControl := userBinds;
     ConfigPasswd := true;
     ConfigGroup := true;
     MemoryFSType := "tmpfs";
     SessiondirMaxSize := 16 |}.

(** A request for the image [/images/rootfs.sqfs], with the given home
    and user binds. *)
Definition exampleEngine (file : FileConfig) (home : string)
           (binds : list string) : EngineOperations :=
  {| EngineConfig_ :=
       {| File := file;
          GetImage := "/images/rootfs.sqfs";
          GetWritableImage := false;
          GetOverlayImage := [];
          GetContain := false;
          GetNv := false;
          GetWorkdir := "";
          GetScratchDir := [];
          GetNoHome := false;
          GetHome := home;
          GetHomeDir := home;
          GetBindPath := binds |};
     OciNamespaces := None;
     OciProcessCwd := Some "/home/user" |}.

(** A setuid start: real user 1000, effective and saved user root. *)
Definition setuidWorld : World := mkWorld (mkCreds 1000 0 0 0) [].

Definition exampleSession : layout.Session :=
  layout.mkSession "/session" "/session/final" "/session/rootfs" None.

Definition exampleContainer (userns : bool) : container :=
  mkContainer (exampleEngine (exampleFile "try" false true) "/home/user" [])
              exampleSession "tmpfs" 16 userns false.

(** Which events are mounts: a [mount(2)], a [Mount] of the helper or
    the setup of a loop device. *)
Definition is_mount_event (e : Event) : bool :=
  match e with
  | EMount _ _ _ _ _ _ | ERpcMount _ _ _ _ _
  | ELoopAttach _ _ _ | ELoopSetStatus _ _ => true
  | _ => false
  end.

Definition no_mount (evs : list Event) : Prop :=
  forallb (fun e => negb (is_mount_event e)) evs = true.

(** The flag tests of the mounters. *)
Definition has_flag (flags bit : Z) : bool := negb (Z.land flags bit =? 0).

Definition pointFlags (mnt : mount.Point) : Z :=
  fst (mount.ConvertOptions (mount.Options mnt)).



(** ** Properties of computations *)

Definition creds_eqb (a b : Creds) : bool :=
  (ruid a =? ruid b) && (euid a =? euid b) && (suid a =? suid b)
  && (fsuid a =? fsuid b).

(** The events a mounter may produce behind its credential swap, seen
    from the credentials [c] it runs under: no change of identity, no
    step of the plan, and every call that touches the file system is
    issued under [c]. *)
Definition calm (c : Creds) (e : Event) : bool :=
  match e with
  | ESetresuid _ _ _ | ESetfsuid _ => false
  | ECallMounter _ _ _ | ERunHook _ _ => false
  | EStat c' _ | EMount c' _ _ _ _ _
  | ELoopAttach c' _ _ | ELoopSetStatus c' _ => creds_eqb c' c
  | _ => true
  end.

(** A computation that keeps the credentials and only produces calm
    events. *)
Definition steady {A} (m : M A) : Prop :=
  forall w, exists evs,
    snd (m w) = mkWorld (creds w) (trace w ++ evs)
    /\ forallb (calm (creds w)) evs = true.

(** A computation whose new events all satisfy [P]. *)
Definition emits (P : Event -> bool) {A} (m : M A) : Prop :=
  forall w, exists evs,
    trace (snd (m w)) = trace w ++ evs /\ forallb P evs = true.

(** The events of planning: no mount, no change of identity and no
    step of [MountAll]. *)
Definition planning (e : Event) : bool :=
  match e with
  | ESetresuid _ _ _ | ESetfsuid _ => false
  | ECallMounter _ _ _ | ERunHook _ _ => false
  | EMount _ _ _ _ _ _ | ERpcMount _ _ _ _ _
  | ELoopAttach _ _ _ | ELoopSetStatus _ _ => false
  | _ => true
  end.


(** The credentials of the direct mounter while it works, and the ones
    it leaves behind. *)
Definition elevated (uid : Z) : Creds := mkCreds uid 0 uid uid.
Definition demoted (uid : Z) : Creds := mkCreds uid uid 0 uid.

(** The world in which [localMount] runs its body, once both
    credential calls have succeeded. *)
Definition swapped (w : World) : World :=
  let uid := ruid (creds w) in
  mkWorld (elevated uid) (trace w ++ [ESetresuid uid 0 uid; ESetfsuid uid]).

(** The world in which [localMount] calls [Setfsuid]. *)
Definition halfSwapped (w : World) : World :=
  let uid := ruid (creds w) in
  mkWorld (mkCreds uid 0 uid 0) (trace w ++ [ESetresuid uid 0 uid]).

(** Root may take any identity. *)
Definition root_may_setresuid (h : Host) : Prop :=
  forall w r e s, euid (creds w) = 0 -> setresuid_err h w r e s = false.

(** The claim under test for the direct mounter: a call that touches
    the file system runs with the effective user equal to the real one. *)
Definition euid_is_real (e : Event) : bool :=
  match e with
  | EStat c _ | EMount c _ _ _ _ _
  | ELoopAttach c _ _ | ELoopSetStatus c _ => euid c =? ruid c
  | _ => true
  end.

(** *** The layout table of the specification *)

(** The decision table as the specification words it: writable image,
    no layer; else overlay when the kernel has overlayfs, no user
    namespace is in use and enable-overlay is yes or try; else underlay
    when enable-underlay; else no layer. *)
Definition specLayoutSelection (writableImage userNs kernelOverlay : bool)
           (enableOverlay : string) (enableUnderlay : bool) : option LayerKind :=
  if writableImage then None
  else if kernelOverlay && negb userNs
          && (String.eqb enableOverlay "yes" || String.eqb enableOverlay "try")
  then Some Overlay
  else if enableUnderlay then Some Underlay
  else None.

(** The layers handed to [NewSession], in order. *)
Fixpoint newSessions (evs : list Event) : list (option LayerKind) :=
  match evs with
  | [] => []
  | ENewSession l :: rest => l :: newSessions rest
  | _ :: rest => newSessions rest
  end.

(** The tag behind which the mounter is to be switched. *)
Definition switchTag (layer : option LayerKind) : mount.AuthorizedTag :=
  match layer with
  | None => mount.RootfsTag
  | Some _ => mount.LayerTag
  end.

Definition is_switch (f : hookFn) : bool :=
  match f with HookSwitchMount => true | HookOther _ => false end.

(** The registrations of [switchMount] in a plan. *)
Definition switchHooks (system : System) : list (mount.AuthorizedTag * hookFn) :=
  filter (fun e => is_switch (snd e)) (afterTagHooks system).



(** A registration in the plan that carries [MS_RDONLY], or an event
    that is no registration. *)
Definition registers_rdonly (e : Event) : bool :=
  match e with
  | EAddBind _ _ _ flags | EAddRemount _ _ flags =>
      has_flag flags syscall.MS_RDONLY
  | _ => true
  end.

(** A point of the plan at the tag of the user binds whose options
    make it read-only. *)
Definition rdonly_userbind (tp : mount.AuthorizedTag * mount.Point) : bool :=
  mount.tag_eqb (fst tp) mount.UserbindsTag
  && has_flag (pointFlags (snd tp)) syscall.MS_RDONLY.

(** The third field of a user bind is [opt]. *)
Definition has_option (b opt : string) : Prop :=
  (2 < List.length (strings.Split b ":"))%nat
  /\ nth 2 (strings.Split b ":") "" = opt.


(** *** Points for the examples *)


Definition tmpfsPoint (dst : string) : mount.Point :=
  mount.mkPoint "tmpfs" dst "tmpfs" ["nosuid"] [].


Definition imagePoint (src dst : string) (options : list string) : mount.Point :=
  mount.mkPoint src dst "squashfs" options ["offset=4096"; "sizelimit=8192"].

(** A process that has given up every root identity. *)
Definition unprivilegedWorld : World := mkWorld (mkCreds 1000 1000 1000 1000) [].

(** The layer the specification's table selects for a container on a
    host, the kernel's support for overlayfs being what
    [proc.HasFilesystem] answers in the world [w]. *)
Definition chosenLayer (h : Host) (w : World) (c : container)
  : option LayerKind :=
  specLayoutSelection
    (GetWritableImage (EngineConfig_ (engine c)))
    (userNS c)
    (fst (proc_HasFilesystem h w "overlay"))
    (EnableOverlay (File (EngineConfig_ (engine c))))
    (EnableUnderlay (File (EngineConfig_ (engine c)))).

(** A computation whose result always satisfies [Q]. *)
Definition always {A} (Q : A -> Prop) (m : M A) : Prop :=
  forall w, Q (fst (m w)).

(** A plan with the mounter and the [switchMount] registrations of
    [system]. *)
Definition same_switch (system system' : System) : Prop :=
  SMount system' = SMount system /\ switchHooks system' = switchHooks system.

(** A concern: it plans only, and leaves the mounter and the
    [switchMount] registrations of the plan as they are. *)
Definition concern_ok (f : System -> M (error * System)) : Prop :=
  forall system,
    emits planning (f system)
    /\ always (fun r => same_switch system (snd r)) (f system).

(** What a layout set-up achieves for the layer [layer]: it plans only,
    hands [layer] to [NewSession] once, and on success the session
    stores that layer and [switchMount] is registered, once more,
    behind the tag of the layer. *)
Definition setup_post (layer : option LayerKind) (system : System) (w : World)
           (r : (error * container * System) * World) : Prop :=
  exists evs,
    trace (snd r) = trace w ++ evs
    /\ newSessions evs = [layer]
    /\ forallb planning evs = true
    /\ (fst (fst (fst r)) = None ->
        layout.Layer (session (snd (fst (fst r)))) = layer
        /\ SMount (snd (fst r)) = SMount system
        /\ switchHooks (snd (fst r))
           = switchHooks system ++ [(switchTag layer, HookSwitchMount)]).

(** *** The events of [MountAll] *)








(** A moment [w'] of a run that began planning at [w]: the credentials
    are those of [w] and every event since is one of planning. *)
Definition planned_since (w w' : World) : Prop :=
  creds w' = creds w
  /\ exists evs, trace w' = trace w ++ evs /\ forallb planning evs = true.

(** A request for a home other than the one of the password entry, on
    a system whose administrator has disabled user bind control. *)
Definition customHomeEngine : EngineOperations :=
  exampleEngine (exampleFile "try" false false) "/custom/home" [].

(** A container whose user asks for the binds [binds], on a system
    that allows user binds. *)
Definition userbindsContainer (binds : list string) : container :=
  mkContainer (exampleEngine (exampleFile "try" false true) "/home/user" binds)
              exampleSession "tmpfs" 16 false false.

(** The flags of the registrations of a trace, in order. *)
Fixpoint registeredFlags (evs : list Event) : list Z :=
  match evs with
  | [] => []
  | EAddBind _ _ _ flags :: rest => flags :: registeredFlags rest
  | EAddRemount _ _ flags :: rest => flags :: registeredFlags rest
  | _ :: rest => registeredFlags rest
  end.

(** The events of a concern at work: those of planning, the opening
    of a session apart. *)
Definition staging (e : Event) : bool :=
  match e with
  | ENewSession _ => false
  | _ => planning e
  end.

(** A plan with the mounter and the hooks of [system]. *)
Definition same_plan (system system' : System) : Prop :=
  SMount system' = SMount system
  /\ afterTagHooks system' = afterTagHooks system.


(** ** Further properties of computations *)

(** *** Kinds of events, concern by concern *)

(** What [rpcMount] may do: look at paths, log, and ask the helper. *)
Definition rpc_event (e : Event) : bool :=
  match e with
  | EStat _ _ | ERpcMount _ _ _ _ _ | ELog _ _ _ => true
  | _ => false
  end.

(** What [localMount] may do: anything but a call of the helper, a
    step of the plan or a registration. *)
Definition local_event (e : Event) : bool :=
  match e with
  | ESetresuid _ _ _ | ESetfsuid _ | EStat _ _ | EMount _ _ _ _ _ _
  | ELoopAttach _ _ _ | ELoopSetStatus _ _ | ELog _ _ _ => true
  | _ => false
  end.

(** A point handed to the plan. *)
Definition is_registration (e : Event) : bool :=
  match e with
  | EAddFS _ _ _ _ _ | EAddBind _ _ _ _ | EAddRemount _ _ _
  | EAddImage _ _ _ _ _ _ _ => true
  | _ => false
  end.

(** What a trace hands to the plan, in order. *)
Definition registrations (evs : list Event) : list Event :=
  filter is_registration evs.

(** The events of opening an image read-only. *)
Definition opens_readonly (e : Event) : bool :=
  match e with
  | EStat _ _ | ELog _ _ _ => true
  | EImageInit _ writable => negb writable
  | _ => false
  end.

(** The events of [addRootfsMount]: the image is never opened
    writable; a block image is registered read-only at the Rootfs tag,
    a directory as a bind at the Rootfs tag with a remount at the
    PreLayer tag; every registration is [nosuid,nodev]. *)
Definition rootfs_event (e : Event) : bool :=
  match e with
  | EStat _ _ | ELog _ _ _ => true
  | EImageInit _ writable => negb writable
  | EAddImage tag _ _ typ flags _ _ =>
      mount.tag_eqb tag mount.RootfsTag
      && (flags =? Z.lor (Z.lor syscall.MS_NOSUID syscall.MS_NODEV)
                         syscall.MS_RDONLY)
      && (String.eqb typ "squashfs" || String.eqb typ "ext3")
  | EAddBind tag _ _ flags =>
      mount.tag_eqb tag mount.RootfsTag
      && (flags =? Z.lor (Z.lor syscall.MS_NOSUID syscall.MS_NODEV)
                         syscall.MS_BIND)
  | EAddRemount tag _ flags =>
      mount.tag_eqb tag mount.PreLayerTag
      && (flags =? Z.lor (Z.lor syscall.MS_NOSUID syscall.MS_NODEV)
                         syscall.MS_BIND)
  | _ => false
  end.

(** The events of [addKernelMount] for the switches [mount proc] and
    [mount sys] and the PID and user namespaces of the container. *)
Definition kernel_event (mp ms pid uns : bool) (e : Event) : bool :=
  match e with
  | ELog _ _ _ => true
  | EAddFS tag dst typ flags data =>
      mount.tag_eqb tag mount.KernelTag
      && (flags =? Z.lor syscall.MS_NOSUID syscall.MS_NODEV)
      && String.eqb data ""
      && ((String.eqb dst "/proc" && String.eqb typ "proc" && mp && pid)
          || (String.eqb dst "/sys" && String.eqb typ "sysfs" && ms && negb uns))
  | EAddBind tag src dst flags =>
      mount.tag_eqb tag mount.KernelTag
      && (flags =? bindFlags) && String.eqb src dst
      && ((String.eqb dst "/proc" && mp && negb pid)
          || (String.eqb dst "/sys" && ms && uns))
  | EAddRemount tag dst flags =>
      mount.tag_eqb tag mount.KernelTag
      && (flags =? bindFlags)
      && String.eqb dst "/proc" && mp && negb pid && negb uns
  | _ => false
  end.

(** What [addRootfsMount] hands to the plan for the image [img], whose
    default partition is [part] when it is a SIF: a directory is bound
    at the Rootfs tag and remounted at the PreLayer tag,
    [nosuid,nodev]; a block image is one loop-backed point at the
    Rootfs tag, [nosuid,nodev,ro], with the type, the offset and the
    size of the image or of the partition. *)
Definition rootfsRegistrations (c : container) (img : Image)
           (part : sif.Descriptor) : list Event :=
  let rootfs := GetImage (EngineConfig_ (engine c)) in
  let dst := layout.RootFsPath (session c) in
  let src := ("/proc/self/fd/" ++ itoa (ImgFd img))%string in
  let block := Z.lor (Z.lor syscall.MS_NOSUID syscall.MS_NODEV)
                     syscall.MS_RDONLY in
  let dir := Z.lor (Z.lor syscall.MS_NOSUID syscall.MS_NODEV)
                   syscall.MS_BIND in
  match ImgType img with
  | SANDBOX =>
      [EAddBind mount.RootfsTag rootfs dst dir;
       EAddRemount mount.PreLayerTag dst dir]
  | SQUASHFS =>
      [EAddImage mount.RootfsTag src dst "squashfs" block
                 (ImgOffset img) (ImgSize img)]
  | EXT3 =>
      [EAddImage mount.RootfsTag src dst "ext3" block
                 (ImgOffset img) (ImgSize img)]
  | SIF =>
      match fst (sif.GetFsType part) with
      | sif.FsSquash =>
          [EAddImage mount.RootfsTag src dst "squashfs" block
                     (sif.Fileoff part mod 2 ^ 64) (sif.Filelen part mod 2 ^ 64)]
      | sif.FsExt3 =>
          [EAddImage mount.RootfsTag src dst "ext3" block
                     (sif.Fileoff part mod 2 ^ 64) (sif.Filelen part mod 2 ^ 64)]
      | sif.FsOther => []
      end
  end.

(** What [addKernelMount] hands to the plan for the switches [mount
    proc] and [mount sys] and the PID and user namespaces of the
    container: [/proc] first, then [/sys]. *)
Definition kernelRegistrations (mp ms pid uns : bool) : list Event :=
  (if mp
   then if pid
        then [EAddFS mount.KernelTag "/proc" "proc"
                     (Z.lor syscall.MS_NOSUID syscall.MS_NODEV) ""]
        else EAddBind mount.KernelTag "/proc" "/proc" bindFlags
             :: (if uns then []
                 else [EAddRemount mount.KernelTag "/proc" bindFlags])
   else [])
  ++ (if ms
      then if uns
           then [EAddBind mount.KernelTag "/sys" "/sys" bindFlags]
           else [EAddFS mount.KernelTag "/sys" "sysfs"
                        (Z.lor syscall.MS_NOSUID syscall.MS_NODEV) ""]
      else []).

(** The events of [addTmpMount]: binds and remounts onto [/tmp] and
    [/var/tmp] of the container, [nosuid,nodev]; what it stages or
    creates for them. *)
Definition tmp_event (e : Event) : bool :=
  match e with
  | ELog _ _ _ => true
  | EAddBind tag _ dst flags | EAddRemount tag dst flags =>
      mount.tag_eqb tag mount.TmpTag && (flags =? bindFlags)
      && (String.eqb dst "/tmp" || String.eqb dst "/var/tmp")
  | ESessionAddDir dir => String.eqb dir "/tmp" || String.eqb dir "/var/tmp"
  | EMkdirAll _ perm => perm =? 493
  | _ => false
  end.

(** A message and nothing else. *)
Definition log_event (e : Event) : bool :=
  match e with
  | ELog _ _ _ => true
  | _ => false
  end.

(** The session has a layer. *)
Definition has_layer (c : container) : bool :=
  match layout.Layer (session c) with
  | Some _ => true
  | None => false
  end.

(** The events of [addHomeMount]: binds and remounts at the Home tag;
    without a layer, the staging of the home in the session and one
    bind at the Final tag. *)
Definition home_event (layered : bool) (e : Event) : bool :=
  match e with
  | ELog _ _ _ => true
  | EAddBind tag _ _ flags =>
      (flags =? bindFlags)
      && (mount.tag_eqb tag mount.HomeTag
          || (mount.tag_eqb tag mount.FinalTag && negb layered))
  | EAddRemount tag _ flags =>
      (flags =? bindFlags) && mount.tag_eqb tag mount.HomeTag
  | ESessionAddDir _ => negb layered
  | _ => false
  end.

(** The events of [addDevMount] when no [/dev] is staged: the bind of
    the host's [/dev], for [mount dev = yes] only. *)
Definition dev_host_event (yes : bool) (e : Event) : bool :=
  match e with
  | ELog _ _ _ => true
  | EAddBind tag src dst flags =>
      yes && mount.tag_eqb tag mount.DevTag
      && String.eqb src "/dev" && String.eqb dst "/dev"
      && (flags =? Z.lor (Z.lor syscall.MS_BIND syscall.MS_NOSUID) syscall.MS_REC)
  | _ => false
  end.

(** The events of [addDevMount] in general: everything is registered
    at the Dev tag, and no bind is [nodev] or read-only. *)
Definition dev_event (e : Event) : bool :=
  match e with
  | EAddFS tag _ _ _ _ => mount.tag_eqb tag mount.DevTag
  | EAddBind tag _ _ flags =>
      mount.tag_eqb tag mount.DevTag
      && (Z.land flags syscall.MS_NODEV =? 0)
      && (Z.land flags syscall.MS_RDONLY =? 0)
  | EAddRemount _ _ _ | EAddImage _ _ _ _ _ _ _ => false
  | e => staging e
  end.



(** A current directory that [addCwdMount] does not bind: a directory
    of the operating system or a path in a virtual file system. *)
Definition cwd_excluded (current : string) : bool :=
  existsb (String.eqb current)
          ["/"; "/etc"; "/bin"; "/mnt"; "/usr"; "/var"; "/opt"; "/sbin"]
  || (strings.HasPrefix current "/sys"
      || strings.HasPrefix current "/proc"
      || strings.HasPrefix current "/dev").

(** A message or a change of directory. *)
Definition chdir_event (e : Event) : bool :=
  match e with
  | ELog _ _ _ | EChdir _ => true
  | _ => false
  end.


(** The events of [addFilesMount] before the session is updated. *)
Definition files_event (e : Event) : bool :=
  match e with
  | ELog _ _ _ => true
  | ESessionAddFile path =>
      String.eqb path "/etc/passwd" || String.eqb path "/etc/group"
  | EAddBind tag _ dst flags =>
      mount.tag_eqb tag mount.FilesTag && (flags =? syscall.MS_BIND)
      && (String.eqb dst "/etc/passwd" || String.eqb dst "/etc/group")
  | _ => false
  end.

(** The plan never refuses a point. *)
Definition plan_accepts (h : Host) : Prop :=
  forall w p tag src dst flags, points_add_err h w p tag src dst flags = None.

(** The kinds of image the configuration lets users run. *)
Definition typeAllowed (file : FileConfig) (t : ImageType) : bool :=
  match t with
  | SANDBOX => AllowContainerDir file
  | EXT3 => AllowContainerExtfs file
  | SQUASHFS => AllowContainerSquashfs file
  | SIF => true
  end.

(** The point [overlayUpperWork] takes its directories from: the first
    point of the PreLayer tag that is an ext3 image or a bind of a
    directory, and the zero point when the plan has none. *)
Definition overlayPoint (system : System) : mount.Point :=
  match find (fun p =>
                String.eqb (mount.Type_ p) "ext3"
                || (negb (String.eqb (mount.Source p) "")
                    && negb (String.eqb (mount.Destination p) "")
                    && String.eqb (mount.Type_ p) ""))
             (GetByTag (SPoints system) mount.PreLayerTag) with
  | Some p => p
  | None => mount.mkPoint "" "" "" [] []
  end.

Definition upperDir (system : System) : string :=
  (mount.Destination (overlayPoint system) ++ "/upper")%string.

Definition workDir (system : System) : string :=
  (mount.Destination (overlayPoint system) ++ "/work")%string.

(** The creation of the upper or of the work directory, mode 0755. *)
Definition upper_mkdir (system : System) (e : Event) : bool :=
  match e with
  | EMkdirAll path perm =>
      (perm =? 493)
      && (String.eqb path (upperDir system) || String.eqb path (workDir system))
  | _ => false
  end.

(** The source and the destination of an administrator's bind path:
    the fields before and after the first colon, the destination being
    the source when there is no colon; further fields are not read. *)
Definition bindSpec (bindpath : string) : string * string :=
  let splitted := strings.Split bindpath ":" in
  (nth 0 splitted "",
   if Nat.ltb 1 (List.length splitted) then nth 1 splitted ""
   else nth 0 splitted "").

(** The binds handed to the plan along a trace, in order. *)
Fixpoint boundPairs (evs : list Event) : list (string * string) :=
  match evs with
  | [] => []
  | EAddBind _ src dst _ :: rest => (src, dst) :: boundPairs rest
  | _ :: rest => boundPairs rest
  end.

(** The events of [addBindsMount]: binds at the Binds tag,
    [nosuid,nodev], and no remount. *)
Definition binds_event (e : Event) : bool :=
  match e with
  | ELog _ _ _ => true
  | EAddBind tag _ _ flags =>
      mount.tag_eqb tag mount.BindsTag && (flags =? bindFlags)
  | _ => false
  end.

(** The bind paths [addBindsMount] serves: none in a contained run. *)
Definition servedBindPaths (c : container) : list string :=
  if GetContain (EngineConfig_ (engine c)) then []
  else BindPath (File (EngineConfig_ (engine c))).

(** The directories staged in the session along a trace, in order. *)
Fixpoint sessionDirs (evs : list Event) : list string :=
  match evs with
  | [] => []
  | ESessionAddDir dir :: rest => dir :: sessionDirs rest
  | _ :: rest => sessionDirs rest
  end.

(** The session directories of [k] overlay images, counted from [nb]. *)
Definition overlayDirs (nb : Z) (k : nat) : list string :=
  map (fun i => ("/overlay-images/" ++ itoa (nb + Z.of_nat i))%string) (seq 0 k).

(** Anything but the staging of a directory in the session. *)
Definition no_session_dir (e : Event) : bool :=
  match e with
  | ESessionAddDir _ => false
  | _ => true
  end.

(** A computation that stages the directories of the first [k] of [n]
    overlay images, counted from [nb], and of all of them when it
    returns no error. *)
Definition numbered (nb : Z) (n : nat) (m : M (error * System)) : Prop :=
  forall w, exists evs k,
    trace (snd (m w)) = trace w ++ evs
    /\ (k <= n)%nat
    /\ sessionDirs evs = overlayDirs nb k
    /\ (fst (fst (m w)) = None -> k = n).

(** An overlay image requested read-only: [<image>:ro]. *)
Definition marked_ro (img : string) : bool :=
  Nat.eqb (List.length (strings.SplitN2 img ":")) 2
  && String.eqb (nth 1 (strings.SplitN2 img ":") "") "ro".

(** The overlay images requested writable. *)
Definition writableCount (imgs : list string) : nat :=
  List.length (filter (fun img => negb (marked_ro img)) imgs).

(** [k] registrations of [overlayUpperWork] behind the PreLayer tag. *)
Definition upperHooks (k : nat) : list (mount.AuthorizedTag * hookFn) :=
  repeat (mount.PreLayerTag, HookOther HookOverlayUpperWork) k.

(** Anything but a bind or a remount handed to the plan. *)
Definition no_bind (e : Event) : bool :=
  match e with
  | EAddBind _ _ _ _ | EAddRemount _ _ _ => false
  | _ => true
  end.

(** A computation that leaves the credentials alone. *)
Definition keeps_creds {A} (m : M A) : Prop :=
  forall w, creds (snd (m w)) = creds w.

(** A computation that, run under the credentials [cr], keeps them and
    only produces events of the kind [P]. *)
Definition runs_as (cr : Creds) (P : Event -> bool) {A} (m : M A) : Prop :=
  forall w, creds w = cr ->
    exists evs,
      snd (m w) = mkWorld cr (trace w ++ evs) /\ forallb P evs = true.

(** A [mount(2)] of the process itself. *)
Definition is_sys_mount (e : Event) : bool :=
  match e with
  | EMount _ _ _ _ _ _ => true
  | _ => false
  end.




(** Where [mountGeneric] mounts a point: on its destination when that
    lies in the session, and else on its destination under the final
    path of the session. *)
Definition mountTarget (c : container) (mnt : mount.Point) : string :=
  if strings.HasPrefix (mount.Destination mnt) (layout.Path (session c))
  then mount.Destination mnt
  else (layout.FinalPath (session c) ++ mount.Destination mnt)%string.

(** The arguments of the mount of a point. *)
Definition mountArgs (c : container) (mnt : mount.Point)
           (src dst typ : string) (flags : Z) (data : string) : bool :=
  String.eqb src (mount.Source mnt)
  && String.eqb dst (mountTarget c mnt)
  && String.eqb typ (mount.Type_ mnt)
  && (flags =? pointFlags mnt)
  && String.eqb data
       (strings.Join (snd (mount.ConvertOptions (mount.Options mnt))) ",").

(** The events of [mountGeneric] on a point: the mount is the
    process's own for the direct mounter and the helper's otherwise. *)
Definition generic_event (c : container) (mnt : mount.Point) (local : bool)
           (e : Event) : bool :=
  match e with
  | EStat _ _ | ELog _ _ _ => true
  | EMount _ src dst typ flags data =>
      local && mountArgs c mnt src dst typ flags data
  | ERpcMount src dst typ flags data =>
      negb local && mountArgs c mnt src dst typ flags data
  | _ => false
  end.

(** The events of [addTmpMount] outside a contained run: the host's
    [/tmp] and [/var/tmp], bound onto themselves. *)
Definition tmp_host_event (e : Event) : bool :=
  match e with
  | ELog _ _ _ => true
  | EAddBind tag src dst flags =>
      mount.tag_eqb tag mount.TmpTag && (flags =? bindFlags)
      && String.eqb src dst
      && (String.eqb dst "/tmp" || String.eqb dst "/var/tmp")
  | EAddRemount tag dst flags =>
      mount.tag_eqb tag mount.TmpTag && (flags =? bindFlags)
      && (String.eqb dst "/tmp" || String.eqb dst "/var/tmp")
  | _ => false
  end.

(** The events of [addScratchMount], with a working directory or
    without one. *)
Definition scratch_event (hasWorkdir : bool) (e : Event) : bool :=
  match e with
  | ELog _ _ _ => true
  | EMkdirAll _ perm => hasWorkdir && (perm =? 488)
  | ESessionAddDir _ => negb hasWorkdir
  | EAddBind tag _ _ flags | EAddRemount tag _ flags =>
      mount.tag_eqb tag mount.ScratchTag && (flags =? bindFlags)
  | _ => false
  end.

(** The flags of a user bind. *)
Definition userbind_flags (flags : Z) : bool :=
  (flags =? bindFlags) || (flags =? Z.lor bindFlags syscall.MS_RDONLY).

(** The events of [addUserbindsMount]. *)
Definition userbinds_event (e : Event) : bool :=
  match e with
  | ELog _ _ _ => true
  | EAddBind tag _ _ flags | EAddRemount tag _ flags =>
      mount.tag_eqb tag mount.UserbindsTag && userbind_flags flags
  | _ => false
  end.

(** *** More inputs for the examples *)

(** The example host with another current directory, and with every
    path a symbolic link or none. *)
Definition exampleHostWith (cwd : string) (links : bool) : Host :=
  let h := exampleHost [] None false in
  {| os_Stat := os_Stat h;
     sys_Mount := sys_Mount h;
     rpc_Mount := rpc_Mount h;
     rpc_Chroot := rpc_Chroot h;
     sys_Chdir := sys_Chdir h;
     os_Getwd := fun _ => (cwd, None);
     setresuid_err := setresuid_err h;
     setfsuid_err := setfsuid_err h;
     loop_Attach := loop_Attach h;
     loop_SetStatus := loop_SetStatus h;
     image_Init := image_Init h;
     img_AuthorizedPath := img_AuthorizedPath h;
     img_AuthorizedGroup := img_AuthorizedGroup h;
     img_AuthorizedOwner := img_AuthorizedOwner h;
     sif_LoadContainerFp := sif_LoadContainerFp h;
     sif_GetPartFromGroup := sif_GetPartFromGroup h;
     proc_HasFilesystem := proc_HasFilesystem h;
     proc_ParseMountInfo := proc_ParseMountInfo h;
     user_GetPwUID := user_GetPwUID h;
     user_GetGrNam := user_GetGrNam h;
     ioutil_ReadDir := ioutil_ReadDir h;
     files_Passwd := files_Passwd h;
     files_Group := files_Group h;
     filepath_Abs := filepath_Abs h;
     filepath_Clean := filepath_Clean h;
     filepath_Join := filepath_Join h;
     filepath_Base := filepath_Base h;
     SESSIONDIR := SESSIONDIR h;
     fs_RootDir := fs_RootDir h;
     fs_IsLink := fun _ _ => links;
     fs_IsDir := fs_IsDir h;
     fs_MkdirAll := fs_MkdirAll h;
     layout_NewSession := layout_NewSession h;
     session_AddDir := session_AddDir h;
     session_AddFile := session_AddFile h;
     session_AddSymlink := session_AddSymlink h;
     session_GetPath := session_GetPath h;
     overlay_AddUpperDir := overlay_AddUpperDir h;
     overlay_AddWorkDir := overlay_AddWorkDir h;
     points_add_err := points_add_err h;
     layer_hook := layer_hook h |}.

(** The example configuration with other switches for [/dev]. *)
Definition exampleFileDev (dev : string) (devpts : bool) : FileConfig :=
  let f := exampleFile "try" false true in
  {| AllowContainerDir := AllowContainerDir f;
     AllowContainerExtfs := AllowContainerExtfs f;
     AllowContainerSquashfs := AllowContainerSquashfs f;
     LimitContainerPaths := LimitContainerPaths f;
     LimitContainerGroups := LimitContainerGroups f;
     LimitContainerOwners := LimitContainerOwners f;
     EnableOverlay := EnableOverlay f;
     EnableUnderlay := EnableUnderlay f;
     MountProc := MountProc f;
     MountSys := MountSys f;
     MountDev := dev;
     MountDevPts := devpts;
     MountHome := MountHome f;
     MountTmp := MountTmp f;
     MountHostfs := MountHostfs f;
     BindPath := BindPath f;
     UserBindControl := UserBindControl f;
     ConfigPasswd := ConfigPasswd f;
     ConfigGroup := ConfigGroup f;
     MemoryFSType := MemoryFSType f;
     SessiondirMaxSize := SessiondirMaxSize f |}.

(** The example request with overlay images. *)
Definition overlayEngine (overlays : list string) : EngineOperations :=
  let e := exampleEngine (exampleFile "try" false true) "/home/user" [] in
  {| EngineConfig_ :=
       (let g := EngineConfig_ e in
        {| File := File g;
           GetImage := GetImage g;
           GetWritableImage := GetWritableImage g;
           GetOverlayImage := overlays;
           GetContain := GetContain g;
           GetNv := GetNv g;
           GetWorkdir := GetWorkdir g;
           GetScratchDir := GetScratchDir g;
           GetNoHome := GetNoHome g;
           GetHome := GetHome g;
           GetHomeDir := GetHomeDir g;
           GetBindPath := GetBindPath g |});
     OciNamespaces := OciNamespaces e;
     OciProcessCwd := OciProcessCwd e |}.

(** A container on a system whose administrator has disabled user
    bind control, with a request for user binds. *)
Definition lockedContainer (binds : list string) : container :=
  mkContainer (exampleEngine (exampleFile "try" false false) "/home/user" binds)
              exampleSession "tmpfs" 16 false false.

(** A container with the switches [dev] and [devpts] for [/dev]. *)
Definition devContainer (dev : string) (devpts : bool) : container :=
  mkContainer (exampleEngine (exampleFileDev dev devpts) "/home/user" [])
              exampleSession "tmpfs" 16 false false.

(** A container with overlay images. *)
Definition overlayContainer (overlays : list string) : container :=
  mkContainer (overlayEngine overlays) exampleSession "tmpfs" 16 false false.

(** The events of [addCwdMount] for the working directory [cwd] of the
    request: the change of directory to it, and the bind and the
    remount onto it. *)
Definition cwd_event (cwd : option string) (e : Event) : bool :=
  match e with
  | ELog _ _ _ => true
  | EChdir path =>
      match cwd with Some d => String.eqb path d | None => false end
  | EAddBind tag _ dst flags | EAddRemount tag dst flags =>
      mount.tag_eqb tag mount.CwdTag && (flags =? bindFlags)
      && match cwd with Some d => String.eqb dst d | None => false end
  | _ => false
  end.

(** The files staged in the session along a trace, in order. *)
Fixpoint sessionFiles (evs : list Event) : list string :=
  match evs with
  | [] => []
  | ESessionAddFile path :: rest => path :: sessionFiles rest
  | _ :: rest => sessionFiles rest
  end.

(** The devices of a staged [/dev]. *)
Definition baseDevices : list string :=
  ["/dev/null"; "/dev/zero"; "/dev/random"; "/dev/urandom"].

(** A computation on the plan that, when it returns no error, has
    begun by staging the files [l] in the session, in this order. *)
Definition stages_first (l : list string) (m : M (error * Points)) : Prop :=
  forall w,
    fst (fst (m w)) = None ->
    exists evs b,
      trace (snd (m w)) = trace w ++ evs
      /\ sessionFiles evs = l ++ b.

(** A computation on the plan that, when it returns no error, has
    staged the files [l] in the session, in this order and one after
    the other, among the files it has staged. *)
Definition stages_files (l : list string) (m : M (error * Points)) : Prop :=
  forall w,
    fst (fst (m w)) = None ->
    exists evs a b,
      trace (snd (m w)) = trace w ++ evs
      /\ sessionFiles evs = a ++ l ++ b.

(** * Properties *)

(** ** Tactics and general lemmas *)

Ltac run_monad :=
  unfold bind, ret, emit, get_world, osStat, syscallMount, rpcOpsMount,
    loopdevAttach, loopdevSetStatus, imageInit,
    sylog.Debugf, sylog.Verbosef, sylog.Warningf; simpl.

Lemma no_mount_app (a b : list Event) :
  no_mount a -> no_mount b -> no_mount (a ++ b).
Proof.
  unfold no_mount. intros Ha Hb. rewrite forallb_app, Ha, Hb. reflexivity.
Qed.

Lemma creds_eqb_refl (c : Creds) : creds_eqb c c = true.
Proof. unfold creds_eqb. rewrite !Z.eqb_refl. reflexivity. Qed.

Lemma forallb_impl {A} (P Q : A -> bool) (l : list A) :
  (forall x, P x = true -> Q x = true) ->
  forallb P l = true -> forallb Q l = true.
Proof.
  intros HPQ. induction l as [|x l IH]; simpl; [reflexivity|].
  intros H. apply andb_true_iff in H. destruct H as [Hx Hl].
  rewrite (HPQ x Hx), (IH Hl). reflexivity.
Qed.

(** *** Steady computations *)

Lemma steady_ret {A} (a : A) : steady (ret a).
Proof.
  intros w. exists []. destruct w. simpl. rewrite app_nil_r. auto.
Qed.

Lemma steady_bind {A B} (m : M A) (k : A -> M B) :
  steady m -> (forall a, steady (k a)) -> steady (bind m k).
Proof.
  intros Hm Hk w. unfold bind.
  destruct (Hm w) as [e1 [H1 F1]].
  destruct (m w) as [a w1]. simpl in H1. subst w1.
  destruct (Hk a (mkWorld (creds w) (trace w ++ e1))) as [e2 [H2 F2]].
  simpl in *. exists (e1 ++ e2).
  rewrite H2, app_assoc, forallb_app, F1, F2. auto.
Qed.

Lemma steady_log (l : messageLevel) (f : string) (a : list string) :
  steady (emit (ELog l f a)).
Proof. intros w. exists [ELog l f a]. auto. Qed.

Lemma steady_osStat (h : Host) (p : string) : steady (osStat h p).
Proof.
  intros w. eexists. split; [reflexivity|].
  simpl. rewrite creds_eqb_refl. reflexivity.
Qed.

Lemma steady_syscallMount (h : Host) (a b c : string) (d : Z) (e : string) :
  steady (syscallMount h a b c d e).
Proof.
  intros w. eexists. split; [reflexivity|].
  simpl. rewrite creds_eqb_refl. reflexivity.
Qed.

Lemma steady_rpcOpsMount (h : Host) (a b c : string) (d : Z) (e : string) :
  steady (rpcOpsMount h a b c d e).
Proof. intros w. eexists. split; reflexivity. Qed.

Lemma steady_loopdevAttach (h : Host) (a : string) (b : Z) :
  steady (loopdevAttach h a b).
Proof.
  intros w. eexists. split; [reflexivity|].
  simpl. rewrite creds_eqb_refl. reflexivity.
Qed.

Lemma steady_loopdevSetStatus (h : Host) (a : loop.Info64) :
  steady (loopdevSetStatus h a).
Proof.
  intros w. eexists. split; [reflexivity|].
  simpl. rewrite creds_eqb_refl. reflexivity.
Qed.

Ltac steady_step :=
  first
    [ apply steady_ret
    | apply steady_osStat | apply steady_syscallMount | apply steady_rpcOpsMount
    | apply steady_loopdevAttach | apply steady_loopdevSetStatus
    | apply steady_log
    | apply steady_bind; [| intros ]
    | match goal with
      | |- steady (if ?b then _ else _) => destruct b
      | |- steady (let '(_, _) := ?x in _) => destruct x
      | |- steady (match ?x with _ => _ end) => destruct x
      end ].

Lemma steady_mountGeneric (h : Host) (c : container) (mnt : mount.Point)
      (local : bool) : steady (mountGeneric h c mnt local).
Proof. unfold mountGeneric, sylog.Debugf. repeat steady_step. Qed.

Lemma steady_mountImage (h : Host) (c : container) (mnt : mount.Point) :
  steady (mountImage h c mnt).
Proof. unfold mountImage, sylog.Debugf. repeat steady_step. Qed.

Lemma steady_localMountBody (h : Host) (c : container) (p : mount.Point) :
  steady (localMountBody h c p).
Proof.
  unfold localMountBody, sylog.Verbosef.
  repeat first [ apply steady_mountGeneric | apply steady_mountImage
               | steady_step ].
Qed.


(** *** The generic mounter, case by case *)








(** *** The direct mounter and its credential swap *)

Lemma localMount_userns (h : Host) (c : container) (p : mount.Point) (w : World) :
  userNS c = true -> localMount h c p w = localMountBody h c p w.
Proof. unfold localMount. intros ->. reflexivity. Qed.

Lemma localMount_refused (h : Host) (c : container) (p : mount.Point) (w : World) :
  userNS c = false ->
  setresuid_err h w (ruid (creds w)) 0 (ruid (creds w)) = true ->
  localMount h c p w =
    (Some "failed to elevate privileges",
     mkWorld (creds w) (trace w ++ [ESetresuid (ruid (creds w)) 0 (ruid (creds w))])).
Proof.
  unfold localMount, bind, osGetuid, syscallSetresuid. intros -> H.
  simpl. rewrite H. reflexivity.
Qed.

Lemma localMount_fsuid_refused (h : Host) (c : container) (p : mount.Point)
      (w : World) :
  userNS c = false ->
  setresuid_err h w (ruid (creds w)) 0 (ruid (creds w)) = false ->
  setfsuid_err h (halfSwapped w) (ruid (creds w)) = true ->
  fst (localMount h c p w) = Some "failed to set FS uid"
  /\ trace (snd (localMount h c p w))
     = trace w ++ [ESetresuid (ruid (creds w)) 0 (ruid (creds w));
                   ESetfsuid (ruid (creds w));
                   ESetresuid (ruid (creds w)) (ruid (creds w)) 0]
  /\ (root_may_setresuid h ->
      creds (snd (localMount h c p w)) = demoted (ruid (creds w))).
Proof.
  unfold localMount, bind, osGetuid, syscallSetresuid, syscallSetfsuid, halfSwapped.
  intros -> H1 H2. simpl. rewrite H1. simpl. rewrite H2. simpl.
  match goal with |- context [setresuid_err h ?w0 ?r ?e ?s] =>
    destruct (setresuid_err h w0 r e s) eqn:E end; simpl.
  - repeat split; try (rewrite <- !app_assoc; reflexivity).
    intros Hroot. rewrite Hroot in E by reflexivity. discriminate.
  - repeat split; rewrite <- !app_assoc; reflexivity.
Qed.

Lemma syscallSetresuid_ok (h : Host) (r e s : Z) (w : World) :
  setresuid_err h w r e s = false ->
  syscallSetresuid h r e s w
  = (None, mkWorld (mkCreds r e s e) (trace w ++ [ESetresuid r e s])).
Proof. unfold syscallSetresuid. intros ->. reflexivity. Qed.

Lemma syscallSetfsuid_ok (h : Host) (u : Z) (w : World) :
  setfsuid_err h w u = false ->
  syscallSetfsuid h u w
  = (None, mkWorld (mkCreds (ruid (creds w)) (euid (creds w)) (suid (creds w)) u)
                   (trace w ++ [ESetfsuid u])).
Proof. unfold syscallSetfsuid. intros ->. reflexivity. Qed.

Lemma localMount_swapped (h : Host) (c : container) (p : mount.Point) (w : World) :
  userNS c = false ->
  setresuid_err h w (ruid (creds w)) 0 (ruid (creds w)) = false ->
  setfsuid_err h (halfSwapped w) (ruid (creds w)) = false ->
  localMount h c p w =
    (fst (localMountBody h c p (swapped w)),
     snd (syscallSetresuid h (ruid (creds w)) (ruid (creds w)) 0
                           (snd (localMountBody h c p (swapped w))))).
Proof.
  unfold localMount, bind, osGetuid, halfSwapped. intros -> H1 H2. simpl in *.
  rewrite (syscallSetresuid_ok _ _ _ _ _ H1). simpl.
  rewrite (syscallSetfsuid_ok _ _ _ H2). simpl.
  unfold swapped, elevated. rewrite <- app_assoc. simpl.
  destruct (localMountBody h c p _) as [r w']. simpl.
  destruct (syscallSetresuid h _ _ _ w'). reflexivity.
Qed.




Lemma exampleHost_root_may_setresuid (present : list (string * bool))
      (mount_err : error) (fsuid_err : bool) :
  root_may_setresuid (exampleHost present mount_err fsuid_err).
Proof. intros w r e s H. simpl. rewrite H. reflexivity. Qed.

(** C4 (amended): the credential discipline of the direct mounter.
    In a user namespace [localMount] is its body and changes no
    identity.  Otherwise it first calls [Setresuid(uid, 0, uid)] and
    [Setfsuid(uid)]: if either fails it returns an error and touches no
    file; if both succeed, every call of the body that touches the file
    system runs with effective user 0 and file-system user [uid] (the
    real user), the result is the body's, and the deferred
    [Setresuid(uid, uid, 0)] is the last event, on success and on
    failure alike, leaving the effective user [uid] and the saved
    user 0. *)
Theorem localMount_credential_swap (h : Host) (c : container)
        (point : mount.Point) (w : World) :
  (userNS c = true ->
   localMount h c point w = localMountBody h c point w
   /\ exists evs,
        snd (localMount h c point w) = mkWorld (creds w) (trace w ++ evs)
        /\ forallb (calm (creds w)) evs = true)
  /\ (userNS c = false ->
      setresuid_err h w (ruid (creds w)) 0 (ruid (creds w)) = true ->
      localMount h c point w =
        (Some "failed to elevate privileges",
         mkWorld (creds w)
                 (trace w ++ [ESetresuid (ruid (creds w)) 0 (ruid (creds w))])))
  /\ (userNS c = false ->
      setresuid_err h w (ruid (creds w)) 0 (ruid (creds w)) = false ->
      setfsuid_err h (halfSwapped w) (ruid (creds w)) = true ->
      fst (localMount h c point w) = Some "failed to set FS uid"
      /\ trace (snd (localMount h c point w))
         = trace w ++ [ESetresuid (ruid (creds w)) 0 (ruid (creds w));
                       ESetfsuid (ruid (creds w));
                       ESetresuid (ruid (creds w)) (ruid (creds w)) 0]
      /\ (root_may_setresuid h ->
          creds (snd (localMount h c point w)) = demoted (ruid (creds w))))
  /\ (userNS c = false ->
      setresuid_err h w (ruid (creds w)) 0 (ruid (creds w)) = false ->
      setfsuid_err h (halfSwapped w) (ruid (creds w)) = false ->
      exists evs,
        forallb (calm (elevated (ruid (creds w)))) evs = true
        /\ fst (localMount h c point w)
           = fst (localMountBody h c point (swapped w))
        /\ trace (snd (localMount h c point w))
           = trace w
             ++ [ESetresuid (ruid (creds w)) 0 (ruid (creds w));
                 ESetfsuid (ruid (creds w))]
             ++ evs
             ++ [ESetresuid (ruid (creds w)) (ruid (creds w)) 0]
        /\ (root_may_setresuid h ->
            creds (snd (localMount h c point w)) = demoted (ruid (creds w)))).
Proof.
  split; [|split; [|split]].
  - intros Hns. rewrite (localMount_userns h c point w Hns).
    split; [reflexivity|]. apply steady_localMountBody.
  - apply localMount_refused.
  - apply localMount_fsuid_refused.
  - intros Hns H1 H2.
    rewrite (localMount_swapped h c point w Hns H1 H2).
    destruct (steady_localMountBody h c point (swapped w)) as [evs [E F]].
    exists evs. rewrite E. simpl.
    split; [exact F|]. split; [reflexivity|].
    unfold syscallSetresuid. simpl.
    match goal with |- context [setresuid_err h ?w0 ?r ?e ?s] =>
      destruct (setresuid_err h w0 r e s) eqn:Eq end; simpl.
    + split; [rewrite <- !app_assoc; reflexivity|].
      intros Hroot. rewrite Hroot in Eq by reflexivity. discriminate.
    + split; [rewrite <- !app_assoc; reflexivity|]. reflexivity.
Qed.

Lemma localMount_credential_swap_witness :
  (userNS (exampleContainer true) = true
   /\ localMount (exampleHost [("/session/x", true)] None false)
                 (exampleContainer true) (tmpfsPoint "/session/x") setuidWorld
      = localMountBody (exampleHost [("/session/x", true)] None false)
                       (exampleContainer true) (tmpfsPoint "/session/x")
                       setuidWorld)
  /\ fst (localMount (exampleHost [("/session/x", true)] None false)
                     (exampleContainer false) (tmpfsPoint "/session/x")
                     unprivilegedWorld)
     = Some "failed to elevate privileges"
  /\ fst (localMount (exampleHost [("/session/x", true)] None true)
                     (exampleContainer false) (tmpfsPoint "/session/x")
                     setuidWorld)
     = Some "failed to set FS uid"
  /\ creds (snd (localMount (exampleHost [("/session/x", true)] None false)
                            (exampleContainer false) (tmpfsPoint "/session/x")
                            setuidWorld))
     = demoted 1000.
Proof.
  split; [|split; [|split]].
  - split; [reflexivity|].
    destruct (localMount_credential_swap
                (exampleHost [("/session/x", true)] None false)
                (exampleContainer true) (tmpfsPoint "/session/x") setuidWorld)
      as [H _].
    exact (proj1 (H eq_refl)).
  - destruct (localMount_credential_swap
                (exampleHost [("/session/x", true)] None false)
                (exampleContainer false) (tmpfsPoint "/session/x")
                unprivilegedWorld)
      as [_ [H _]].
    rewrite (H eq_refl eq_refl). reflexivity.
  - destruct (localMount_credential_swap
                (exampleHost [("/session/x", true)] None true)
                (exampleContainer false) (tmpfsPoint "/session/x") setuidWorld)
      as [_ [_ [H _]]].
    exact (proj1 (H eq_refl eq_refl eq_refl)).
  - destruct (localMount_credential_swap
                (exampleHost [("/session/x", true)] None false)
                (exampleContainer false) (tmpfsPoint "/session/x") setuidWorld)
      as [_ [_ [_ H]]].
    destruct (H eq_refl eq_refl eq_refl) as [evs [_ [_ [_ Hc]]]].
    exact (Hc (exampleHost_root_may_setresuid _ _ _)).
Defined.

(** C4, as stated, fails: started setuid (real user 1000, effective
    user 0), the direct mounter stats and mounts with effective user 0,
    not 1000, and returns with effective user 1000, not 0. *)
Lemma localMount_works_as_root :
  forallb euid_is_real
    (trace (snd (localMount (exampleHost [("/session/x", true)] None false)
                            (exampleContainer false) (tmpfsPoint "/session/x")
                            setuidWorld)))
  = false
  /\ In (EMount (mkCreds 1000 0 1000 1000) "tmpfs" "/session/x" "tmpfs"
                syscall.MS_NOSUID "")
        (trace (snd (localMount (exampleHost [("/session/x", true)] None false)
                                (exampleContainer false)
                                (tmpfsPoint "/session/x") setuidWorld)))
  /\ fst (localMount (exampleHost [("/session/x", true)] None false)
                     (exampleContainer false) (tmpfsPoint "/session/x")
                     setuidWorld) = None
  /\ euid (creds (snd (localMount (exampleHost [("/session/x", true)] None false)
                                  (exampleContainer false)
                                  (tmpfsPoint "/session/x") setuidWorld)))
     = 1000.
Proof.
  split; [reflexivity|]. split; [|split; reflexivity].
  vm_compute. do 4 right. left. reflexivity.
Qed.




(** *** The loop back end *)

Lemma rdonly_test_equiv (flags : Z) :
  (Z.land flags syscall.MS_RDONLY =? 1)
  = negb (Z.land flags syscall.MS_RDONLY =? 0).
Proof.
  unfold syscall.MS_RDONLY.
  change 1 with (Z.ones 1) at 1 3. rewrite Z.land_ones by lia.
  change (2 ^ 1) with 2.
  assert (H : 0 <= flags mod 2 < 2) by (apply Z.mod_pos_bound; lia).
  destruct (Z.eqb_spec (flags mod 2) 1), (Z.eqb_spec (flags mod 2) 0);
    simpl; try reflexivity; lia.
Qed.

(** C6: the loop device of an image mount.  For a point whose internal
    options carry a well-formed offset and size limit, [mountImage]
    attaches the source [O_RDONLY] when the converted flags include
    [MS_RDONLY] and [O_RDWR] otherwise, and the [Info64] it then sets
    has [FlagsAutoClear] always and [FlagsReadOnly] exactly when the
    flags include [MS_RDONLY]; the test [flags&MS_RDONLY == 1] of the
    code is the non-zero test. *)
Theorem mountImage_loop_flags (h : Host) (c : container) (mnt : mount.Point)
        (w : World) (offset sizelimit : Z) :
  mount.GetOffset (mount.InternalOptions mnt) = (offset, None) ->
  mount.GetSizeLimit (mount.InternalOptions mnt) = (sizelimit, None) ->
  (Z.land (pointFlags mnt) syscall.MS_RDONLY =? 1)
  = has_flag (pointFlags mnt) syscall.MS_RDONLY
  /\ exists rest,
       trace (snd (mountImage h c mnt w))
       = trace w
         ++ ELoopAttach (creds w) (mount.Source mnt)
                        (if has_flag (pointFlags mnt) syscall.MS_RDONLY
                         then os.O_RDONLY else os.O_RDWR)
            :: rest
       /\ (snd (loop_Attach h w (mount.Source mnt)
                            (if has_flag (pointFlags mnt) syscall.MS_RDONLY
                             then os.O_RDONLY else os.O_RDWR)) = None ->
           exists info rest',
             rest = ELoopSetStatus (creds w) info :: rest'
             /\ loop.Offset info = offset
             /\ loop.SizeLimit info = sizelimit
             /\ Z.land (loop.Flags info) loop.FlagsAutoClear = loop.FlagsAutoClear
             /\ (Z.land (loop.Flags info) loop.FlagsReadOnly =? loop.FlagsReadOnly)
                = has_flag (pointFlags mnt) syscall.MS_RDONLY).
Proof.
  intros Ho Hs. split; [apply rdonly_test_equiv|].
  unfold has_flag, pointFlags, mountImage.
  destruct (mount.ConvertOptions (mount.Options mnt)) as [flags opts]. simpl fst.
  rewrite Ho, Hs. simpl is_nil. simpl negb. cbv iota.
  rewrite rdonly_test_equiv. run_monad.
  destruct (negb (Z.land flags syscall.MS_RDONLY =? 0)); simpl.
  - destruct (loop_Attach h w (mount.Source mnt) os.O_RDONLY) as [n [e|]]; simpl.
    + eexists. split; [reflexivity|]. intros; discriminate.
    + destruct (loop_SetStatus h _ _); simpl.
      * eexists. split; [rewrite <- app_assoc; reflexivity|].
        intros _. do 2 eexists. repeat split; reflexivity.
      * destruct (sys_Mount h _ _ _ _ _ _); simpl;
          (eexists; split; [rewrite <- !app_assoc; reflexivity|];
           intros _; do 2 eexists; repeat split; reflexivity).
  - destruct (loop_Attach h w (mount.Source mnt) os.O_RDWR) as [n [e|]]; simpl.
    + eexists. split; [reflexivity|]. intros; discriminate.
    + destruct (loop_SetStatus h _ _); simpl.
      * eexists. split; [rewrite <- app_assoc; reflexivity|].
        intros _. do 2 eexists. repeat split; reflexivity.
      * destruct (sys_Mount h _ _ _ _ _ _); simpl;
          (eexists; split; [rewrite <- !app_assoc; reflexivity|];
           intros _; do 2 eexists; repeat split; reflexivity).
Qed.

Lemma mountImage_loop_flags_witness :
  mount.GetOffset
    (mount.InternalOptions
       (imagePoint "/proc/self/fd/3" "/session/rootfs" ["ro"; "nosuid"]))
  = (4096, None)
  /\ mount.GetSizeLimit
       (mount.InternalOptions
          (imagePoint "/proc/self/fd/3" "/session/rootfs" ["ro"; "nosuid"]))
     = (8192, None)
  /\ (Z.land (pointFlags
                (imagePoint "/proc/self/fd/3" "/session/rootfs" ["ro"; "nosuid"]))
             syscall.MS_RDONLY =? 1) = true.
Proof.
  split; [reflexivity|]. split; [reflexivity|].
  destruct (mountImage_loop_flags (exampleHost [] None false)
              (exampleContainer false)
              (imagePoint "/proc/self/fd/3" "/session/rootfs" ["ro"; "nosuid"])
              setuidWorld 4096 8192 eq_refl eq_refl) as [H _].
  rewrite H. reflexivity.
Defined.

(** *** The image loader *)

(** C8: a directory is never opened writable.  When the path stats as
    a directory, [loadImage] behaves for every requested [writable] as
    it does for [false], and the one call of [image.Init] it makes has
    [writable = false]. *)
Theorem loadImage_sandbox_never_writable (h : Host) (c : container)
        (path : string) (writable : bool) (w : World) :
  os_Stat h w path = StatOK true ->
  loadImage h c path writable w = loadImage h c path false w
  /\ trace (snd (loadImage h c path writable w))
     = trace w ++ [EStat (creds w) path; EImageInit path false].
Proof.
  intros H. unfold loadImage. run_monad. rewrite H. simpl.
  split; [reflexivity|].
  repeat match goal with
         | |- context [match ?x with _ => _ end] => destruct x; simpl
         end; rewrite <- app_assoc; reflexivity.
Qed.

Lemma loadImage_sandbox_never_writable_witness :
  os_Stat (exampleHost [("/images/sandbox", true)] None false) setuidWorld
          "/images/sandbox" = StatOK true
  /\ trace (snd (loadImage (exampleHost [("/images/sandbox", true)] None false)
                           (exampleContainer false) "/images/sandbox" true
                           setuidWorld))
     = [EStat (mkCreds 1000 0 0 0) "/images/sandbox";
        EImageInit "/images/sandbox" false].
Proof.
  split; [reflexivity|].
  exact (proj2 (loadImage_sandbox_never_writable
                  (exampleHost [("/images/sandbox", true)] None false)
                  (exampleContainer false) "/images/sandbox" true setuidWorld
                  eq_refl)).
Defined.

(** *** Computations that plan *)

Lemma emits_ret (P : Event -> bool) {A} (a : A) : emits P (ret a).
Proof. intros w. exists []. simpl. rewrite app_nil_r. auto. Qed.

Lemma emits_bind (P : Event -> bool) {A B} (m : M A) (k : A -> M B) :
  emits P m -> (forall a, emits P (k a)) -> emits P (bind m k).
Proof.
  intros Hm Hk w. unfold bind.
  destruct (Hm w) as [e1 [H1 F1]].
  destruct (m w) as [a w1]. simpl in H1.
  destruct (Hk a w1) as [e2 [H2 F2]].
  exists (e1 ++ e2).
  rewrite H2, H1, app_assoc, forallb_app, F1, F2. auto.
Qed.

Lemma emits_emit (P : Event -> bool) (e : Event) :
  P e = true -> emits P (emit e).
Proof. intros H w. exists [e]. simpl. rewrite H. auto. Qed.

Lemma emits_silent (P : Event -> bool) {A} (m : M A) :
  (forall w, snd (m w) = w) -> emits P m.
Proof.
  intros H w. exists []. rewrite H, app_nil_r. auto.
Qed.

Lemma emits_one (P : Event -> bool) {A} (m : M A) (e : World -> Event) :
  (forall w, trace (snd (m w)) = trace w ++ [e w]) ->
  (forall w, P (e w) = true) ->
  emits P m.
Proof.
  intros E H w. exists [e w]. rewrite E. simpl. rewrite H. auto.
Qed.

Lemma emits_weaken (P Q : Event -> bool) {A} (m : M A) :
  (forall e, P e = true -> Q e = true) -> emits P m -> emits Q m.
Proof.
  intros HPQ Hm w. destruct (Hm w) as [evs [E F]].
  exists evs. split; [exact E|]. exact (forallb_impl P Q evs HPQ F).
Qed.

Lemma staging_planning (e : Event) : staging e = true -> planning e = true.
Proof. destruct e; simpl; auto. Qed.

Lemma stages_plans {A} (m : M A) : emits staging m -> emits planning m.
Proof. apply emits_weaken, staging_planning. Qed.

Lemma staging_newSessions (evs : list Event) :
  forallb staging evs = true -> newSessions evs = [].
Proof.
  induction evs as [|e l IH]; simpl; [reflexivity|].
  intros H. apply andb_true_iff in H. destruct H as [He Hl].
  destruct e; simpl in He; try discriminate He; exact (IH Hl).
Qed.

Lemma emits_tryP (P : Event -> bool) (m : M (error * Points))
      (wrap : string -> string) (k : Points -> M (error * Points)) :
  emits P m -> (forall p, emits P (k p)) -> emits P (tryP m wrap k).
Proof.
  intros Hm Hk. unfold tryP. apply emits_bind; [exact Hm|].
  intros [[e|] p]; [apply emits_ret|apply Hk].
Qed.

Lemma emits_tryE (P : Event -> bool) (m : M error) (wrap : string -> string)
      (p : Points) (k : M (error * Points)) :
  emits P m -> emits P k -> emits P (tryE m wrap p k).
Proof.
  intros Hm Hk. unfold tryE. apply emits_bind; [exact Hm|].
  intros [e|]; [apply emits_ret|exact Hk].
Qed.

Lemma emits_onPoints (P : Event -> bool) (system : System)
      (f : Points -> M (error * Points)) :
  (forall p, emits P (f p)) -> emits P (onPoints system f).
Proof.
  intros Hf. unfold onPoints. apply emits_bind; [apply Hf|].
  intros r. apply emits_ret.
Qed.

Lemma always_ret {A} (Q : A -> Prop) (a : A) : Q a -> always Q (ret a).
Proof. intros H w. exact H. Qed.

Lemma always_bind {A B} (Q : B -> Prop) (m : M A) (k : A -> M B) :
  (forall a, always Q (k a)) -> always Q (bind m k).
Proof.
  intros Hk w. unfold bind. destruct (m w) as [a w1]. apply Hk.
Qed.


Lemma same_plan_points (system : System) (p : Points) :
  same_plan system (set_points system p).
Proof. split; reflexivity. Qed.

Lemma same_plan_switch (system system' : System) :
  same_plan system system' -> same_switch system system'.
Proof.
  intros [H1 H2]. split; [exact H1|]. unfold switchHooks. rewrite H2. reflexivity.
Qed.

Lemma same_switch_refl (system : System) : same_switch system system.
Proof. split; reflexivity. Qed.

Lemma same_switch_points (system : System) (p : Points) :
  same_switch system (set_points system p).
Proof. split; reflexivity. Qed.

Lemma same_switch_trans (a b c : System) :
  same_switch a b -> same_switch b c -> same_switch a c.
Proof.
  intros [H1 H2] [H3 H4]. split; congruence.
Qed.

Lemma same_switch_set_points (a b : System) (p : Points) :
  same_switch a b -> same_switch a (set_points b p).
Proof.
  intros H. exact (same_switch_trans _ _ _ H (same_switch_points b p)).
Qed.

Lemma same_switch_other_hook (a b : System) (p : Points)
      (tag : mount.AuthorizedTag) (o : otherHook) :
  same_switch a b ->
  same_switch a (mkSystem p (SMount b) (afterTagHooks b ++ [(tag, HookOther o)])).
Proof.
  intros [H1 H2]. split; [exact H1|].
  unfold switchHooks in *. simpl. rewrite filter_app. simpl.
  rewrite app_nil_r. exact H2.
Qed.

Lemma always_onPoints (system : System) (f : Points -> M (error * Points)) :
  always (fun r => same_plan system (snd r)) (onPoints system f).
Proof.
  unfold onPoints. apply always_bind. intros r.
  apply always_ret. apply same_plan_points.
Qed.

Lemma always_weaken {A} (Q R : A -> Prop) (m : M A) :
  (forall a, Q a -> R a) -> always Q m -> always R m.
Proof. intros H Hm w. apply H, Hm. Qed.

(** The registrations in the plan. *)

Lemma emits_AddBind (P : Event -> bool) (h : Host) (p : Points)
      (tag : mount.AuthorizedTag) (src dst : string) (flags : Z) :
  P (EAddBind tag src dst flags) = true ->
  emits P (AddBind h p tag src dst flags).
Proof.
  intros H. unfold AddBind.
  apply emits_bind; [apply emits_emit; exact H|]. intros _.
  apply emits_bind; [apply emits_silent; reflexivity|]. intros w.
  destruct (points_add_err h w p tag src dst flags); apply emits_ret.
Qed.

Lemma emits_AddRemount (P : Event -> bool) (h : Host) (p : Points)
      (tag : mount.AuthorizedTag) (dst : string) (flags : Z) :
  P (EAddRemount tag dst flags) = true ->
  emits P (AddRemount h p tag dst flags).
Proof.
  intros H. unfold AddRemount.
  apply emits_bind; [apply emits_emit; exact H|]. intros _.
  apply emits_bind; [apply emits_silent; reflexivity|]. intros w.
  destruct (points_add_err h w p tag "" dst flags); apply emits_ret.
Qed.

Lemma emits_AddFS (P : Event -> bool) (h : Host) (p : Points)
      (tag : mount.AuthorizedTag) (dst typ : string) (flags : Z)
      (data : string) :
  P (EAddFS tag dst typ flags data) = true ->
  emits P (AddFS h p tag dst typ flags data).
Proof.
  intros H. unfold AddFS.
  apply emits_bind; [apply emits_emit; exact H|]. intros _.
  apply emits_bind; [apply emits_silent; reflexivity|]. intros w.
  destruct (points_add_err h w p tag typ dst flags); apply emits_ret.
Qed.

Lemma emits_AddImage (P : Event -> bool) (h : Host) (p : Points)
      (tag : mount.AuthorizedTag) (src dst typ : string)
      (flags offset size : Z) :
  P (EAddImage tag src dst typ flags offset size) = true ->
  emits P (AddImage h p tag src dst typ flags offset size).
Proof.
  intros H. unfold AddImage.
  apply emits_bind; [apply emits_emit; exact H|]. intros _.
  apply emits_bind; [apply emits_silent; reflexivity|]. intros w.
  destruct (points_add_err h w p tag src dst flags); apply emits_ret.
Qed.

(** The calls that leave a mark. *)

Lemma emits_osStat (P : Event -> bool) (h : Host) (path : string) :
  (forall c, P (EStat c path) = true) -> emits P (osStat h path).
Proof.
  intros H. apply emits_one with (e := fun w => EStat (creds w) path);
    [reflexivity|intros w; apply H].
Qed.

Lemma emits_imageInit (P : Event -> bool) (h : Host) (path : string)
      (writable : bool) :
  P (EImageInit path writable) = true -> emits P (imageInit h path writable).
Proof.
  intros H. apply emits_one with (e := fun _ => EImageInit path writable);
    [reflexivity|intros _; exact H].
Qed.

Lemma emits_sessionAddDir (P : Event -> bool) (h : Host) (dir : string) :
  P (ESessionAddDir dir) = true -> emits P (sessionAddDir h dir).
Proof.
  intros H. apply emits_one with (e := fun _ => ESessionAddDir dir);
    [reflexivity|intros _; exact H].
Qed.

Lemma emits_sessionAddFile (P : Event -> bool) (h : Host) (path : string) :
  P (ESessionAddFile path) = true -> emits P (sessionAddFile h path).
Proof.
  intros H. apply emits_one with (e := fun _ => ESessionAddFile path);
    [reflexivity|intros _; exact H].
Qed.

Lemma emits_sessionAddSymlink (P : Event -> bool) (h : Host)
      (path target : string) :
  P (ESessionAddSymlink path target) = true ->
  emits P (sessionAddSymlink h path target).
Proof.
  intros H. apply emits_one with (e := fun _ => ESessionAddSymlink path target);
    [reflexivity|intros _; exact H].
Qed.

Lemma emits_overlayAddUpperDir (P : Event -> bool) (h : Host) (dir : string) :
  P (EOverlayAddUpperDir dir) = true -> emits P (overlayAddUpperDir h dir).
Proof.
  intros H. apply emits_one with (e := fun _ => EOverlayAddUpperDir dir);
    [reflexivity|intros _; exact H].
Qed.

Lemma emits_overlayAddWorkDir (P : Event -> bool) (h : Host) (dir : string) :
  P (EOverlayAddWorkDir dir) = true -> emits P (overlayAddWorkDir h dir).
Proof.
  intros H. apply emits_one with (e := fun _ => EOverlayAddWorkDir dir);
    [reflexivity|intros _; exact H].
Qed.

Lemma emits_fsMkdirAll (P : Event -> bool) (h : Host) (path : string)
      (perm : Z) :
  P (EMkdirAll path perm) = true -> emits P (fsMkdirAll h path perm).
Proof.
  intros H. apply emits_one with (e := fun _ => EMkdirAll path perm);
    [reflexivity|intros _; exact H].
Qed.

Lemma emits_osChdir (P : Event -> bool) (h : Host) (path : string) :
  P (EChdir path) = true -> emits P (osChdir h path).
Proof.
  intros H. apply emits_one with (e := fun _ => EChdir path);
    [reflexivity|intros _; exact H].
Qed.

(** The calls that leave none. *)

Lemma emits_osGetuid (P : Event -> bool) : emits P osGetuid.
Proof. apply emits_silent. reflexivity. Qed.

Lemma emits_osGeteuid (P : Event -> bool) : emits P osGeteuid.
Proof. apply emits_silent. reflexivity. Qed.

Lemma emits_get_world (P : Event -> bool) : emits P get_world.
Proof. apply emits_silent. reflexivity. Qed.

Lemma emits_userGetPwUID (P : Event -> bool) (h : Host) (uid : Z) :
  emits P (userGetPwUID h uid).
Proof. apply emits_silent. reflexivity. Qed.

Lemma emits_userGetGrNam (P : Event -> bool) (h : Host) (name : string) :
  emits P (userGetGrNam h name).
Proof. apply emits_silent. reflexivity. Qed.

Lemma emits_filepathAbs (P : Event -> bool) (h : Host) (path : string) :
  emits P (filepathAbs h path).
Proof. apply emits_silent. reflexivity. Qed.

Lemma emits_sessionGetPath (P : Event -> bool) (h : Host) (dir : string) :
  emits P (sessionGetPath h dir).
Proof. apply emits_silent. reflexivity. Qed.

Lemma emits_procHasFilesystem (P : Event -> bool) (h : Host) (fs : string) :
  emits P (procHasFilesystem h fs).
Proof. apply emits_silent. reflexivity. Qed.

Lemma emits_procParseMountInfo (P : Event -> bool) (h : Host) (path : string) :
  emits P (procParseMountInfo h path).
Proof. apply emits_silent. reflexivity. Qed.

Lemma emits_ioutilReadDir (P : Event -> bool) (h : Host) (dir : string) :
  emits P (ioutilReadDir h dir).
Proof. apply emits_silent. reflexivity. Qed.

Lemma emits_filesPasswd (P : Event -> bool) (h : Host) (path home : string) :
  emits P (filesPasswd h path home).
Proof. apply emits_silent. reflexivity. Qed.

Lemma emits_filesGroup (P : Event -> bool) (h : Host) (path : string) :
  emits P (filesGroup h path).
Proof. apply emits_silent. reflexivity. Qed.

Lemma emits_osGetwd (P : Event -> bool) (h : Host) : emits P (osGetwd h).
Proof. apply emits_silent. reflexivity. Qed.

Lemma emits_fsIsLink (P : Event -> bool) (h : Host) (path : string) :
  emits P (fsIsLink h path).
Proof. apply emits_silent. reflexivity. Qed.

Lemma emits_fsIsDir (P : Event -> bool) (h : Host) (path : string) :
  emits P (fsIsDir h path).
Proof. apply emits_silent. reflexivity. Qed.

Lemma emits_sifLoadContainerFp (P : Event -> bool) (h : Host) (fd : Z)
      (rdonly : bool) :
  emits P (sifLoadContainerFp h fd rdonly).
Proof. apply emits_silent. reflexivity. Qed.

Lemma emits_sifGetPartFromGroup (P : Event -> bool) (h : Host) (fimg : Z) :
  emits P (sifGetPartFromGroup h fimg).
Proof. apply emits_silent. reflexivity. Qed.

Lemma emits_log (l : messageLevel) (f : string) (a : list string) :
  emits planning (emit (ELog l f a)).
Proof. apply emits_emit. reflexivity. Qed.

(** One step through a computation whose events are all of one kind. *)
Ltac emits_prim :=
  lazymatch goal with
  | |- emits _ (ret _) => apply emits_ret
  | |- emits _ (emit _) => apply emits_emit; reflexivity
  | |- emits _ (AddBind _ _ _ _ _ _) => apply emits_AddBind; reflexivity
  | |- emits _ (AddRemount _ _ _ _ _) => apply emits_AddRemount; reflexivity
  | |- emits _ (AddFS _ _ _ _ _ _ _) => apply emits_AddFS; reflexivity
  | |- emits _ (AddImage _ _ _ _ _ _ _ _ _) => apply emits_AddImage; reflexivity
  | |- emits _ (osStat _ _) => apply emits_osStat; intros; reflexivity
  | |- emits _ (imageInit _ _ _) => apply emits_imageInit; reflexivity
  | |- emits _ (sessionAddDir _ _) => apply emits_sessionAddDir; reflexivity
  | |- emits _ (sessionAddFile _ _) => apply emits_sessionAddFile; reflexivity
  | |- emits _ (sessionAddSymlink _ _ _) =>
      apply emits_sessionAddSymlink; reflexivity
  | |- emits _ (overlayAddUpperDir _ _) =>
      apply emits_overlayAddUpperDir; reflexivity
  | |- emits _ (overlayAddWorkDir _ _) =>
      apply emits_overlayAddWorkDir; reflexivity
  | |- emits _ (fsMkdirAll _ _ _) => apply emits_fsMkdirAll; reflexivity
  | |- emits _ (osChdir _ _) => apply emits_osChdir; reflexivity
  | |- emits _ osGetuid => apply emits_osGetuid
  | |- emits _ osGeteuid => apply emits_osGeteuid
  | |- emits _ get_world => apply emits_get_world
  | |- emits _ (userGetPwUID _ _) => apply emits_userGetPwUID
  | |- emits _ (userGetGrNam _ _) => apply emits_userGetGrNam
  | |- emits _ (filepathAbs _ _) => apply emits_filepathAbs
  | |- emits _ (sessionGetPath _ _) => apply emits_sessionGetPath
  | |- emits _ (procHasFilesystem _ _) => apply emits_procHasFilesystem
  | |- emits _ (procParseMountInfo _ _) => apply emits_procParseMountInfo
  | |- emits _ (ioutilReadDir _ _) => apply emits_ioutilReadDir
  | |- emits _ (filesPasswd _ _ _) => apply emits_filesPasswd
  | |- emits _ (filesGroup _ _) => apply emits_filesGroup
  | |- emits _ (osGetwd _) => apply emits_osGetwd
  | |- emits _ (fsIsLink _ _) => apply emits_fsIsLink
  | |- emits _ (fsIsDir _ _) => apply emits_fsIsDir
  | |- emits _ (sifLoadContainerFp _ _ _) => apply emits_sifLoadContainerFp
  | |- emits _ (sifGetPartFromGroup _ _) => apply emits_sifGetPartFromGroup
  end.

Ltac emits_step :=
  lazymatch goal with
  | |- emits _ (bind _ _) => apply emits_bind; [| intros ]
  | |- emits _ (tryP _ _ _) => apply emits_tryP; [| intros ]
  | |- emits _ (tryE _ _ _ _) => apply emits_tryE
  | |- emits _ (onPoints _ _) => apply emits_onPoints; intros
  | |- emits _ (if ?b then _ else _) => destruct b
  | |- emits _ (let '(_, _) := ?x in _) => destruct x
  | |- emits _ (match ?x with _ => _ end) => destruct x
  | _ => emits_prim
  end.

(** The messages and the plain session calls are single events; local
    definitions are unfolded. *)
Ltac plan_prep :=
  unfold sylog.Debugf, sylog.Verbosef, sylog.Warningf, sessionUpdate,
    overlayAddLowerDir;
  cbv beta zeta.


(** *** The concerns *)

Lemma concern_of_stages (f : Points -> M (error * Points)) :
  (forall p, emits staging (f p)) ->
  concern_ok (fun system => onPoints system f).
Proof.
  intros H system. split.
  - apply stages_plans, emits_onPoints, H.
  - apply (always_weaken (fun r => same_plan system (snd r)));
      [intros a; apply same_plan_switch|apply always_onPoints].
Qed.

Lemma stages_loadImage (h : Host) (c : container) (path : string)
      (writable : bool) :
  emits staging (loadImage h c path writable).
Proof.
  unfold loadImage. plan_prep. repeat emits_step.
Qed.

Ltac stage_step :=
  lazymatch goal with
  | |- emits _ (loadImage _ _ _ _) => apply stages_loadImage
  | _ => emits_step
  end.

Lemma concern_addRootfsMount (h : Host) (c : container) :
  concern_ok (addRootfsMount h c).
Proof.
  unfold addRootfsMount. apply concern_of_stages. intros p.
  plan_prep. repeat stage_step.
Qed.


Lemma stages_overlayLoop (h : Host) (c : container) (imgs : list string) :
  forall nb system, emits staging (overlayLoop h c imgs nb system).
Proof.
  induction imgs as [|img rest IH]; intros nb system; [apply emits_ret|].
  cbn [overlayLoop]. unfold RunAfterTag. plan_prep. cbv beta iota zeta.
  repeat lazymatch goal with
         | |- emits _ (overlayLoop _ _ _ _ _) => apply IH
         | _ => stage_step
         end.
Qed.

Lemma overlayLoop_same_switch (h : Host) (c : container) (imgs : list string) :
  forall nb system system0,
    same_switch system0 system ->
    always (fun r => same_switch system0 (snd r)) (overlayLoop h c imgs nb system).
Proof.
  induction imgs as [|img rest IH]; intros nb system system0 H0.
  - apply always_ret. exact H0.
  - cbn [overlayLoop]. unfold RunAfterTag. cbv beta iota zeta.
    repeat lazymatch goal with
           | |- always _ (overlayLoop _ _ _ _ _) => apply IH
           | |- always _ (ret _) => apply always_ret; cbn [snd]
           | |- always _ (bind _ _) => apply always_bind; intros
           | |- always _ (if ?b then _ else _) => destruct b
           | |- always _ (match ?x with _ => _ end) => destruct x
           | |- same_switch _ (set_points _ _) => apply same_switch_set_points
           | |- same_switch _ (mkSystem _ _ (_ ++ _)) =>
               apply same_switch_other_hook
           | |- same_switch _ _ => exact H0
           end.
Qed.

Lemma concern_addOverlayMount (h : Host) (c : container) :
  concern_ok (addOverlayMount h c).
Proof.
  intros system. unfold addOverlayMount. split.
  - apply stages_plans, stages_overlayLoop.
  - apply overlayLoop_same_switch, same_switch_refl.
Qed.

Lemma concern_addKernelMount (h : Host) (c : container) :
  concern_ok (addKernelMount h c).
Proof.
  unfold addKernelMount. apply concern_of_stages. intros p.
  plan_prep. repeat emits_step.
Qed.

Lemma stages_bindDev (h : Host) (c : container) (devpath : string) (p : Points) :
  emits staging (bindDev h c devpath p).
Proof.
  unfold bindDev. plan_prep. repeat emits_step.
Qed.

Lemma stages_nvidiaLoop (h : Host) (c : container) (files : list string) :
  forall p, emits staging (nvidiaLoop h c files p).
Proof.
  induction files as [|name rest IH]; intros p; [apply emits_ret|].
  cbn [nvidiaLoop].
  repeat lazymatch goal with
         | |- emits _ (nvidiaLoop _ _ _ _) => apply IH
         | |- emits _ (bindDev _ _ _ _) => apply stages_bindDev
         | _ => emits_step
         end.
Qed.

Lemma concern_addDevMount (h : Host) (c : container) :
  concern_ok (addDevMount h c).
Proof.
  unfold addDevMount. apply concern_of_stages. intros p.
  plan_prep.
  repeat lazymatch goal with
         | |- emits _ (nvidiaLoop _ _ _ _) => apply stages_nvidiaLoop
         | |- emits _ (bindDev _ _ _ _) => apply stages_bindDev
         | _ => emits_step
         end.
Qed.

Lemma stages_hostLoop (h : Host) (children : list string) (flags : Z) :
  forall p, emits staging (hostLoop h children flags p).
Proof.
  induction children as [|child rest IH]; intros p; [apply emits_ret|].
  cbn [hostLoop]. plan_prep.
  repeat lazymatch goal with
         | |- emits _ (hostLoop _ _ _ _) => apply IH
         | _ => emits_step
         end.
Qed.

Lemma concern_addHostMount (h : Host) (c : container) :
  concern_ok (addHostMount h c).
Proof.
  unfold addHostMount. apply concern_of_stages. intros p.
  plan_prep.
  repeat lazymatch goal with
         | |- emits _ (hostLoop _ _ _ _) => apply stages_hostLoop
         | _ => emits_step
         end.
Qed.

Lemma stages_bindsLoop (h : Host) (binds : list string) (flags : Z) :
  forall p, emits staging (bindsLoop h binds flags p).
Proof.
  induction binds as [|b rest IH]; intros p; [apply emits_ret|].
  cbn [bindsLoop]. plan_prep.
  repeat lazymatch goal with
         | |- emits _ (bindsLoop _ _ _ _) => apply IH
         | _ => emits_step
         end.
Qed.

Lemma concern_addBindsMount (h : Host) (c : container) :
  concern_ok (addBindsMount h c).
Proof.
  unfold addBindsMount. apply concern_of_stages. intros p.
  plan_prep.
  repeat lazymatch goal with
         | |- emits _ (bindsLoop _ _ _ _) => apply stages_bindsLoop
         | _ => emits_step
         end.
Qed.


Lemma emits_userbindsLoop (h : Host) (binds : list string) :
  forall flags p, emits planning (userbindsLoop h binds flags p).
Proof.
  induction binds as [|b rest IH]; intros flags p; [apply emits_ret|].
  cbn [userbindsLoop]. plan_prep.
  repeat lazymatch goal with
         | |- emits _ (userbindsLoop _ _ _ _) => apply IH
         | _ => emits_step
         end.
Qed.











Lemma switchHooks_app (system : System)
      (extra : list (mount.AuthorizedTag * hookFn)) :
  switchHooks (mkSystem (SPoints system) (SMount system)
                        (afterTagHooks system ++ extra))
  = switchHooks system ++ filter (fun e => is_switch (snd e)) extra.
Proof. unfold switchHooks. simpl. apply filter_app. Qed.


(** *** The session layout *)

Lemma setupDefaultLayout_post (h : Host) (c : container) (system : System)
      (w : World) :
  setup_post None system w (setupDefaultLayout h c system w).
Proof.
  unfold setup_post, setupDefaultLayout, NewSession, RunAfterTag,
    sylog.Debugf, bind, emit, get_world, ret. simpl.
  destruct (layout_NewSession h _ _ _ _ _) as [s [e|]]; simpl;
    (eexists; split; [rewrite <- app_assoc; reflexivity|]).
  - split; [reflexivity|]. split; [reflexivity|]. discriminate.
  - repeat split; try reflexivity.
    unfold switchHooks. simpl. rewrite !filter_app. simpl.
    rewrite app_nil_r. reflexivity.
Qed.

Lemma setupUnderlayLayout_post (h : Host) (c : container) (system : System)
      (w : World) :
  setup_post (Some Underlay) system w (setupUnderlayLayout h c system w).
Proof.
  unfold setup_post, setupUnderlayLayout, NewSession, RunAfterTag,
    sylog.Debugf, bind, emit, get_world, ret. simpl.
  destruct (layout_NewSession h _ _ _ _ _) as [s [e|]]; simpl;
    (eexists; split; [rewrite <- app_assoc; reflexivity|]).
  - split; [reflexivity|]. split; [reflexivity|]. discriminate.
  - repeat split; try reflexivity.
    unfold switchHooks. simpl. rewrite !filter_app. simpl.
    rewrite app_nil_r. reflexivity.
Qed.

Lemma setupOverlayLayout_post (h : Host) (c : container) (system : System)
      (w : World) :
  setup_post (Some Overlay) system w (setupOverlayLayout h c system w).
Proof.
  unfold setup_post, setupOverlayLayout, NewSession, RunAfterTag,
    sylog.Debugf, addOverlayMount, bind, emit, get_world, ret.
  cbn [creds trace fst snd].
  destruct (layout_NewSession h _ _ _ _ _) as [s [e|]]; cbn [is_nil negb].
  - eexists. split; [cbn [snd trace]; rewrite <- app_assoc; reflexivity|].
    split; [reflexivity|]. split; [reflexivity|]. discriminate.
  - match goal with
    | |- context [overlayLoop h ?c' ?imgs ?nb ?sys ?w'] =>
        destruct (stages_overlayLoop h c' imgs nb sys w') as [evs [E F]];
        pose proof (overlayLoop_same_switch h c' imgs nb sys sys
                      (same_switch_refl sys) w') as S;
        destruct (overlayLoop h c' imgs nb sys w') as [[err sys2] w2]
    end.
    cbn [fst snd trace] in E, S.
    eexists ([ELog DEBUG _ []; ENewSession (Some Overlay)] ++ evs).
    assert (N : newSessions evs = []) by (apply staging_newSessions, F).
    assert (P : forallb planning evs = true)
      by (exact (forallb_impl _ _ evs staging_planning F)).
    destruct S as [S1 S2]. cbn [SMount] in S1.
    destruct err as [e|]; cbn [is_nil negb fst snd].
    + split; [rewrite E, <- !app_assoc; reflexivity|].
      split; [cbn; rewrite N; reflexivity|].
      split; [cbn; exact P|]. discriminate.
    + split; [rewrite E, <- !app_assoc; reflexivity|].
      split; [cbn; rewrite N; reflexivity|].
      split; [cbn; exact P|]. intros _.
      split; [reflexivity|]. split; [exact S1|].
      unfold switchHooks in *. cbn [afterTagHooks] in *.
      rewrite filter_app, S2, filter_app. cbn. rewrite app_nil_r.
      reflexivity.
Qed.

Lemma setup_post_log (layer : option LayerKind) (system : System) (w : World)
      (f : string) (a : list string)
      (m : M (error * container * System)) :
  (forall w', setup_post layer system w' (m w')) ->
  setup_post layer system w (bind (sylog.Debugf f a) (fun _ => m) w).
Proof.
  intros H. unfold bind, sylog.Debugf, emit.
  destruct (H (mkWorld (creds w) (trace w ++ [ELog DEBUG f a])))
    as [evs [E [N [P S]]]].
  exists (ELog DEBUG f a :: evs).
  split; [rewrite E; simpl; rewrite <- app_assoc; reflexivity|].
  split; [exact N|]. split; [exact P|]. exact S.
Qed.

Lemma setupSessionLayout_post (h : Host) (c : container) (system : System)
      (w : World) :
  setup_post (chosenLayer h w c) system w (setupSessionLayout h c system w).
Proof.
  unfold chosenLayer, specLayoutSelection, setupSessionLayout. cbv zeta.
  destruct (GetWritableImage (EngineConfig_ (engine c))).
  - apply setup_post_log. intros w'. apply setupDefaultLayout_post.
  - unfold bind at 1. unfold procHasFilesystem at 1. cbn [fst snd].
    destruct (fst (proc_HasFilesystem h w "overlay") && negb (userNS c));
      cbn [andb].
    + destruct ((EnableOverlay (File (EngineConfig_ (engine c))) =? "yes")%string
                || (EnableOverlay (File (EngineConfig_ (engine c))) =? "try")%string).
      * apply setup_post_log. intros w'. apply setupOverlayLayout_post.
      * destruct (EnableUnderlay (File (EngineConfig_ (engine c)))).
        -- apply setup_post_log. intros w'. apply setupUnderlayLayout_post.
        -- apply setup_post_log. intros w'. apply setupDefaultLayout_post.
    + destruct (EnableUnderlay (File (EngineConfig_ (engine c)))).
      * apply setup_post_log. intros w'. apply setupUnderlayLayout_post.
      * apply setup_post_log. intros w'. apply setupDefaultLayout_post.
Qed.

(** C2: the layout decision table.  Whatever the host answers,
    [setupSessionLayout] hands to [NewSession], once, the layer that
    the table of the specification selects for (writable-image,
    user-ns, kernel overlayfs support, enable-overlay,
    enable-underlay), and on success the session carries that layer. *)
Theorem setupSessionLayout_decision_table (h : Host) (c : container)
        (system : System) (w : World) :
  exists evs,
    trace (snd (setupSessionLayout h c system w)) = trace w ++ evs
    /\ newSessions evs
       = [specLayoutSelection
            (GetWritableImage (EngineConfig_ (engine c)))
            (userNS c)
            (fst (proc_HasFilesystem h w "overlay"))
            (EnableOverlay (File (EngineConfig_ (engine c))))
            (EnableUnderlay (File (EngineConfig_ (engine c))))]
    /\ (fst (fst (fst (setupSessionLayout h c system w))) = None ->
        layout.Layer (session (snd (fst (fst (setupSessionLayout h c system w)))))
        = specLayoutSelection
            (GetWritableImage (EngineConfig_ (engine c)))
            (userNS c)
            (fst (proc_HasFilesystem h w "overlay"))
            (EnableOverlay (File (EngineConfig_ (engine c))))
            (EnableUnderlay (File (EngineConfig_ (engine c))))).
Proof.
  destruct (setupSessionLayout_post h c system w) as [evs [E [N [_ S]]]].
  exists evs. split; [exact E|]. split; [exact N|].
  intros Hok. exact (proj1 (S Hok)).
Qed.

Lemma setupSessionLayout_decision_table_witness :
  fst (fst (fst (setupSessionLayout (exampleHost [] None false)
                                    (exampleContainer false)
                                    (mkSystem [] MountLocal []) setuidWorld)))
  = None
  /\ layout.Layer
       (session (snd (fst (fst (setupSessionLayout (exampleHost [] None false)
                                                   (exampleContainer false)
                                                   (mkSystem [] MountLocal [])
                                                   setuidWorld)))))
     = Some Overlay.
Proof.
  split; [reflexivity|].
  destruct (setupSessionLayout_decision_table (exampleHost [] None false)
              (exampleContainer false) (mkSystem [] MountLocal []) setuidWorld)
    as [evs [_ [_ H]]].
  rewrite (H eq_refl). reflexivity.
Defined.

(** *** The plan at work *)



























(** *** The assembler as a whole *)









Lemma setupDefaultLayout_engine (h : Host) (c : container) (system : System)
      (w : World) :
  engine (snd (fst (fst (setupDefaultLayout h c system w)))) = engine c.
Proof.
  unfold setupDefaultLayout, NewSession, RunAfterTag, sylog.Debugf, bind, emit,
    get_world, ret. cbn [fst snd].
  destruct (layout_NewSession h _ _ _ _ _) as [s [e|]]; reflexivity.
Qed.

Lemma setupUnderlayLayout_engine (h : Host) (c : container) (system : System)
      (w : World) :
  engine (snd (fst (fst (setupUnderlayLayout h c system w)))) = engine c.
Proof.
  unfold setupUnderlayLayout, NewSession, RunAfterTag, sylog.Debugf, bind, emit,
    get_world, ret. cbn [fst snd].
  destruct (layout_NewSession h _ _ _ _ _) as [s [e|]]; reflexivity.
Qed.

Lemma setupOverlayLayout_engine (h : Host) (c : container) (system : System)
      (w : World) :
  engine (snd (fst (fst (setupOverlayLayout h c system w)))) = engine c.
Proof.
  unfold setupOverlayLayout, NewSession, RunAfterTag, sylog.Debugf, bind, emit,
    get_world, ret. cbn [fst snd].
  destruct (layout_NewSession h _ _ _ _ _) as [s [e|]]; cbn [is_nil negb];
    [reflexivity|].
  destruct (addOverlayMount h _ _ _) as [[[e|] sys] w']; reflexivity.
Qed.

Lemma setupSessionLayout_engine (h : Host) (c : container) (system : System)
      (w : World) :
  engine (snd (fst (fst (setupSessionLayout h c system w)))) = engine c.
Proof.
  unfold setupSessionLayout, procHasFilesystem, sylog.Debugf, bind, emit.
  cbv zeta. cbn [fst snd].
  repeat match goal with
         | |- context [if ?b then _ else _] => destruct b
         end;
    first [ apply setupDefaultLayout_engine
          | apply setupUnderlayLayout_engine
          | apply setupOverlayLayout_engine ].
Qed.

Lemma emits_setupSessionLayout (h : Host) (c : container) (system : System) :
  emits planning (setupSessionLayout h c system).
Proof.
  intros w. destruct (setupSessionLayout_post h c system w) as [evs [E [_ [P _]]]].
  exists evs. auto.
Qed.

(** *** The credentials of the concerns before the home *)

Lemma keeps_ret {A} (a : A) : keeps_creds (ret a).
Proof. intros w. reflexivity. Qed.

Lemma keeps_bind {A B} (m : M A) (k : A -> M B) :
  keeps_creds m -> (forall a, keeps_creds (k a)) -> keeps_creds (bind m k).
Proof.
  intros Hm Hk w. unfold bind. specialize (Hm w).
  destruct (m w) as [a w1]. cbn [snd] in Hm. rewrite <- Hm. apply Hk.
Qed.

(** One step through a computation that makes no credential call. *)
Ltac keeps_walk :=
  cbv beta iota zeta;
  lazymatch goal with
  | |- keeps_creds (ret _) => apply keeps_ret
  | |- keeps_creds (bind _ _) => apply keeps_bind; [|intros]
  | |- keeps_creds (if ?b then _ else _) => destruct b
  | |- keeps_creds (match ?x with _ => _ end) => destruct x
  | |- keeps_creds (AddBind _ _ _ _ _ _) => unfold AddBind
  | |- keeps_creds (AddRemount _ _ _ _ _) => unfold AddRemount
  | |- keeps_creds (AddFS _ _ _ _ _ _ _) => unfold AddFS
  | |- keeps_creds (AddImage _ _ _ _ _ _ _ _ _) => unfold AddImage
  | |- keeps_creds _ => intros ?; reflexivity
  end.

Lemma keeps_loadImage (h : Host) (c : container) (path : string)
      (writable : bool) :
  keeps_creds (loadImage h c path writable).
Proof. unfold loadImage. plan_prep. repeat keeps_walk. Qed.

Ltac keeps_plan :=
  lazymatch goal with
  | |- keeps_creds (tryP _ _ _) => unfold tryP
  | |- keeps_creds (tryE _ _ _ _) => unfold tryE
  | |- keeps_creds (onPoints _ _) => unfold onPoints
  | |- keeps_creds (NewSession _ _ _ _ _ _) => unfold NewSession
  | |- keeps_creds (loadImage _ _ _ _) => apply keeps_loadImage
  | |- keeps_creds (let '(_, _) := ?x in _) => destruct x
  | _ => keeps_walk
  end.

Lemma keeps_overlayLoop (h : Host) (c : container) (imgs : list string) :
  forall nb system, keeps_creds (overlayLoop h c imgs nb system).
Proof.
  induction imgs as [|img rest IH]; intros nb system; [apply keeps_ret|].
  cbn [overlayLoop]. unfold RunAfterTag. plan_prep.
  repeat lazymatch goal with
         | |- keeps_creds (overlayLoop _ _ _ _ _) => apply IH
         | _ => keeps_plan
         end.
Qed.

Lemma keeps_setupSessionLayout (h : Host) (c : container) (system : System) :
  keeps_creds (setupSessionLayout h c system).
Proof.
  unfold setupSessionLayout, setupOverlayLayout, setupUnderlayLayout,
    setupDefaultLayout, addOverlayMount, RunAfterTag.
  plan_prep.
  repeat lazymatch goal with
         | |- keeps_creds (overlayLoop _ _ _ _ _) => apply keeps_overlayLoop
         | _ => keeps_plan
         end.
Qed.

Lemma keeps_addRootfsMount (h : Host) (c : container) (system : System) :
  keeps_creds (addRootfsMount h c system).
Proof. unfold addRootfsMount. plan_prep. repeat keeps_plan. Qed.

Lemma keeps_addKernelMount (h : Host) (c : container) (system : System) :
  keeps_creds (addKernelMount h c system).
Proof. unfold addKernelMount. plan_prep. repeat keeps_plan. Qed.

Lemma keeps_bindDev (h : Host) (c : container) (devpath : string) (p : Points) :
  keeps_creds (bindDev h c devpath p).
Proof. unfold bindDev. plan_prep. repeat keeps_plan. Qed.

Lemma keeps_nvidiaLoop (h : Host) (c : container) (files : list string) :
  forall p, keeps_creds (nvidiaLoop h c files p).
Proof.
  induction files as [|name rest IH]; intros p; [apply keeps_ret|].
  cbn [nvidiaLoop].
  repeat lazymatch goal with
         | |- keeps_creds (nvidiaLoop _ _ _ _) => apply IH
         | |- keeps_creds (bindDev _ _ _ _) => apply keeps_bindDev
         | _ => keeps_plan
         end.
Qed.

Lemma keeps_addDevMount (h : Host) (c : container) (system : System) :
  keeps_creds (addDevMount h c system).
Proof.
  unfold addDevMount. plan_prep.
  repeat lazymatch goal with
         | |- keeps_creds (nvidiaLoop _ _ _ _) => apply keeps_nvidiaLoop
         | |- keeps_creds (bindDev _ _ _ _) => apply keeps_bindDev
         | _ => keeps_plan
         end.
Qed.

Lemma keeps_hostLoop (h : Host) (children : list string) (flags : Z) :
  forall p, keeps_creds (hostLoop h children flags p).
Proof.
  induction children as [|child rest IH]; intros p; [apply keeps_ret|].
  cbn [hostLoop]. plan_prep.
  repeat lazymatch goal with
         | |- keeps_creds (hostLoop _ _ _ _) => apply IH
         | _ => keeps_plan
         end.
Qed.

Lemma keeps_addHostMount (h : Host) (c : container) (system : System) :
  keeps_creds (addHostMount h c system).
Proof.
  unfold addHostMount. plan_prep.
  repeat lazymatch goal with
         | |- keeps_creds (hostLoop _ _ _ _) => apply keeps_hostLoop
         | _ => keeps_plan
         end.
Qed.

Lemma keeps_bindsLoop (h : Host) (binds : list string) (flags : Z) :
  forall p, keeps_creds (bindsLoop h binds flags p).
Proof.
  induction binds as [|b rest IH]; intros p; [apply keeps_ret|].
  cbn [bindsLoop]. plan_prep.
  repeat lazymatch goal with
         | |- keeps_creds (bindsLoop _ _ _ _) => apply IH
         | _ => keeps_plan
         end.
Qed.

Lemma keeps_addBindsMount (h : Host) (c : container) (system : System) :
  keeps_creds (addBindsMount h c system).
Proof.
  unfold addBindsMount. plan_prep.
  repeat lazymatch goal with
         | |- keeps_creds (bindsLoop _ _ _ _) => apply keeps_bindsLoop
         | _ => keeps_plan
         end.
Qed.

Lemma addHomeMount_refuses (h : Host) (c : container) (system : System)
      (w : World) :
  GetNoHome (EngineConfig_ (engine c)) = false ->
  MountHome (File (EngineConfig_ (engine c))) = true ->
  UserBindControl (File (EngineConfig_ (engine c))) = false ->
  snd (user_GetPwUID h w (ruid (creds w) mod 2 ^ 32)) = None ->
  String.eqb (fst (user_GetPwUID h w (ruid (creds w) mod 2 ^ 32)))
             (GetHome (EngineConfig_ (engine c))) = false ->
  addHomeMount h c system w
  = ((Some "Not mounting user requested home: user bind control is disallowed",
      system),
     mkWorld (creds w)
             (trace w ++ [ELog DEBUG "Checking if user bind control is allowed" []])).
Proof.
  intros H1 H2 H3 H4 H5. unfold addHomeMount. rewrite H1, H2, H3.
  cbn [negb]. cbv beta iota zeta.
  unfold bind at 1. unfold osGetuid at 1. cbv beta iota zeta.
  unfold bind at 1. unfold userGetPwUID at 1. cbv beta iota zeta.
  destruct (user_GetPwUID h w (ruid (creds w) mod 2 ^ 32)) as [dir err].
  simpl in H4, H5. subst err. cbn [is_nil negb]. cbv beta iota zeta.
  rewrite H5. reflexivity.
Qed.



(** *** A custom home without user bind control *)

Lemma planned_since_refl (w : World) : planned_since w w.
Proof. split; [reflexivity|]. exists []. rewrite app_nil_r. auto. Qed.

Lemma planned_since_step {A} (m : M A) (w w1 : World) :
  emits planning m -> keeps_creds m -> planned_since w w1 ->
  planned_since w (snd (m w1)).
Proof.
  intros He Hk [Hc [e0 [E0 P0]]]. destruct (He w1) as [e1 [E1 P1]].
  split; [rewrite Hk; exact Hc|].
  exists (e0 ++ e1). rewrite E1, E0, app_assoc, forallb_app, P0, P1. auto.
Qed.

Lemma abort_orReturn (f : M (error * System)) (k : System -> M error)
      (w w1 : World) :
  emits planning f -> keeps_creds f -> planned_since w w1 ->
  (forall system w2, planned_since w w2 ->
     is_nil (fst (k system w2)) = false /\ planned_since w (snd (k system w2))) ->
  is_nil (fst (orReturn f k w1)) = false
  /\ planned_since w (snd (orReturn f k w1)).
Proof.
  intros He Hk Hs Hn. pose proof (planned_since_step f w w1 He Hk Hs) as H1.
  unfold orReturn, bind. destruct (f w1) as [[err system] w2]. cbn [snd] in H1.
  destruct err as [e|]; cbn [is_nil negb]; cbv iota.
  - split; [reflexivity|exact H1].
  - apply Hn. exact H1.
Qed.

Lemma addHomeMount_stops (h : Host) (c : container) (system : System)
      (k : System -> M error) (w : World) :
  GetNoHome (EngineConfig_ (engine c)) = false ->
  MountHome (File (EngineConfig_ (engine c))) = true ->
  UserBindControl (File (EngineConfig_ (engine c))) = false ->
  snd (user_GetPwUID h w (ruid (creds w) mod 2 ^ 32)) = None ->
  String.eqb (fst (user_GetPwUID h w (ruid (creds w) mod 2 ^ 32)))
             (GetHome (EngineConfig_ (engine c))) = false ->
  orReturn (addHomeMount h c system) k w
  = (Some "Not mounting user requested home: user bind control is disallowed",
     mkWorld (creds w)
             (trace w ++ [ELog DEBUG "Checking if user bind control is allowed" []])).
Proof.
  intros H1 H2 H3 H4 H5. unfold orReturn, bind.
  rewrite addHomeMount_refuses by assumption. reflexivity.
Qed.

Lemma create_aborts_on_custom_home (h : Host) (eng : EngineOperations)
      (w : World) :
  GetNoHome (EngineConfig_ eng) = false ->
  MountHome (File (EngineConfig_ eng)) = true ->
  UserBindControl (File (EngineConfig_ eng)) = false ->
  (forall w', planned_since w w' ->
      snd (user_GetPwUID h w' (ruid (creds w) mod 2 ^ 32)) = None
      /\ String.eqb (fst (user_GetPwUID h w' (ruid (creds w) mod 2 ^ 32)))
                    (GetHome (EngineConfig_ eng)) = false) ->
  is_nil (fst (create h eng w)) = false
  /\ planned_since w (snd (create h eng w)).
Proof.
  intros H1 H2 H3 H4.
  remember (create h eng w) as r eqn:Hr.
  unfold create in Hr.
  unfold bind at 1 in Hr. unfold osGeteuid at 1 in Hr. cbv beta iota zeta in Hr.
  unfold bind at 1 in Hr.
  pose proof (planned_since_step
                (setupSessionLayout h (initContainer eng (euid (creds w)))
                                    (mkSystem [] MountLocal []))
                w w (emits_setupSessionLayout h _ _)
                (keeps_setupSessionLayout h _ _) (planned_since_refl w)) as Hs.
  pose proof (setupSessionLayout_engine h (initContainer eng (euid (creds w)))
                (mkSystem [] MountLocal []) w) as He.
  destruct (setupSessionLayout h (initContainer eng (euid (creds w)))
              (mkSystem [] MountLocal []) w) as [[[err c] system] w1].
  simpl in Hs, He.
  destruct err as [e|]; cbn [is_nil negb] in Hr; cbv iota in Hr; subst r.
  - split; [reflexivity|exact Hs].
  - apply abort_orReturn;
      [apply emits_ret|apply keeps_ret|exact Hs|]; clear w1 Hs; intros system1 w1 Hs.
    apply abort_orReturn;
      [apply (proj1 (concern_addRootfsMount h _ _))|apply keeps_addRootfsMount
      |exact Hs|]; clear w1 Hs; intros ?system w1 Hs.
    apply abort_orReturn;
      [apply (proj1 (concern_addKernelMount h _ _))|apply keeps_addKernelMount
      |exact Hs|]; clear w1 Hs; intros ?system w1 Hs.
    apply abort_orReturn;
      [apply (proj1 (concern_addDevMount h _ _))|apply keeps_addDevMount
      |exact Hs|]; clear w1 Hs; intros ?system w1 Hs.
    apply abort_orReturn;
      [apply (proj1 (concern_addHostMount h _ _))|apply keeps_addHostMount
      |exact Hs|]; clear w1 Hs; intros ?system w1 Hs.
    apply abort_orReturn;
      [apply (proj1 (concern_addBindsMount h _ _))|apply keeps_addBindsMount
      |exact Hs|]; clear w1 Hs; intros ?system w1 Hs.
    destruct (H4 w1 Hs) as [Hp Hd]. pose proof Hs as [Hc [evs [E P]]].
    rewrite <- Hc in Hp, Hd.
    rewrite addHomeMount_stops; rewrite ?He; auto.
    split; [reflexivity|]. split; [exact Hc|].
    exists (evs ++ [ELog DEBUG "Checking if user bind control is allowed" []]).
    cbn [trace snd]. rewrite E, app_assoc, forallb_app, P. auto.
Qed.

(** C7: a custom home without user bind control.  When home mounting
    is on, user-bind-control is off and the home of the password entry
    of the real user differs from the requested one, [addHomeMount]
    logs one message, registers nothing and returns an error, and
    whatever follows it in the assembler is not run.  A run of
    [create] on a host where this holds of the real user whenever the
    password database is consulted during planning returns an error
    having planned only, under unchanged credentials: no point is
    mounted and [MountAll] does not start. *)
Theorem custom_home_refused_before_mounting (h : Host) (eng : EngineOperations) :
  GetNoHome (EngineConfig_ eng) = false ->
  MountHome (File (EngineConfig_ eng)) = true ->
  UserBindControl (File (EngineConfig_ eng)) = false ->
  (forall c system w,
      engine c = eng ->
      snd (user_GetPwUID h w (ruid (creds w) mod 2 ^ 32)) = None ->
      String.eqb (fst (user_GetPwUID h w (ruid (creds w) mod 2 ^ 32)))
                 (GetHome (EngineConfig_ eng)) = false ->
      addHomeMount h c system w
      = ((Some "Not mounting user requested home: user bind control is disallowed",
          system),
         mkWorld (creds w)
                 (trace w
                  ++ [ELog DEBUG "Checking if user bind control is allowed" []]))
      /\ forall k : System -> M error,
           orReturn (addHomeMount h c system) k w
           = (Some "Not mounting user requested home: user bind control is disallowed",
              mkWorld (creds w)
                      (trace w
                       ++ [ELog DEBUG "Checking if user bind control is allowed"
                                []])))
  /\ (forall w,
         (forall w', planned_since w w' ->
            snd (user_GetPwUID h w' (ruid (creds w) mod 2 ^ 32)) = None
            /\ String.eqb (fst (user_GetPwUID h w' (ruid (creds w) mod 2 ^ 32)))
                          (GetHome (EngineConfig_ eng)) = false) ->
         is_nil (fst (create h eng w)) = false
         /\ creds (snd (create h eng w)) = creds w
         /\ exists evs,
              trace (snd (create h eng w)) = trace w ++ evs
              /\ forallb planning evs = true).
Proof.
  intros H1 H2 H3. split.
  - intros c system w He H4 H5. subst eng. split.
    + apply addHomeMount_refuses; assumption.
    + intros k. apply addHomeMount_stops; assumption.
  - intros w H4.
    destruct (create_aborts_on_custom_home h eng w H1 H2 H3 H4) as [Hn [Hc He]].
    auto.
Qed.

Lemma custom_home_refused_before_mounting_witness :
  fst (create (exampleHost [("/images/rootfs.sqfs", false)] None false)
              (exampleEngine (exampleFile "try" false false) "/home/user" [])
              setuidWorld) = None
  /\ fst (create (exampleHost [("/images/rootfs.sqfs", false)] None false)
                 customHomeEngine setuidWorld)
     = Some "Not mounting user requested home: user bind control is disallowed"
  /\ is_nil (fst (create (exampleHost [("/images/rootfs.sqfs", false)] None false)
                         customHomeEngine setuidWorld)) = false
  /\ forallb planning
       (trace (snd (create (exampleHost [("/images/rootfs.sqfs", false)] None false)
                           customHomeEngine setuidWorld)))
     = true
  /\ fst (fst (addHomeMount (exampleHost [] None false)
                            (mkContainer customHomeEngine exampleSession "tmpfs" 16
                                         false false)
                            (mkSystem [] MountLocal []) setuidWorld))
     = Some "Not mounting user requested home: user bind control is disallowed".
Proof.
  destruct (custom_home_refused_before_mounting
              (exampleHost [("/images/rootfs.sqfs", false)] None false)
              customHomeEngine eq_refl eq_refl eq_refl)
    as [_ H].
  destruct (H setuidWorld (fun _ _ => conj eq_refl eq_refl)) as [Hn _].
  split; [reflexivity|]. split; [reflexivity|]. split; [exact Hn|].
  split; [reflexivity|].
  destruct (custom_home_refused_before_mounting
              (exampleHost [] None false) customHomeEngine eq_refl eq_refl eq_refl)
    as [Ha _].
  destruct (Ha (mkContainer customHomeEngine exampleSession "tmpfs" 16 false false)
               (mkSystem [] MountLocal []) setuidWorld eq_refl eq_refl eq_refl)
    as [E _].
  rewrite E. reflexivity.
Defined.

(** *** The user binds *)

Lemma has_flag_lor_rdonly (flags : Z) :
  has_flag (Z.lor flags syscall.MS_RDONLY) syscall.MS_RDONLY = true.
Proof.
  unfold has_flag. rewrite Z.land_lor_distr_l.
  change (Z.land syscall.MS_RDONLY syscall.MS_RDONLY) with 1.
  destruct (Z.eqb_spec (Z.lor (Z.land flags syscall.MS_RDONLY) 1) 0) as [E|E];
    [|reflexivity].
  apply Z.lor_eq_0_iff in E. destruct E; discriminate.
Qed.

Lemma emits_bind_post (P : Event -> bool) {A B} (Q : A -> Prop) (m : M A)
      (k : A -> M B) :
  emits P m -> always Q m -> (forall a, Q a -> emits P (k a)) ->
  emits P (bind m k).
Proof.
  intros Hm Ha Hk w. unfold bind.
  destruct (Hm w) as [e1 [H1 F1]]. specialize (Ha w).
  destruct (m w) as [a w1]. simpl in *.
  destruct (Hk a Ha w1) as [e2 [H2 F2]].
  exists (e1 ++ e2).
  rewrite H2, H1, app_assoc, forallb_app, F1, F2. auto.
Qed.

Lemma emits_AddBind_rdonly (h : Host) (p : Points) (tag : mount.AuthorizedTag)
      (src dst : string) (flags : Z) :
  has_flag flags syscall.MS_RDONLY = true ->
  emits registers_rdonly (AddBind h p tag src dst flags).
Proof.
  intros Hf. unfold AddBind.
  apply emits_bind; [apply emits_emit; exact Hf|]. intros _.
  apply emits_bind; [apply emits_get_world|]. intros w.
  destruct (points_add_err h w p tag src dst flags); apply emits_ret.
Qed.

Lemma emits_AddRemount_rdonly (h : Host) (p : Points) (tag : mount.AuthorizedTag)
      (dst : string) (flags : Z) :
  has_flag flags syscall.MS_RDONLY = true ->
  emits registers_rdonly (AddRemount h p tag dst flags).
Proof.
  intros Hf. unfold AddRemount.
  apply emits_bind; [apply emits_emit; exact Hf|]. intros _.
  apply emits_bind; [apply emits_get_world|]. intros w.
  destruct (points_add_err h w p tag "" dst flags); apply emits_ret.
Qed.

Lemma emits_log_any (P : Event -> bool) l f a :
  P (ELog l f a) = true -> emits P (emit (ELog l f a)).
Proof. apply emits_emit. Qed.

Ltac rdonly_step :=
  lazymatch goal with
  | |- emits _ (ret _) => apply emits_ret
  | |- emits _ (emit (ELog _ _ _)) => apply emits_emit; reflexivity
  | |- emits _ (filepathAbs _ _) => apply emits_filepathAbs
  | |- emits _ (AddBind _ _ _ _ _ _) => apply emits_AddBind_rdonly
  | |- emits _ (AddRemount _ _ _ _ _) => apply emits_AddRemount_rdonly
  | |- emits _ (bind _ _) => apply emits_bind; [| intros ]
  | |- emits _ (if ?b then _ else _) => destruct b
  | |- emits _ (let '(_, _) := ?x in _) => destruct x
  | |- emits _ (match ?x with _ => _ end) => destruct x
  end.

Lemma userbindsLoop_rdonly_sticky (h : Host) (binds : list string) :
  forall flags p,
    has_flag flags syscall.MS_RDONLY = true ->
    emits registers_rdonly (userbindsLoop h binds flags p).
Proof.
  induction binds as [|b rest IH]; intros flags p Hf; simpl.
  - apply emits_ret.
  - unfold sylog.Debugf, sylog.Warningf.
    apply emits_bind; [apply emits_filepathAbs|]. intros [src err].
    destruct (negb (is_nil err)).
    + apply emits_bind; [apply emits_emit; reflexivity|]. intros _.
      apply IH. exact Hf.
    + apply (emits_bind_post registers_rdonly
               (fun f => has_flag f syscall.MS_RDONLY = true)).
      * repeat rdonly_step.
      * repeat lazymatch goal with
               | |- always _ (ret _) => apply always_ret
               | |- always _ (bind _ _) => apply always_bind; intros
               | |- always _ (if ?b then _ else _) => destruct b
               end; first [ exact Hf | apply has_flag_lor_rdonly ].
      * intros flags' Hf'.
        apply emits_bind; [apply emits_emit; reflexivity|]. intros _.
        apply emits_bind; [apply emits_AddBind_rdonly; exact Hf'|].
        intros [err' p'].
        destruct (negb (is_nil err')); [apply emits_ret|].
        apply emits_bind; [apply emits_AddRemount_rdonly; exact Hf'|].
        intros r. apply IH. exact Hf'.
Qed.

Ltac destruct_add h :=
  match goal with
  | |- context [points_add_err h ?w0 ?p0 ?t ?s ?d ?f] =>
      destruct (points_add_err h w0 p0 t s d f); simpl
  end.

Lemma userbindsLoop_cons_cases (h : Host) (a : string) (flags : Z) (p : Points)
      (w : World) :
  (exists evs e p',
      forall l, userbindsLoop h (a :: l) flags p w
                = ((Some e, p'), mkWorld (creds w) (trace w ++ evs)))
  \/ (exists evs flags' p',
         forall l, userbindsLoop h (a :: l) flags p w
                   = userbindsLoop h l flags' p'
                                   (mkWorld (creds w) (trace w ++ evs))).
Proof.
  simpl. unfold filepathAbs, sylog.Warningf, sylog.Debugf, AddBind, AddRemount.
  unfold bind, emit, get_world, ret. simpl.
  destruct (filepath_Abs h w (nth 0 (strings.Split a ":") "")) as [src [e|]];
    simpl.
  - right. do 3 eexists. intros l. reflexivity.
  - destruct (Nat.ltb 2 (List.length (strings.Split a ":"))); simpl;
      [destruct (String.eqb (nth 2 (strings.Split a ":") "") "ro"); simpl;
       [|destruct (negb (String.eqb (nth 2 (strings.Split a ":") "") "rw"));
         simpl]|];
      (destruct_add h;
       [left; do 3 eexists; intros l; rewrite <- !app_assoc; reflexivity|];
       destruct_add h;
       right; do 3 eexists; intros l; rewrite <- !app_assoc; reflexivity).
Qed.

Lemma ro_entry_registers_rdonly (h : Host) (b : string) (rest : list string) :
  has_option b "ro" ->
  (forall w, snd (filepath_Abs h w (nth 0 (strings.Split b ":") "")) = None) ->
  forall flags p, emits registers_rdonly (userbindsLoop h (b :: rest) flags p).
Proof.
  intros [Hlen Hopt] Habs flags p. simpl.
  apply (emits_bind_post registers_rdonly (fun r => snd r = None));
    [apply emits_filepathAbs|exact Habs|].
  intros [src err] Herr. simpl in Herr. subst err. cbn [is_nil negb].
  cbv iota.
  apply Nat.ltb_lt in Hlen. rewrite Hlen, Hopt. simpl String.eqb. cbv iota.
  apply (emits_bind_post registers_rdonly
           (fun f => has_flag f syscall.MS_RDONLY = true));
    [apply emits_ret|apply always_ret, has_flag_lor_rdonly|].
  intros flags' Hf'. unfold sylog.Debugf.
  apply emits_bind; [apply emits_emit; reflexivity|]. intros _.
  apply emits_bind; [apply emits_AddBind_rdonly; exact Hf'|].
  intros [err' p'].
  destruct (negb (is_nil err')); [apply emits_ret|].
  apply emits_bind; [apply emits_AddRemount_rdonly; exact Hf'|].
  intros r. apply userbindsLoop_rdonly_sticky. exact Hf'.
Qed.

Lemma addUserbindsMount_loop (h : Host) (c : container) (system : System)
      (w : World) :
  GetBindPath (EngineConfig_ (engine c)) <> [] ->
  UserBindControl (File (EngineConfig_ (engine c))) = true ->
  addUserbindsMount h c system w
  = ((fst (fst (userbindsLoop h (GetBindPath (EngineConfig_ (engine c)))
                              bindFlags (SPoints system)
                              (mkWorld (creds w)
                                 (trace w ++
                                  [ELog DEBUG
                                     "Checking for 'user bind control' in configuration file"
                                     []])))),
      set_points system
        (snd (fst (userbindsLoop h (GetBindPath (EngineConfig_ (engine c)))
                                 bindFlags (SPoints system)
                                 (mkWorld (creds w)
                                    (trace w ++
                                     [ELog DEBUG
                                        "Checking for 'user bind control' in configuration file"
                                        []])))))),
     snd (userbindsLoop h (GetBindPath (EngineConfig_ (engine c)))
                        bindFlags (SPoints system)
                        (mkWorld (creds w)
                           (trace w ++
                            [ELog DEBUG
                               "Checking for 'user bind control' in configuration file"
                               []])))).
Proof.
  intros Hne Hubc. unfold addUserbindsMount. rewrite Hubc.
  destruct (GetBindPath (EngineConfig_ (engine c))) as [|b l];
    [contradiction|].
  cbn [negb]. cbv iota. unfold bind at 1. unfold sylog.Debugf, emit.
  cbv beta iota. unfold bind at 1.
  destruct (userbindsLoop h (b :: l) bindFlags (SPoints system) _) as [[e p] w'].
  reflexivity.
Qed.

Lemma has_flag_lor_keeps (bits flags bit : Z) :
  has_flag flags bit = true -> has_flag (Z.lor bits flags) bit = true.
Proof.
  unfold has_flag. rewrite !negb_true_iff, !Z.eqb_neq. intros H E.
  rewrite Z.land_lor_distr_l in E. apply Z.lor_eq_0_iff in E. tauto.
Qed.

Lemma has_flag_lor_rdonly_l (flags : Z) :
  has_flag (Z.lor syscall.MS_RDONLY flags) syscall.MS_RDONLY = true.
Proof. rewrite Z.lor_comm. apply has_flag_lor_rdonly. Qed.

Lemma land_rdonly_cases (flags : Z) :
  Z.land flags syscall.MS_RDONLY = 0 \/ Z.land flags syscall.MS_RDONLY = 1.
Proof.
  unfold syscall.MS_RDONLY.
  assert (E : Z.land flags 1 = flags mod 2 ^ 1)
    by (apply (Z.land_ones flags 1); lia).
  rewrite E. change (2 ^ 1) with 2.
  pose proof (Z.mod_pos_bound flags 2 ltac:(lia)). lia.
Qed.

Lemma flagsToOptions_ro (flags : Z) :
  has_flag flags syscall.MS_RDONLY = true -> In "ro" (flagsToOptions flags).
Proof.
  intros H. unfold flagsToOptions.
  apply (in_map fst _ ("ro", syscall.MS_RDONLY)). apply filter_In. split.
  - unfold mount.mountFlags. simpl. tauto.
  - cbn [snd]. unfold has_flag in H. apply negb_true_iff, Z.eqb_neq in H.
    destruct (land_rdonly_cases flags) as [E|E]; [contradiction|].
    rewrite E. reflexivity.
Qed.

Lemma ConvertOptions_ro (options : list string) :
  In "ro" options ->
  has_flag (fst (mount.ConvertOptions options)) syscall.MS_RDONLY = true.
Proof.
  induction options as [|o rest IH]; intros Hin; [contradiction|].
  cbn [mount.ConvertOptions].
  destruct (mount.ConvertOptions rest) as [flags opts]. cbn [fst] in IH.
  destruct (string_dec o "ro") as [->|Hne].
  - cbn. apply has_flag_lor_rdonly_l.
  - destruct Hin as [E|Hin]; [contradiction|].
    destruct (mount.lookupFlag o mount.mountFlags) as [bits|]; cbn [fst].
    + apply has_flag_lor_keeps, IH, Hin.
    + apply IH, Hin.
Qed.

Lemma registered_point_rdonly (src dst : string) (flags : Z) :
  has_flag flags syscall.MS_RDONLY = true ->
  rdonly_userbind (mount.UserbindsTag,
                   mount.mkPoint src dst "" (flagsToOptions flags) []) = true.
Proof.
  intros H. unfold rdonly_userbind, pointFlags. cbn [fst snd mount.Options].
  rewrite ConvertOptions_ro by (apply flagsToOptions_ro, H). reflexivity.
Qed.

Lemma registeredFlags_app (a b : list Event) :
  registeredFlags (a ++ b) = registeredFlags a ++ registeredFlags b.
Proof.
  induction a as [|e a IH]; [reflexivity|].
  destruct e; cbn [app registeredFlags]; rewrite IH; reflexivity.
Qed.

(** One entry of the user binds on a plan that refuses nothing: the
    loop goes on with the rest; if the path of the entry resolves, the
    entry is registered twice, as a bind and as a remount, with the
    flags the loop goes on with. *)
Lemma userbindsLoop_accepted (h : Host) (a : string) (flags : Z) (p : Points)
      (w : World) :
  plan_accepts h ->
  exists evs pts flags',
    (forall l, userbindsLoop h (a :: l) flags p w
               = userbindsLoop h l flags' (p ++ pts)
                               (mkWorld (creds w) (trace w ++ evs)))
    /\ (flags' = flags \/ flags' = Z.lor flags syscall.MS_RDONLY)
    /\ (snd (filepath_Abs h w (nth 0 (strings.Split a ":") "")) = None ->
        registeredFlags evs = [flags'; flags']
        /\ (has_option a "ro" -> flags' = Z.lor flags syscall.MS_RDONLY)
        /\ exists src dst,
             pts = [(mount.UserbindsTag,
                     mount.mkPoint src dst ""
                       (flagsToOptions (Z.lor flags' syscall.MS_BIND)) []);
                    (mount.UserbindsTag,
                     mount.mkPoint "" dst ""
                       (flagsToOptions
                          (Z.lor flags'
                                 (Z.lor syscall.MS_REMOUNT syscall.MS_BIND)))
                       [])]).
Proof.
  intros Hacc. simpl.
  unfold filepathAbs, sylog.Warningf, sylog.Debugf, AddBind, AddRemount.
  unfold bind, emit, get_world, ret. simpl.
  destruct (filepath_Abs h w (nth 0 (strings.Split a ":") "")) as [src [e|]];
    simpl.
  - exists [ELog WARNING "Can't determine absolute path of %s bind point"
                 [nth 0 (strings.Split a ":") ""]], [], flags.
    split; [intros l; rewrite app_nil_r; reflexivity|].
    split; [left; reflexivity|]. discriminate.
  - destruct (Nat.ltb 2 (List.length (strings.Split a ":"))) eqn:Hlen; simpl;
      [destruct (String.eqb (nth 2 (strings.Split a ":") "") "ro") eqn:Hro; simpl;
       [|destruct (negb (String.eqb (nth 2 (strings.Split a ":") "") "rw"));
         simpl]|];
      repeat (rewrite Hacc; simpl);
      do 3 eexists;
      (split; [intros l; rewrite <- !app_assoc; reflexivity|]);
      (split; [first [left; reflexivity|right; reflexivity]|]);
      intros _; (split; [reflexivity|]);
      (split; [|do 2 eexists; reflexivity]);
      intros [Hl Ho]; try reflexivity.
    + rewrite Ho in Hro. discriminate.
    + rewrite Ho in Hro. discriminate.
    + apply Nat.ltb_lt in Hl. rewrite Hl in Hlen. discriminate.
Qed.

Lemma lor_rdonly_idem (flags : Z) :
  Z.lor (Z.lor flags syscall.MS_RDONLY) syscall.MS_RDONLY
  = Z.lor flags syscall.MS_RDONLY.
Proof. rewrite <- Z.lor_assoc. reflexivity. Qed.

(** Entries in front: on a plan that refuses nothing the loop gets
    through them and goes on with the same flags, [MS_RDONLY] or-ed in
    or not. *)
Lemma userbindsLoop_front (h : Host) (pre : list string) :
  plan_accepts h ->
  forall flags p w,
  exists evs pts flags',
    (forall l, userbindsLoop h (pre ++ l) flags p w
               = userbindsLoop h l flags' (p ++ pts)
                               (mkWorld (creds w) (trace w ++ evs)))
    /\ (flags' = flags \/ flags' = Z.lor flags syscall.MS_RDONLY).
Proof.
  intros Hacc. induction pre as [|a pre IH]; intros flags p w.
  - exists [], [], flags. split; [|left; reflexivity].
    intros l. rewrite !app_nil_r. destruct w; reflexivity.
  - destruct (userbindsLoop_accepted h a flags p w Hacc)
      as [e1 [p1 [f1 [H1 [F1 _]]]]].
    destruct (IH f1 (p ++ p1) (mkWorld (creds w) (trace w ++ e1)))
      as [e2 [p2 [f2 [H2 F2]]]].
    exists (e1 ++ e2), (p1 ++ p2), f2. split.
    + intros l. cbn [app]. rewrite H1, H2. cbn [creds trace].
      rewrite <- !app_assoc. reflexivity.
    + destruct F1 as [->| ->]; destruct F2 as [->| ->]; auto.
      right. apply lor_rdonly_idem.
Qed.

(** Entries behind an entry marked "ro": each is registered twice,
    read-only. *)
Lemma userbindsLoop_behind (h : Host) (binds : list string) :
  plan_accepts h ->
  (forall e, In e binds ->
     forall w, snd (filepath_Abs h w (nth 0 (strings.Split e ":") "")) = None) ->
  forall flags p w,
  exists evs pts,
    userbindsLoop h binds (Z.lor flags syscall.MS_RDONLY) p w
    = ((None, p ++ pts), mkWorld (creds w) (trace w ++ evs))
    /\ registeredFlags evs
       = repeat (Z.lor flags syscall.MS_RDONLY) (2 * List.length binds)
    /\ List.length pts = (2 * List.length binds)%nat
    /\ forallb rdonly_userbind pts = true.
Proof.
  intros Hacc. induction binds as [|a rest IH]; intros Habs flags p w.
  - exists [], []. rewrite !app_nil_r. destruct w. auto.
  - destruct (userbindsLoop_accepted h a (Z.lor flags syscall.MS_RDONLY) p w Hacc)
      as [e1 [p1 [f1 [H1 [F1 R1]]]]].
    assert (Hf : f1 = Z.lor flags syscall.MS_RDONLY).
    { destruct F1 as [->| ->]; [reflexivity|apply lor_rdonly_idem]. }
    subst f1.
    destruct (R1 (Habs a (or_introl eq_refl) w)) as [G1 [_ [src [dst P1]]]].
    destruct (IH (fun e He => Habs e (or_intror He)) flags (p ++ p1)
                 (mkWorld (creds w) (trace w ++ e1)))
      as [e2 [p2 [H2 [G2 [L2 B2]]]]].
    exists (e1 ++ e2), (p1 ++ p2). rewrite H1, H2. cbn [creds trace].
    split; [rewrite <- !app_assoc; reflexivity|]. split; [|split].
    + rewrite registeredFlags_app, G1, G2.
      replace (2 * List.length (a :: rest))%nat
        with (2 + 2 * List.length rest)%nat by (cbn [List.length]; lia).
      reflexivity.
    + rewrite length_app, L2, P1. cbn [List.length]. lia.
    + rewrite forallb_app, B2, P1. cbn [forallb].
      rewrite !registered_point_rdonly;
        [reflexivity
        |rewrite Z.lor_comm; apply has_flag_lor_keeps, has_flag_lor_rdonly
        |rewrite Z.lor_comm; apply has_flag_lor_keeps, has_flag_lor_rdonly].
Qed.

(** From the entry marked "ro" on. *)
Lemma userbindsLoop_from_ro (h : Host) (pre : list string) (b : string)
      (rest : list string) :
  has_option b "ro" ->
  plan_accepts h ->
  (forall e, In e (b :: rest) ->
     forall w, snd (filepath_Abs h w (nth 0 (strings.Split e ":") "")) = None) ->
  forall flags p w,
  exists evs1 evs2 pts1 pts2,
    userbindsLoop h pre flags p w
    = ((None, p ++ pts1), mkWorld (creds w) (trace w ++ evs1))
    /\ userbindsLoop h (pre ++ b :: rest) flags p w
       = ((None, p ++ pts1 ++ pts2), mkWorld (creds w) (trace w ++ evs1 ++ evs2))
    /\ registeredFlags evs2
       = repeat (Z.lor flags syscall.MS_RDONLY) (2 * S (List.length rest))
    /\ List.length pts2 = (2 * S (List.length rest))%nat
    /\ forallb rdonly_userbind pts2 = true.
Proof.
  intros Hro Hacc Habs flags p w.
  destruct (userbindsLoop_front h pre Hacc flags p w)
    as [e1 [p1 [f1 [H1 F1]]]].
  destruct (userbindsLoop_accepted h b f1 (p ++ p1)
              (mkWorld (creds w) (trace w ++ e1)) Hacc)
    as [e2 [p2 [f2 [H2 [_ R2]]]]].
  destruct (R2 (Habs b (or_introl eq_refl) _)) as [G2 [Hf [src [dst P2]]]].
  assert (Hf2 : f2 = Z.lor flags syscall.MS_RDONLY).
  { rewrite (Hf Hro). destruct F1 as [->| ->];
      [reflexivity|apply lor_rdonly_idem]. }
  subst f2.
  destruct (userbindsLoop_behind h rest Hacc (fun e He => Habs e (or_intror He))
              flags ((p ++ p1) ++ p2)
              (mkWorld (creds w) ((trace w ++ e1) ++ e2)))
    as [e3 [p3 [H3 [G3 [L3 B3]]]]].
  exists e1, (e2 ++ e3), p1, (p2 ++ p3).
  split; [|split; [|split; [|split]]].
  - pose proof (H1 []) as E. rewrite app_nil_r in E. rewrite E. reflexivity.
  - rewrite H1, H2. cbn [creds trace]. rewrite H3. cbn [creds trace].
    rewrite <- !app_assoc. reflexivity.
  - rewrite registeredFlags_app, G2, G3.
    replace (2 * S (List.length rest))%nat
      with (2 + 2 * List.length rest)%nat by lia.
    reflexivity.
  - rewrite length_app, L3, P2. cbn [List.length]. lia.
  - rewrite forallb_app, B3, P2. cbn [forallb].
    rewrite !registered_point_rdonly;
      [reflexivity
      |rewrite Z.lor_comm; apply has_flag_lor_keeps, has_flag_lor_rdonly
      |rewrite Z.lor_comm; apply has_flag_lor_keeps, has_flag_lor_rdonly].
Qed.

(** C10: the read-only flag accumulates.  The flags of the user binds
    are one variable for the whole loop of [addUserbindsMount]: from
    the first entry marked "ro" that the loop processes, every
    registration of that entry and of every later one, marked "rw" or
    not marked at all, carries [MS_RDONLY]; the events before belong
    to the entries in front of it.  And the later entries are
    registered: on a plan that refuses no point, when the paths of the
    later entries resolve, the loop succeeds, the entry marked "ro" and
    each entry behind it is handed to the plan twice (the bind and its
    remount) with the flags of the loop and [MS_RDONLY], and the plan
    grows by two read-only points at the tag of the user binds for each
    of them. *)
Theorem userbinds_rdonly_accumulates (h : Host) (pre : list string) (b : string)
        (rest : list string) :
  has_option b "ro" ->
  (forall w, snd (filepath_Abs h w (nth 0 (strings.Split b ":") "")) = None) ->
  (forall flags p w,
   exists evs1 evs2,
     trace (snd (userbindsLoop h pre flags p w)) = trace w ++ evs1
     /\ trace (snd (userbindsLoop h (pre ++ b :: rest) flags p w))
        = trace w ++ evs1 ++ evs2
     /\ forallb registers_rdonly evs2 = true)
  /\ (forall c system w,
      GetBindPath (EngineConfig_ (engine c)) = pre ++ b :: rest ->
      UserBindControl (File (EngineConfig_ (engine c))) = true ->
      exists evs1 evs2,
        trace (snd (userbindsLoop h pre bindFlags (SPoints system)
                      (mkWorld (creds w)
                         (trace w ++
                          [ELog DEBUG
                             "Checking for 'user bind control' in configuration file"
                             []]))))
        = (trace w ++
           [ELog DEBUG "Checking for 'user bind control' in configuration file" []])
          ++ evs1
        /\ trace (snd (addUserbindsMount h c system w))
           = (trace w ++
              [ELog DEBUG "Checking for 'user bind control' in configuration file"
                    []])
             ++ evs1 ++ evs2
        /\ forallb registers_rdonly evs2 = true)
  /\ (plan_accepts h ->
      (forall e, In e rest ->
         forall w, snd (filepath_Abs h w (nth 0 (strings.Split e ":") "")) = None) ->
      (forall flags p w,
       exists evs1 evs2 pts1 pts2,
         userbindsLoop h pre flags p w
         = ((None, p ++ pts1), mkWorld (creds w) (trace w ++ evs1))
         /\ userbindsLoop h (pre ++ b :: rest) flags p w
            = ((None, p ++ pts1 ++ pts2),
               mkWorld (creds w) (trace w ++ evs1 ++ evs2))
         /\ registeredFlags evs2
            = repeat (Z.lor flags syscall.MS_RDONLY) (2 * S (List.length rest))
         /\ List.length pts2 = (2 * S (List.length rest))%nat
         /\ forallb rdonly_userbind pts2 = true)
      /\ (forall c system w,
          GetBindPath (EngineConfig_ (engine c)) = pre ++ b :: rest ->
          UserBindControl (File (EngineConfig_ (engine c))) = true ->
          exists evs1 evs2 pts1 pts2,
            userbindsLoop h pre bindFlags (SPoints system)
              (mkWorld (creds w)
                 (trace w ++
                  [ELog DEBUG
                     "Checking for 'user bind control' in configuration file" []]))
            = ((None, SPoints system ++ pts1),
               mkWorld (creds w)
                 ((trace w ++
                   [ELog DEBUG
                      "Checking for 'user bind control' in configuration file" []])
                  ++ evs1))
            /\ addUserbindsMount h c system w
               = ((None, set_points system (SPoints system ++ pts1 ++ pts2)),
                  mkWorld (creds w)
                    ((trace w ++
                      [ELog DEBUG
                         "Checking for 'user bind control' in configuration file"
                         []])
                     ++ evs1 ++ evs2))
            /\ registeredFlags evs2
               = repeat (Z.lor bindFlags syscall.MS_RDONLY)
                        (2 * S (List.length rest))
            /\ List.length pts2 = (2 * S (List.length rest))%nat
            /\ forallb rdonly_userbind pts2 = true)).
Proof.
  intros Hro Habs.
  assert (Hloop : forall flags p w,
             exists evs1 evs2,
               trace (snd (userbindsLoop h pre flags p w)) = trace w ++ evs1
               /\ trace (snd (userbindsLoop h (pre ++ b :: rest) flags p w))
                  = trace w ++ evs1 ++ evs2
               /\ forallb registers_rdonly evs2 = true).
  { induction pre as [|a pre IH]; intros flags p w.
    - destruct (ro_entry_registers_rdonly h b rest Hro Habs flags p w)
        as [evs [E F]].
      exists [], evs. simpl. rewrite app_nil_r. auto.
    - destruct (userbindsLoop_cons_cases h a flags p w)
        as [[evs [e [p' H]]]|[evs [flags' [p' H]]]].
      + exists evs, []. simpl app. rewrite !H. simpl. rewrite app_nil_r. auto.
      + destruct (IH flags' p' (mkWorld (creds w) (trace w ++ evs)))
          as [evs1 [evs2 [E1 [E2 F]]]].
        exists (evs ++ evs1), evs2. simpl app. rewrite !H, E1, E2. simpl.
        rewrite <- !app_assoc. auto. }
  split; [exact Hloop|]. split.
  - intros c system w Hbinds Hubc.
    rewrite (addUserbindsMount_loop h c system w);
      [|rewrite Hbinds; destruct pre; discriminate|exact Hubc].
    rewrite Hbinds. simpl snd.
    destruct (Hloop bindFlags (SPoints system)
                (mkWorld (creds w)
                   (trace w ++
                    [ELog DEBUG "Checking for 'user bind control' in configuration file"
                          []])))
      as [evs1 [evs2 [E1 [E2 F]]]].
    exists evs1, evs2. simpl trace in E1, E2. auto.
  - intros Hacc Hrest.
    assert (Hall : forall e, In e (b :: rest) ->
              forall w, snd (filepath_Abs h w (nth 0 (strings.Split e ":") ""))
                        = None).
    { intros e [<-|He]; [exact Habs|exact (Hrest e He)]. }
    split; [exact (userbindsLoop_from_ro h pre b rest Hro Hacc Hall)|].
    intros c system w Hbinds Hubc.
    rewrite (addUserbindsMount_loop h c system w);
      [|rewrite Hbinds; destruct pre; discriminate|exact Hubc].
    rewrite Hbinds.
    destruct (userbindsLoop_from_ro h pre b rest Hro Hacc Hall bindFlags
                (SPoints system)
                (mkWorld (creds w)
                   (trace w ++
                    [ELog DEBUG "Checking for 'user bind control' in configuration file"
                          []])))
      as [evs1 [evs2 [pts1 [pts2 [E1 [E2 [G [L B]]]]]]]].
    exists evs1, evs2, pts1, pts2. rewrite E2. cbn [fst snd creds trace] in *.
    rewrite <- !app_assoc in *. auto.
Qed.

Lemma userbinds_rdonly_accumulates_witness :
  has_option "/b:/b:ro" "ro"
  /\ (exists evs1 evs2,
        trace (snd (userbindsLoop (exampleHost [] None false) ["/a"]
                                  bindFlags [] setuidWorld))
        = trace setuidWorld ++ evs1
        /\ trace (snd (userbindsLoop (exampleHost [] None false)
                                     (["/a"] ++ "/b:/b:ro" :: ["/c:/c:rw"; "/d"])
                                     bindFlags [] setuidWorld))
           = trace setuidWorld ++ evs1 ++ evs2
        /\ forallb registers_rdonly evs2 = true)
  /\ registeredFlags
       (trace (snd (addUserbindsMount
                      (exampleHost [] None false)
                      (userbindsContainer ["/a"; "/b:/b:ro"; "/c:/c:rw"; "/d"])
                      (mkSystem [] MountLocal []) setuidWorld)))
     = [bindFlags; bindFlags;
        Z.lor bindFlags syscall.MS_RDONLY; Z.lor bindFlags syscall.MS_RDONLY;
        Z.lor bindFlags syscall.MS_RDONLY; Z.lor bindFlags syscall.MS_RDONLY;
        Z.lor bindFlags syscall.MS_RDONLY; Z.lor bindFlags syscall.MS_RDONLY]
  /\ map (fun tp => (mount.Destination (snd tp),
                     has_flag (pointFlags (snd tp)) syscall.MS_RDONLY))
         (SPoints (snd (fst (addUserbindsMount
                               (exampleHost [] None false)
                               (userbindsContainer
                                  ["/a"; "/b:/b:ro"; "/c:/c:rw"; "/d"])
                               (mkSystem [] MountLocal []) setuidWorld))))
     = [("/a", false); ("/a", false); ("/b", true); ("/b", true);
        ("/c", true); ("/c", true); ("/d", true); ("/d", true)]
  /\ (exists evs1 evs2 pts1 pts2,
        userbindsLoop (exampleHost [] None false) ["/a"] bindFlags [] setuidWorld
        = ((None, [] ++ pts1),
           mkWorld (creds setuidWorld) (trace setuidWorld ++ evs1))
        /\ userbindsLoop (exampleHost [] None false)
                         (["/a"] ++ "/b:/b:ro" :: ["/c:/c:rw"; "/d"])
                         bindFlags [] setuidWorld
           = ((None, [] ++ pts1 ++ pts2),
              mkWorld (creds setuidWorld) (trace setuidWorld ++ evs1 ++ evs2))
        /\ registeredFlags evs2
           = repeat (Z.lor bindFlags syscall.MS_RDONLY) (2 * 3)
        /\ List.length pts2 = (2 * 3)%nat
        /\ forallb rdonly_userbind pts2 = true).
Proof.
  assert (Hro : has_option "/b:/b:ro" "ro") by (split; [simpl; lia|reflexivity]).
  split; [exact Hro|]. split; [|split; [reflexivity|split; [reflexivity|]]].
  - exact (proj1 (userbinds_rdonly_accumulates (exampleHost [] None false)
                    ["/a"] "/b:/b:ro" ["/c:/c:rw"; "/d"] Hro (fun _ => eq_refl))
                 bindFlags [] setuidWorld).
  - exact (proj1 (proj2 (proj2 (userbinds_rdonly_accumulates
                                  (exampleHost [] None false)
                                  ["/a"] "/b:/b:ro" ["/c:/c:rw"; "/d"] Hro
                                  (fun _ => eq_refl)))
                        (fun _ _ _ _ _ _ => eq_refl)
                        (fun _ _ _ => eq_refl))
                 bindFlags [] setuidWorld).
Defined.

Lemma userbinds_invalid_option_falls_through (h : Host) (b opt : string)
      (rest : list string) (flags : Z) (p : Points) (w : World) :
  has_option b opt ->
  opt <> "ro" -> opt <> "rw" ->
  snd (filepath_Abs h w (nth 0 (strings.Split b ":") "")) = None ->
  exists more,
    trace (snd (userbindsLoop h (b :: rest) flags p w))
    = trace w
      ++ ELog WARNING
              "Not mounting requested %s bind point, invalid mount option %s"
              [fst (filepath_Abs h w (nth 0 (strings.Split b ":") "")); opt]
         :: ELog DEBUG "Adding %s to mount list\n"
                 [fst (filepath_Abs h w (nth 0 (strings.Split b ":") ""))]
         :: EAddBind mount.UserbindsTag
                     (fst (filepath_Abs h w (nth 0 (strings.Split b ":") "")))
                     (nth 1 (strings.Split b ":") "")
                     flags
         :: more.
Proof.
  intros [Hlen Hopt] Hro Hrw Habs.
  assert (H1 : Nat.ltb 1 (List.length (strings.Split b ":")) = true)
    by (apply Nat.ltb_lt; lia).
  apply Nat.ltb_lt in Hlen.
  apply String.eqb_neq in Hro. apply String.eqb_neq in Hrw.
  simpl userbindsLoop.
  unfold filepathAbs, sylog.Warningf, sylog.Debugf, AddBind, AddRemount.
  unfold bind, emit, get_world, ret. simpl.
  destruct (filepath_Abs h w (nth 0 (strings.Split b ":") "")) as [src err].
  simpl in Habs. subst err. simpl.
  rewrite Hlen, H1, Hopt, Hro, Hrw. simpl.
  destruct_add h.
  - eexists. rewrite <- !app_assoc. reflexivity.
  - destruct_add h.
    + match goal with
      | |- context [userbindsLoop h rest flags ?p0 ?w0] =>
          destruct (emits_userbindsLoop h rest flags p0 w0) as [evs [E _]]
      end.
      rewrite E. simpl. eexists. rewrite <- !app_assoc. reflexivity.
    + match goal with
      | |- context [userbindsLoop h rest flags ?p0 ?w0] =>
          destruct (emits_userbindsLoop h rest flags p0 w0) as [evs [E _]]
      end.
      rewrite E. simpl. eexists. rewrite <- !app_assoc. reflexivity.
Qed.

(** C9 (the code departs from it): a user bind whose third field is
    neither "ro" nor "rw" is warned about ("Not mounting requested ...
    bind point") and then registered all the same, bind and remount. *)
Theorem invalid_bind_option_still_registered :
  fst (fst (addUserbindsMount (exampleHost [] None false)
                              (userbindsContainer ["/data:/mnt:bogus"])
                              (mkSystem [] MountLocal []) setuidWorld))
  = None
  /\ trace (snd (addUserbindsMount (exampleHost [] None false)
                                   (userbindsContainer ["/data:/mnt:bogus"])
                                   (mkSystem [] MountLocal []) setuidWorld))
     = [ELog DEBUG "Checking for 'user bind control' in configuration file" [];
        ELog WARNING
             "Not mounting requested %s bind point, invalid mount option %s"
             ["/data"; "bogus"];
        ELog DEBUG "Adding %s to mount list\n" ["/data"];
        EAddBind mount.UserbindsTag "/data" "/mnt" bindFlags;
        EAddRemount mount.UserbindsTag "/mnt" bindFlags]
  /\ map (fun e => mount.Destination (snd e))
         (SPoints (snd (fst (addUserbindsMount
                               (exampleHost [] None false)
                               (userbindsContainer ["/data:/mnt:bogus"])
                               (mkSystem [] MountLocal []) setuidWorld))))
     = ["/mnt"; "/mnt"].
Proof. repeat split; reflexivity. Qed.

(** ** Further properties of the assembler *)

(** *** More calls, whatever the kind of events *)

Lemma emits_bind_w (P : Event -> bool) {A B} (m : M A) (k : A -> M B) :
  emits P m -> (forall w, emits P (k (fst (m w)))) -> emits P (bind m k).
Proof.
  intros Hm Hk w. unfold bind.
  destruct (Hm w) as [e1 [H1 F1]].
  pose proof (Hk w (snd (m w))) as H2.
  destruct (m w) as [a w1]. cbn [fst snd] in *.
  destruct H2 as [e2 [H2 F2]].
  exists (e1 ++ e2).
  rewrite H2, H1, app_assoc, forallb_app, F1, F2. auto.
Qed.

Lemma always_bind_w {A B} (Q : B -> Prop) (m : M A) (k : A -> M B) :
  (forall w, always Q (k (fst (m w)))) -> always Q (bind m k).
Proof.
  intros Hk w. unfold bind.
  pose proof (Hk w (snd (m w))) as H. destruct (m w) as [a w1]. exact H.
Qed.

Lemma emits_syscallMount (P : Event -> bool) (h : Host) (a b c : string)
      (d : Z) (e : string) :
  (forall cr, P (EMount cr a b c d e) = true) ->
  emits P (syscallMount h a b c d e).
Proof.
  intros H. apply emits_one with (e := fun w => EMount (creds w) a b c d e);
    [reflexivity|intros w; apply H].
Qed.

Lemma emits_rpcOpsMount (P : Event -> bool) (h : Host) (a b c : string)
      (d : Z) (e : string) :
  P (ERpcMount a b c d e) = true -> emits P (rpcOpsMount h a b c d e).
Proof.
  intros H. apply emits_one with (e := fun _ => ERpcMount a b c d e);
    [reflexivity|intros _; exact H].
Qed.

Lemma emits_loopdevAttach (P : Event -> bool) (h : Host) (src : string)
      (flag : Z) :
  (forall cr, P (ELoopAttach cr src flag) = true) ->
  emits P (loopdevAttach h src flag).
Proof.
  intros H. apply emits_one with (e := fun w => ELoopAttach (creds w) src flag);
    [reflexivity|intros w; apply H].
Qed.

Lemma emits_loopdevSetStatus (P : Event -> bool) (h : Host) (info : loop.Info64) :
  (forall cr, P (ELoopSetStatus cr info) = true) ->
  emits P (loopdevSetStatus h info).
Proof.
  intros H. apply emits_one with (e := fun w => ELoopSetStatus (creds w) info);
    [reflexivity|intros w; apply H].
Qed.

Lemma emits_setresuid_any (P : Event -> bool) (h : Host) (r e s : Z) :
  P (ESetresuid r e s) = true -> emits P (syscallSetresuid h r e s).
Proof.
  intros H w. exists [ESetresuid r e s]. unfold syscallSetresuid.
  destruct (setresuid_err h w r e s); cbn; rewrite H; auto.
Qed.

Lemma emits_setfsuid_any (P : Event -> bool) (h : Host) (u : Z) :
  P (ESetfsuid u) = true -> emits P (syscallSetfsuid h u).
Proof.
  intros H w. exists [ESetfsuid u]. unfold syscallSetfsuid.
  destruct (setfsuid_err h w u); cbn; rewrite H; auto.
Qed.

(** One step, the mounters' calls included; tests already decided are
    reduced first. *)
Ltac emits_walk :=
  cbv beta iota zeta;
  lazymatch goal with
  | |- emits _ (syscallMount _ _ _ _ _ _) =>
      apply emits_syscallMount; intros; reflexivity
  | |- emits _ (rpcOpsMount _ _ _ _ _ _) => apply emits_rpcOpsMount; reflexivity
  | |- emits _ (loopdevAttach _ _ _) =>
      apply emits_loopdevAttach; intros; reflexivity
  | |- emits _ (loopdevSetStatus _ _) =>
      apply emits_loopdevSetStatus; intros; reflexivity
  | |- emits _ (syscallSetresuid _ _ _ _) => apply emits_setresuid_any; reflexivity
  | |- emits _ (syscallSetfsuid _ _) => apply emits_setfsuid_any; reflexivity
  | _ => emits_step
  end.

(** *** The two mounters *)

Lemma mountGeneric_local_events (h : Host) (c : container) (mnt : mount.Point) :
  emits local_event (mountGeneric h c mnt true).
Proof.
  unfold mountGeneric. plan_prep. cbn [negb]. repeat emits_walk.
Qed.

Lemma mountGeneric_rpc_events (h : Host) (c : container) (mnt : mount.Point) :
  emits rpc_event (mountGeneric h c mnt false).
Proof.
  unfold mountGeneric. plan_prep. cbn [negb]. repeat emits_walk.
Qed.

Lemma mountImage_local_events (h : Host) (c : container) (mnt : mount.Point) :
  emits local_event (mountImage h c mnt).
Proof.
  unfold mountImage. plan_prep. repeat emits_walk.
Qed.

Lemma localMount_local_events (h : Host) (c : container) (p : mount.Point) :
  emits local_event (localMount h c p).
Proof.
  unfold localMount, localMountBody. plan_prep.
  repeat lazymatch goal with
         | |- emits _ (mountGeneric _ _ _ _) => apply mountGeneric_local_events
         | |- emits _ (mountImage _ _ _) => apply mountImage_local_events
         | _ => emits_walk
         end.
Qed.

Lemma rpcMount_rpc_events (h : Host) (c : container) (p : mount.Point) :
  emits rpc_event (rpcMount h c p).
Proof.
  unfold rpcMount. plan_prep.
  repeat lazymatch goal with
         | |- emits _ (mountGeneric _ _ _ _) => apply mountGeneric_rpc_events
         | _ => emits_walk
         end.
Qed.

(** X1: the two mounters never cross.  [localMount] reaches the kernel
    itself and never calls the helper; [rpcMount] only looks at paths,
    logs and calls the helper: it issues no [mount(2)], sets up no loop
    device and changes no credential.  Neither registers anything in
    the plan. *)
Theorem mounters_never_cross (h : Host) (c : container) (p : mount.Point) :
  emits local_event (localMount h c p) /\ emits rpc_event (rpcMount h c p).
Proof.
  split; [apply localMount_local_events|apply rpcMount_rpc_events].
Qed.

(** *** The root file system *)

Lemma loadImage_readonly_events (h : Host) (c : container) (path : string) :
  emits opens_readonly (loadImage h c path false).
Proof.
  unfold loadImage. apply emits_bind; [emits_prim|]. intros fi.
  destruct fi as [[|]| |]; cbn [stat_error is_nil negb]; repeat emits_walk.
Qed.

Lemma opens_readonly_rootfs (evs : list Event) :
  forallb opens_readonly evs = true ->
  forallb rootfs_event evs = true /\ registrations evs = [].
Proof.
  induction evs as [|e evs IH]; [auto|]. cbn [forallb].
  intros H. apply andb_true_iff in H. destruct H as [He H].
  destruct (IH H) as [F R]. unfold registrations in *.
  destruct e; try discriminate; cbn [rootfs_event opens_readonly filter
                                     is_registration forallb] in *;
    rewrite ?He, ?F, ?R; auto.
Qed.

Lemma registrations_app (a b : list Event) :
  registrations (a ++ b) = registrations a ++ registrations b.
Proof. apply filter_app. Qed.

(** X2: the root file system.  Whatever the image and the host,
    [addRootfsMount] opens the image read-only and stages nothing in
    the session; its registrations are at most a block image (squashfs
    or ext3) at the Rootfs tag with [nosuid,nodev,ro] and a bind at the
    Rootfs tag with a remount at the PreLayer tag, both [nosuid,nodev].
    When it succeeds it has handed to the plan exactly what the type of
    the image asks for: for a directory the bind of the image onto the
    root file system of the session and its remount, for a squashfs or
    ext3 image one loop-backed point with the type, offset and size of
    the image, for a SIF one loop-backed point with the file system
    type, offset and length of its default partition. *)
Theorem addRootfsMount_events (h : Host) (c : container) (system : System)
        (w : World) :
  let rootfs := GetImage (EngineConfig_ (engine c)) in
  let img := fst (fst (loadImage h c rootfs false w)) in
  let w1 := snd (loadImage h c rootfs false w) in
  let fimg := fst (sif_LoadContainerFp h w1 (ImgFd img)
                                       (negb (ImgWritable img))) in
  let part := fst (sif_GetPartFromGroup h w1 fimg) in
  exists evs,
    trace (snd (addRootfsMount h c system w)) = trace w ++ evs
    /\ forallb rootfs_event evs = true
    /\ (fst (fst (addRootfsMount h c system w)) = None ->
        registrations evs = rootfsRegistrations c img part).
Proof.
  cbv zeta.
  destruct (loadImage_readonly_events h c (GetImage (EngineConfig_ (engine c))) w)
    as [e0 [E0 F0]].
  destruct (opens_readonly_rootfs e0 F0) as [G0 R0].
  unfold addRootfsMount, onPoints, tryP, AddImage, AddBind, AddRemount,
    sylog.Debugf, sifLoadContainerFp, sifGetPartFromGroup, rootfsRegistrations.
  unfold bind, emit, get_world, ret. cbv zeta.
  destruct (loadImage h c (GetImage (EngineConfig_ (engine c))) false w)
    as [[img err] w1].
  cbn [fst snd] in *.
  destruct err as [e|].
  - exists e0. cbn [fst snd]. split; [exact E0|]. split; [exact G0|discriminate].
  - destruct (ImgType img) eqn:T; cbn [fst snd creds trace];
      repeat match goal with
             | |- context [points_add_err h ?w0 ?p0 ?t ?s ?d ?f] =>
                 destruct (points_add_err h w0 p0 t s d f);
                 cbn [fst snd creds trace]
             | |- context [sif_LoadContainerFp h ?w0 ?a ?b] =>
                 destruct (sif_LoadContainerFp h w0 a b) as [fimg [ef|]];
                 cbn [fst snd creds trace]
             | |- context [sif_GetPartFromGroup h ?w0 ?a] =>
                 destruct (sif_GetPartFromGroup h w0 a) as [part [ep|]];
                 cbn [fst snd creds trace]
             | |- context [sif.GetPartType ?p] =>
                 destruct (sif.GetPartType p) as [[|] [et|]];
                 cbn [fst snd creds trace]
             | |- context [sif.GetFsType ?p] =>
                 destruct (sif.GetFsType p) as [[| |] [et|]];
                 cbn [fst snd creds trace]
             end;
      rewrite ?E0, <- ?app_assoc;
      eexists; (split; [reflexivity|]);
      rewrite ?forallb_app, ?registrations_app, ?G0, ?R0;
      (split; [reflexivity|]);
      first [discriminate|intros _; reflexivity].
Qed.

Lemma addRootfsMount_events_witness :
  registrations
    (trace (snd (addRootfsMount
                   (exampleHost [("/images/rootfs.sqfs", false)] None false)
                   (exampleContainer false) (mkSystem [] MountLocal [])
                   setuidWorld)))
  = [EAddImage mount.RootfsTag "/proc/self/fd/3" "/session/rootfs" "squashfs"
               (Z.lor (Z.lor syscall.MS_NOSUID syscall.MS_NODEV)
                      syscall.MS_RDONLY) 0 0]
  /\ registrations
       (trace (snd (addRootfsMount
                      (exampleHost [("/images/rootfs.sqfs", true)] None false)
                      (exampleContainer false) (mkSystem [] MountLocal [])
                      setuidWorld)))
     = [EAddBind mount.RootfsTag "/images/rootfs.sqfs" "/session/rootfs"
                 (Z.lor (Z.lor syscall.MS_NOSUID syscall.MS_NODEV)
                        syscall.MS_BIND);
        EAddRemount mount.PreLayerTag "/session/rootfs"
                    (Z.lor (Z.lor syscall.MS_NOSUID syscall.MS_NODEV)
                           syscall.MS_BIND)].
Proof.
  split.
  - destruct (addRootfsMount_events
                (exampleHost [("/images/rootfs.sqfs", false)] None false)
                (exampleContainer false) (mkSystem [] MountLocal []) setuidWorld)
      as [evs [E [_ R]]].
    rewrite E. cbn [trace setuidWorld app]. rewrite (R eq_refl). reflexivity.
  - destruct (addRootfsMount_events
                (exampleHost [("/images/rootfs.sqfs", true)] None false)
                (exampleContainer false) (mkSystem [] MountLocal []) setuidWorld)
      as [evs [E [_ R]]].
    rewrite E. cbn [trace setuidWorld app]. rewrite (R eq_refl). reflexivity.
Defined.

(** *** The kernel file systems *)

(** X3: the kernel file systems.  Every registration of
    [addKernelMount] is at the Kernel tag and [nosuid,nodev], and
    nothing is registered for a switch that is off.  When it succeeds
    it has handed to the plan, in this order: for [mount proc] a fresh
    [proc] on [/proc] inside a PID namespace, and otherwise a bind of
    the host's [/proc], followed by its remount outside a user
    namespace only; for [mount sys] a fresh [sysfs] on [/sys] outside a
    user namespace and inside one a bind of the host's [/sys], never
    remounted. *)
Theorem addKernelMount_events (h : Host) (c : container) (system : System)
        (w : World) :
  exists evs,
    trace (snd (addKernelMount h c system w)) = trace w ++ evs
    /\ forallb (kernel_event (MountProc (File (EngineConfig_ (engine c))))
                             (MountSys (File (EngineConfig_ (engine c))))
                             (pidNS c) (userNS c)) evs = true
    /\ (fst (fst (addKernelMount h c system w)) = None ->
        registrations evs
        = kernelRegistrations (MountProc (File (EngineConfig_ (engine c))))
                              (MountSys (File (EngineConfig_ (engine c))))
                              (pidNS c) (userNS c)).
Proof.
  unfold addKernelMount, onPoints, AddFS, AddBind, AddRemount,
    sylog.Debugf, sylog.Verbosef, kernelRegistrations.
  unfold bind, emit, get_world, ret. cbv zeta.
  destruct (MountProc (File (EngineConfig_ (engine c)))),
           (MountSys (File (EngineConfig_ (engine c)))),
           (pidNS c), (userNS c); cbn [negb fst snd creds trace is_nil];
    repeat match goal with
           | |- context [points_add_err h ?w0 ?p0 ?t ?s ?d ?f] =>
               destruct (points_add_err h w0 p0 t s d f);
               cbn [negb fst snd creds trace is_nil]
           end;
    rewrite <- ?app_assoc;
    eexists; (split; [reflexivity|]);
    (split; [reflexivity|]);
    first [discriminate|intros _; reflexivity].
Qed.

Lemma addKernelMount_events_witness :
  registrations
    (trace (snd (addKernelMount (exampleHost [] None false)
                                (exampleContainer false)
                                (mkSystem [] MountLocal []) setuidWorld)))
  = [EAddBind mount.KernelTag "/proc" "/proc" bindFlags;
     EAddRemount mount.KernelTag "/proc" bindFlags;
     EAddFS mount.KernelTag "/sys" "sysfs"
            (Z.lor syscall.MS_NOSUID syscall.MS_NODEV) ""]
  /\ registrations
       (trace (snd (addKernelMount (exampleHost [] None false)
                                   (exampleContainer true)
                                   (mkSystem [] MountLocal []) setuidWorld)))
     = [EAddBind mount.KernelTag "/proc" "/proc" bindFlags;
        EAddBind mount.KernelTag "/sys" "/sys" bindFlags].
Proof.
  split.
  - destruct (addKernelMount_events (exampleHost [] None false)
                (exampleContainer false) (mkSystem [] MountLocal []) setuidWorld)
      as [evs [E [_ R]]].
    rewrite E. cbn [trace setuidWorld app]. rewrite (R eq_refl). reflexivity.
  - destruct (addKernelMount_events (exampleHost [] None false)
                (exampleContainer true) (mkSystem [] MountLocal []) setuidWorld)
      as [evs [E [_ R]]].
    rewrite E. cbn [trace setuidWorld app]. rewrite (R eq_refl). reflexivity.
Defined.

(** *** The temporary directories *)

(** X4: the temporary directories.  [addTmpMount] registers nothing
    but binds and remounts onto [/tmp] and [/var/tmp] of the container,
    at the Tmp tag and [nosuid,nodev]; the directories it creates on
    the host have mode 0755 and the ones it stages in the session are
    [/tmp] and [/var/tmp]. *)
Theorem addTmpMount_events (h : Host) (c : container) (system : System) :
  emits tmp_event (addTmpMount h c system).
Proof.
  unfold addTmpMount. plan_prep. repeat emits_walk.
Qed.

(** *** The home directory *)

(** X5: the home directory.  Every registration of [addHomeMount] is
    [bind,nosuid,nodev,rec].  With a layer the home is bound and
    remounted at the Home tag and nothing is staged in the session;
    only without a layer is the home staged in the session and its
    base directory bound at the Final tag. *)
Theorem addHomeMount_events (h : Host) (c : container) (system : System) :
  emits (home_event (has_layer c)) (addHomeMount h c system).
Proof.
  unfold addHomeMount, has_layer. plan_prep.
  destruct (layout.Layer (session c)); repeat emits_walk.
Qed.

(** *** User bind control *)

Lemma log_only_userbinds (h : Host) (c : container) (system : System) :
  UserBindControl (File (EngineConfig_ (engine c))) = false ->
  emits log_event (addUserbindsMount h c system).
Proof.
  intros H. unfold addUserbindsMount. rewrite H. plan_prep. cbn [negb].
  repeat emits_walk.
Qed.

Lemma log_only_scratch (h : Host) (c : container) (system : System) :
  UserBindControl (File (EngineConfig_ (engine c))) = false ->
  emits log_event (addScratchMount h c system).
Proof.
  intros H. unfold addScratchMount. rewrite H. plan_prep. cbn [negb].
  repeat emits_walk.
Qed.

Lemma log_only_cwd (h : Host) (c : container) (system : System) :
  UserBindControl (File (EngineConfig_ (engine c))) = false ->
  emits log_event (addCwdMount h c system).
Proof.
  intros H. unfold addCwdMount. rewrite H. plan_prep. cbn [negb].
  repeat emits_walk.
Qed.

Lemma log_only_tmp_workdir (h : Host) (c : container) (system : System) :
  UserBindControl (File (EngineConfig_ (engine c))) = false ->
  GetContain (EngineConfig_ (engine c)) = true ->
  String.eqb (GetWorkdir (EngineConfig_ (engine c))) "" = false ->
  emits log_event (addTmpMount h c system).
Proof.
  intros H1 H2 H3. unfold addTmpMount. rewrite H1, H2, H3. plan_prep.
  cbn [negb]. repeat emits_walk.
Qed.

(** X6: user bind control.  When the administrator has disabled user
    bind control, the concerns that serve paths chosen by the user do
    nothing but log: [addUserbindsMount], [addScratchMount] and
    [addCwdMount] register nothing, stage nothing, create no directory
    and do not change directory, and so does [addTmpMount] for a
    contained run with a working directory. *)
Theorem user_bind_control_off (h : Host) (c : container) (system : System) :
  UserBindControl (File (EngineConfig_ (engine c))) = false ->
  emits log_event (addUserbindsMount h c system)
  /\ emits log_event (addScratchMount h c system)
  /\ emits log_event (addCwdMount h c system)
  /\ (GetContain (EngineConfig_ (engine c)) = true ->
      String.eqb (GetWorkdir (EngineConfig_ (engine c))) "" = false ->
      emits log_event (addTmpMount h c system)).
Proof.
  intros H. split; [apply log_only_userbinds; exact H|].
  split; [apply log_only_scratch; exact H|].
  split; [apply log_only_cwd; exact H|].
  intros H2 H3. apply log_only_tmp_workdir; assumption.
Qed.

Lemma user_bind_control_off_witness :
  exists evs,
    trace (snd (addUserbindsMount (exampleHost [] None false)
                                  (lockedContainer ["/data:/mnt"])
                                  (mkSystem [] MountLocal []) setuidWorld))
    = trace setuidWorld ++ evs
    /\ forallb log_event evs = true.
Proof.
  exact (proj1 (user_bind_control_off (exampleHost [] None false)
                  (lockedContainer ["/data:/mnt"]) (mkSystem [] MountLocal [])
                  eq_refl) setuidWorld).
Defined.

(** *** The devices *)

Lemma emits_bindDev_dev (h : Host) (c : container) (devpath : string)
      (p : Points) :
  emits dev_event (bindDev h c devpath p).
Proof. unfold bindDev. plan_prep. repeat emits_walk. Qed.

Lemma emits_nvidiaLoop_dev (h : Host) (c : container) (files : list string) :
  forall p, emits dev_event (nvidiaLoop h c files p).
Proof.
  induction files as [|name rest IH]; intros p; [apply emits_ret|].
  cbn [nvidiaLoop].
  repeat lazymatch goal with
         | |- emits _ (nvidiaLoop _ _ _ _) => apply IH
         | |- emits _ (bindDev _ _ _ _) => apply emits_bindDev_dev
         | _ => emits_walk
         end.
Qed.

(** X7: the devices, in general.  Whatever the configuration,
    [addDevMount] registers at the Dev tag only, registers no remount
    and no image, and none of its binds is [nodev] or read-only: the
    device nodes it binds stay usable. *)
Theorem addDevMount_events (h : Host) (c : container) (system : System) :
  emits dev_event (addDevMount h c system).
Proof.
  unfold addDevMount. plan_prep.
  repeat lazymatch goal with
         | |- emits _ (nvidiaLoop _ _ _ _) => apply emits_nvidiaLoop_dev
         | |- emits _ (bindDev _ _ _ _) => apply emits_bindDev_dev
         | _ => emits_walk
         end.
Qed.

(** X8: the devices, without a staged [/dev].  When [mount dev] is not
    [minimal] and the run is not contained, nothing is staged in the
    session; the host's [/dev] is bound onto [/dev] with
    [bind,nosuid,rec] when [mount dev] is [yes], and for any other
    value, [no] or not, nothing is registered at all. *)
Theorem addDevMount_host_dev (h : Host) (c : container) (system : System) :
  String.eqb (MountDev (File (EngineConfig_ (engine c)))) "minimal"
  || GetContain (EngineConfig_ (engine c)) = false ->
  emits (dev_host_event
           (String.eqb (MountDev (File (EngineConfig_ (engine c)))) "yes"))
        (addDevMount h c system).
Proof.
  intros H. unfold addDevMount. plan_prep. rewrite H.
  destruct (String.eqb (MountDev (File (EngineConfig_ (engine c)))) "yes");
    repeat emits_walk.
Qed.

Lemma addDevMount_host_dev_witness :
  exists evs,
    trace (snd (addDevMount (exampleHost [] None false) (devContainer "no" false)
                            (mkSystem [] MountLocal []) setuidWorld))
    = trace setuidWorld ++ evs
    /\ forallb (dev_host_event false) evs = true.
Proof.
  exact (addDevMount_host_dev (exampleHost [] None false)
           (devContainer "no" false) (mkSystem [] MountLocal []) eq_refl
           setuidWorld).
Defined.

(** *** The host file systems *)



(** *** Results, whatever the events *)

Lemma always_onPoints_err (Q : error -> Prop) (system : System)
      (f : Points -> M (error * Points)) :
  (forall p, always (fun r => Q (fst r)) (f p)) ->
  always (fun r => Q (fst r)) (onPoints system f).
Proof.
  intros H w. unfold onPoints, bind, ret.
  specialize (H (SPoints system) w).
  destruct (f (SPoints system) w) as [[e p] w']. exact H.
Qed.

Lemma always_tryE {Q : error * Points -> Prop} (m : M error)
      (wrap : string -> string) (p : Points) (k : M (error * Points)) :
  (forall e, Q (Some (wrap e), p)) -> always Q k -> always Q (tryE m wrap p k).
Proof.
  intros Hf Hk. unfold tryE. apply always_bind. intros [e|];
    [apply always_ret, Hf|exact Hk].
Qed.

Lemma always_tryP {Q : error * Points -> Prop} (m : M (error * Points))
      (wrap : string -> string) (k : Points -> M (error * Points)) :
  (forall e p, Q (Some (wrap e), p)) -> (forall p, always Q (k p)) ->
  always Q (tryP m wrap k).
Proof.
  intros Hf Hk. unfold tryP. apply always_bind. intros [[e|] p];
    [apply always_ret, Hf|apply Hk].
Qed.


(** One step through a computation whose result is under study; [tac]
    settles the returns. *)
Ltac always_walk tac :=
  cbv beta iota zeta;
  lazymatch goal with
  | |- always _ (ret _) => apply always_ret; cbn [fst snd]; tac
  | |- always _ (bind _ _) => apply always_bind; intros
  | |- always _ (tryE _ _ _ _) =>
      apply always_tryE; [intros; cbn [fst snd]; tac|]
  | |- always _ (tryP _ _ _) =>
      apply always_tryP; [intros; cbn [fst snd]; tac|intros]
  | |- always _ (if ?b then _ else _) => destruct b
  | |- always _ (match ?x with _ => _ end) => destruct x
  end.

(** *** The working directory *)


(** X11: the working directory, the paths left out.  When the current
    directory, as [os.Getwd] gives it after the change of directory, is
    one of [/], [/etc], [/bin], [/mnt], [/usr], [/var], [/opt] and
    [/sbin] or begins with [/sys], [/proc] or [/dev], [addCwdMount]
    registers nothing. *)
Theorem addCwdMount_excluded (h : Host) (c : container) (system : System)
        (current : string) :
  (forall w, fst (os_Getwd h w) = current) ->
  cwd_excluded current = true ->
  emits chdir_event (addCwdMount h c system).
Proof.
  intros Hg Hx. unfold addCwdMount. plan_prep.
  apply emits_onPoints. intros p.
  destruct (GetContain (EngineConfig_ (engine c))); [repeat emits_walk|].
  destruct (negb (UserBindControl (File (EngineConfig_ (engine c)))));
    [repeat emits_walk|].
  destruct (OciProcessCwd (engine c)) as [cwd|]; [|apply emits_ret].
  apply emits_bind; [emits_prim|]. intros [e|]; [repeat emits_walk|].
  apply emits_bind_w; [emits_prim|]. intros w.
  unfold osGetwd. cbn [fst]. specialize (Hg w).
  destruct (os_Getwd h w) as [cur err]. cbn [fst] in Hg. subst cur.
  cbv beta iota zeta. destruct err as [e|]; [apply emits_ret|].
  unfold cwd_excluded in Hx.
  destruct (existsb (String.eqb current)
              ["/"; "/etc"; "/bin"; "/mnt"; "/usr"; "/var"; "/opt"; "/sbin"]);
    [repeat emits_walk|].
  cbn [orb] in Hx. rewrite Hx. repeat emits_walk.
Qed.

Lemma addCwdMount_excluded_witness :
  exists evs,
    trace (snd (addCwdMount (exampleHostWith "/etc" false)
                            (exampleContainer false)
                            (mkSystem [] MountLocal []) setuidWorld))
    = trace setuidWorld ++ evs
    /\ forallb chdir_event evs = true.
Proof.
  exact (addCwdMount_excluded (exampleHostWith "/etc" false)
           (exampleContainer false) (mkSystem [] MountLocal []) "/etc"
           (fun _ => eq_refl) eq_refl setuidWorld).
Defined.

(** *** The password and group files *)

Lemma deferred_update (P : Event -> bool) {A} (body : M A) (w : World) :
  emits P body ->
  exists evs,
    trace (snd (bind body (fun res => bind sessionUpdate (fun _ => ret res)) w))
    = trace w ++ evs ++ [ESessionUpdate]
    /\ forallb P evs = true
    /\ fst (bind body (fun res => bind sessionUpdate (fun _ => ret res)) w)
       = fst (body w).
Proof.
  intros H. destruct (H w) as [evs [E F]]. exists evs.
  unfold bind, sessionUpdate, emit, ret. destruct (body w) as [a w1].
  cbn [fst snd trace] in *. rewrite E, app_assoc. auto.
Qed.

(** X12: the password and group files.  Run by root, [addFilesMount]
    logs and does nothing else.  Run by any other user, it ends with
    [session.Update], called once, on every path, the ones that return
    an error included; before that it stages at most [/etc/passwd] and
    [/etc/group] in the session and binds them, with [bind] alone, at
    the Files tag. *)
Theorem addFilesMount_update (h : Host) (c : container) (system : System)
        (w : World) :
  (euid (creds w) = 0 ->
   fst (fst (addFilesMount h c system w)) = None
   /\ trace (snd (addFilesMount h c system w))
      = trace w
        ++ [ELog VERBOSE "Not updating passwd/group files, running as root!" []])
  /\ (euid (creds w) <> 0 ->
      exists evs,
        trace (snd (addFilesMount h c system w))
        = trace w ++ evs ++ [ESessionUpdate]
        /\ forallb files_event evs = true).
Proof.
  remember (addFilesMount h c system w) as r eqn:Hr.
  unfold addFilesMount, onPoints in Hr. unfold bind at 1 in Hr.
  unfold bind at 1 in Hr. unfold osGeteuid at 1 in Hr.
  cbv beta iota zeta in Hr. split.
  - intros H0. rewrite H0 in Hr. change (0 =? 0) with true in Hr.
    cbv iota in Hr. subst r. cbn. auto.
  - intros Hn. apply Z.eqb_neq in Hn. rewrite Hn in Hr. cbv iota in Hr.
    match type of Hr with
    | context [bind ?body (fun res => bind sessionUpdate (fun _ => ret res)) w] =>
        destruct (deferred_update files_event body w) as [evs [E [F _]]];
        [|destruct (bind body (fun res => bind sessionUpdate (fun _ => ret res)) w)
            as [a w1]; subst r; exists evs; cbn [fst snd ret] in *; auto]
    end.
    plan_prep. repeat emits_walk.
Qed.





(** *** The pseudo-terminals *)

(** X14: the pseudo-terminals.  With a staged [/dev] and [mount
    devpts] set, a host without [/dev/pts/ptmx] makes [addDevMount]
    fail, whatever else the host answers. *)
Theorem addDevMount_needs_ptmx (h : Host) (c : container) (system : System)
        (w : World) :
  String.eqb (MountDev (File (EngineConfig_ (engine c)))) "minimal"
  || GetContain (EngineConfig_ (engine c)) = true ->
  MountDevPts (File (EngineConfig_ (engine c))) = true ->
  (forall w', IsNotExist (os_Stat h w' "/dev/pts/ptmx") = true) ->
  fst (fst (addDevMount h c system w)) <> None.
Proof.
  intros H1 H2 H3. revert w.
  change (always (fun r => fst r <> None) (addDevMount h c system)).
  unfold addDevMount. apply (always_onPoints_err (fun e => e <> None)).
  intros p. plan_prep.
  rewrite H1, H2.
  repeat lazymatch goal with
         | |- always _ (bind (osStat _ _) _) =>
             apply always_bind_w; intros w; unfold osStat; cbn [fst];
             rewrite H3
         | _ => always_walk ltac:(discriminate)
         end.
Qed.

Lemma addDevMount_needs_ptmx_witness :
  is_nil (fst (fst (addDevMount (exampleHost [] None false)
                                (devContainer "minimal" true)
                                (mkSystem [] MountLocal []) setuidWorld)))
  = false.
Proof.
  destruct (fst (fst (addDevMount (exampleHost [] None false)
                                  (devContainer "minimal" true)
                                  (mkSystem [] MountLocal []) setuidWorld)))
    as [e|] eqn:E; [reflexivity|].
  exfalso.
  exact (addDevMount_needs_ptmx (exampleHost [] None false)
           (devContainer "minimal" true) (mkSystem [] MountLocal [])
           setuidWorld eq_refl eq_refl (fun _ => eq_refl) E).
Defined.

(** *** The image loader *)

(** X15: the guards of the image loader.  When [loadImage] returns no
    error, the image it returns is of a kind the configuration allows,
    every limit of the configuration that is not empty (paths, groups,
    owners) has been put to the image and answered yes, and the loader
    has called [os.Stat] and [image.Init] once each and nothing else;
    when it returns an error, it returns the [nil] image. *)
Theorem loadImage_guards (h : Host) (c : container) (path : string)
        (writable : bool) (w : World) :
  let file := File (EngineConfig_ (engine c)) in
  let r := loadImage h c path writable w in
  (snd (fst r) = None ->
   typeAllowed file (ImgType (fst (fst r))) = true
   /\ (LimitContainerPaths file <> [] ->
       img_AuthorizedPath h (snd r) (fst (fst r)) (LimitContainerPaths file)
       = (true, None))
   /\ (LimitContainerGroups file <> [] ->
       img_AuthorizedGroup h (snd r) (fst (fst r)) (LimitContainerGroups file)
       = (true, None))
   /\ (LimitContainerOwners file <> [] ->
       img_AuthorizedOwner h (snd r) (fst (fst r)) (LimitContainerOwners file)
       = (true, None))
   /\ exists wr,
        trace (snd r) = trace w ++ [EStat (creds w) path; EImageInit path wr])
  /\ (snd (fst r) <> None -> fst (fst r) = nilImage).
Proof.
  cbv zeta. unfold loadImage, bind, osStat, imageInit, get_world, ret.
  cbn [fst snd creds trace].
  destruct (os_Stat h w path) as [isDir| |msg]; cbn [stat_error is_nil negb];
    cbn [fst snd]; try (split; [discriminate|reflexivity]).
  match goal with
  | |- context [image_Init h ?w1 path ?wr] =>
      destruct (image_Init h w1 path wr) as [img [e|]] eqn:Ei;
      set (w2 := w1) in *
  end; cbn [is_nil negb fst snd]; [split; [discriminate|reflexivity]|].
  destruct (LimitContainerPaths (File (EngineConfig_ (engine c)))) as [|p1 lp];
    [|match goal with
      | |- context [img_AuthorizedPath h ?w3 img ?l] =>
          destruct (img_AuthorizedPath h w3 img l) as [[|] [e|]] eqn:Ep
      end; cbn [fst snd]; try (split; [discriminate|reflexivity])];
  (destruct (LimitContainerGroups (File (EngineConfig_ (engine c)))) as [|g1 lg];
    [|match goal with
      | |- context [img_AuthorizedGroup h ?w3 img ?l] =>
          destruct (img_AuthorizedGroup h w3 img l) as [[|] [e|]] eqn:Eg
      end; cbn [fst snd]; try (split; [discriminate|reflexivity])]);
  (destruct (LimitContainerOwners (File (EngineConfig_ (engine c)))) as [|o1 lo];
    [|match goal with
      | |- context [img_AuthorizedOwner h ?w3 img ?l] =>
          destruct (img_AuthorizedOwner h w3 img l) as [[|] [e|]] eqn:Eo
      end; cbn [fst snd]; try (split; [discriminate|reflexivity])]);
  (destruct (ImgType img) eqn:Et; cbn [typeAllowed];
   [destruct (AllowContainerDir (File (EngineConfig_ (engine c)))) eqn:Ea
   |destruct (AllowContainerExtfs (File (EngineConfig_ (engine c)))) eqn:Ea
   |destruct (AllowContainerSquashfs (File (EngineConfig_ (engine c)))) eqn:Ea
   |];
   cbn [negb fst snd]; try (split; [discriminate|reflexivity]);
   (split; [intros _|intros H; contradiction H; reflexivity]);
   rewrite Et; cbn [typeAllowed]; rewrite ?Ea;
   (split; [reflexivity|]);
   (split; [first [intros H; contradiction H; reflexivity | intros _; assumption]|]);
   (split; [first [intros H; contradiction H; reflexivity | intros _; assumption]|]);
   (split; [first [intros H; contradiction H; reflexivity | intros _; assumption]|]);
   eexists; subst w2; cbn [trace]; rewrite <- app_assoc; reflexivity).
Qed.

(** *** The writable overlay *)

(** X16: symbolic links under a writable overlay.  When the upper or
    the work directory of the overlay is a symbolic link,
    [overlayUpperWork] returns an error and has done nothing: no
    directory is created, nothing is handed to the overlay, and the
    plan is as it was. *)
Theorem overlayUpperWork_symlink (h : Host) (c : container) (system : System)
        (w : World) :
  fs_IsLink h w (upperDir system) = true
  \/ fs_IsLink h w (workDir system) = true ->
  fst (fst (overlayUpperWork h c system w)) <> None
  /\ snd (overlayUpperWork h c system w) = w
  /\ snd (fst (overlayUpperWork h c system w)) = system.
Proof.
  unfold overlayUpperWork. cbv zeta.
  change (mount.Destination
            match find _ (GetByTag (SPoints system) mount.PreLayerTag) with
            | Some p => p
            | None => mount.mkPoint "" "" "" [] []
            end ++ "/upper")%string with (upperDir system).
  change (mount.Destination
            match find _ (GetByTag (SPoints system) mount.PreLayerTag) with
            | Some p => p
            | None => mount.mkPoint "" "" "" [] []
            end ++ "/work")%string with (workDir system).
  generalize (upperDir system) (workDir system). intros u wk H.
  unfold bind, fsIsLink, ret. cbn [fst snd].
  destruct (fs_IsLink h w u); [repeat split; discriminate|].
  destruct H as [H|H]; [discriminate|]. rewrite H.
  repeat split; discriminate.
Qed.

Lemma overlayUpperWork_symlink_witness :
  snd (overlayUpperWork (exampleHostWith "/home/user" true)
                        (exampleContainer false)
                        (mkSystem [] MountLocal []) setuidWorld)
  = setuidWorld.
Proof.
  exact (proj1 (proj2 (overlayUpperWork_symlink
                         (exampleHostWith "/home/user" true)
                         (exampleContainer false)
                         (mkSystem [] MountLocal []) setuidWorld
                         (or_introl eq_refl)))).
Defined.

(** X17: the directories of a writable overlay.  [overlayUpperWork]
    never changes the plan.  When it returns no error, neither
    directory is a symbolic link, it has created nothing but the upper
    and the work directory, mode 0755, and it has ended by handing the
    overlay the upper directory and then the work directory, both
    under the destination of the point of the PreLayer tag it has
    selected. *)
Theorem overlayUpperWork_success (h : Host) (c : container) (system : System)
        (w : World) :
  snd (fst (overlayUpperWork h c system w)) = system
  /\ (fst (fst (overlayUpperWork h c system w)) = None ->
      fs_IsLink h w (upperDir system) = false
      /\ fs_IsLink h w (workDir system) = false
      /\ exists mk,
           trace (snd (overlayUpperWork h c system w))
           = trace w ++ mk
             ++ [EOverlayAddUpperDir (upperDir system);
                 EOverlayAddWorkDir (workDir system)]
           /\ forallb (upper_mkdir system) mk = true).
Proof.
  assert (Hu : upper_mkdir system (EMkdirAll (upperDir system) 493) = true)
    by (unfold upper_mkdir; rewrite String.eqb_refl; reflexivity).
  assert (Hw : upper_mkdir system (EMkdirAll (workDir system) 493) = true)
    by (unfold upper_mkdir; rewrite String.eqb_refl, orb_true_r; reflexivity).
  revert Hu Hw.
  unfold overlayUpperWork. cbv zeta.
  change (mount.Destination
            match find _ (GetByTag (SPoints system) mount.PreLayerTag) with
            | Some p => p
            | None => mount.mkPoint "" "" "" [] []
            end ++ "/upper")%string with (upperDir system).
  change (mount.Destination
            match find _ (GetByTag (SPoints system) mount.PreLayerTag) with
            | Some p => p
            | None => mount.mkPoint "" "" "" [] []
            end ++ "/work")%string with (workDir system).
  generalize (upperDir system) (workDir system). intros u wk Hu Hw.
  unfold bind, fsIsLink, fsIsDir, fsMkdirAll, overlayAddUpperDir,
    overlayAddWorkDir, ret. cbn [fst snd creds trace].
  destruct (fs_IsLink h w u); [split; [reflexivity|discriminate]|].
  destruct (fs_IsLink h w wk); [split; [reflexivity|discriminate]|].
  destruct (fs_IsDir h w u); cbn [negb fst snd creds trace].
  - destruct (fs_IsDir h w wk); cbn [negb fst snd creds trace].
    + destruct (overlay_AddUpperDir h _ u);
        [split; [reflexivity|discriminate]|].
      destruct (overlay_AddWorkDir h _ wk);
        [split; [reflexivity|discriminate]|].
      split; [reflexivity|]. intros _. repeat split. exists [].
      cbn. rewrite <- app_assoc. auto.
    + destruct (fs_MkdirAll h _ wk 493); [split; [reflexivity|discriminate]|].
      destruct (overlay_AddUpperDir h _ u);
        [split; [reflexivity|discriminate]|].
      destruct (overlay_AddWorkDir h _ wk);
        [split; [reflexivity|discriminate]|].
      split; [reflexivity|]. intros _. repeat split.
      exists [EMkdirAll wk 493]. cbn [fst snd trace forallb].
      rewrite Hw, <- !app_assoc. auto.
  - destruct (fs_MkdirAll h _ u 493); [split; [reflexivity|discriminate]|].
    cbn [fst snd creds trace].
    match goal with
    | |- context [fs_IsDir h ?w1 wk] => destruct (fs_IsDir h w1 wk)
    end; cbn [negb fst snd creds trace].
    + destruct (overlay_AddUpperDir h _ u);
        [split; [reflexivity|discriminate]|].
      destruct (overlay_AddWorkDir h _ wk);
        [split; [reflexivity|discriminate]|].
      split; [reflexivity|]. intros _. repeat split.
      exists [EMkdirAll u 493]. cbn [fst snd trace forallb].
      rewrite Hu, <- !app_assoc. auto.
    + destruct (fs_MkdirAll h _ wk 493); [split; [reflexivity|discriminate]|].
      destruct (overlay_AddUpperDir h _ u);
        [split; [reflexivity|discriminate]|].
      destruct (overlay_AddWorkDir h _ wk);
        [split; [reflexivity|discriminate]|].
      split; [reflexivity|]. intros _. repeat split.
      exists [EMkdirAll u 493; EMkdirAll wk 493]. cbn [fst snd trace forallb].
      rewrite Hu, Hw, <- !app_assoc. auto.
Qed.

(** *** The administrator's binds *)

Lemma bindsLoop_spec (h : Host) (binds : list string) :
  forall p w,
  exists evs n,
    trace (snd (bindsLoop h binds bindFlags p w)) = trace w ++ evs
    /\ forallb binds_event evs = true
    /\ boundPairs evs = firstn n (map bindSpec binds)
    /\ (fst (fst (bindsLoop h binds bindFlags p w)) = None ->
        n = List.length binds).
Proof.
  induction binds as [|b rest IH]; intros p w.
  - exists [], 0%nat. cbn. rewrite app_nil_r. auto.
  - cbn [bindsLoop]. cbv zeta.
    unfold tryP, AddBind, sylog.Verbosef. unfold bind, emit, get_world, ret.
    cbn [fst snd creds trace].
    match goal with
    | |- context [points_add_err h ?w0 ?p0 ?t ?s ?d ?f] =>
        destruct (points_add_err h w0 p0 t s d f) as [e|]
    end.
    + eexists [_; _], 1%nat. cbn [fst snd trace].
      split; [rewrite <- app_assoc; reflexivity|].
      split; [reflexivity|]. split; [reflexivity|]. discriminate.
    + match goal with
      | |- context [bindsLoop h rest bindFlags ?p' ?w'] =>
          destruct (IH p' w') as [evs [n [E [F [B Hs]]]]];
          destruct (bindsLoop h rest bindFlags p' w') as [[err p2] w2]
      end.
      cbn [fst snd trace] in *.
      eexists (_ :: _ :: evs), (S n).
      split; [rewrite E; cbn [trace]; rewrite <- !app_assoc; reflexivity|].
      split; [cbn; exact F|].
      split; [cbn; rewrite B; reflexivity|].
      intros Hn. cbn. rewrite (Hs Hn). reflexivity.
Qed.

(** X18: the administrator's binds.  Outside a contained run
    [addBindsMount] hands the bind paths of the configuration to the
    plan in their order, each once, as binds at the Binds tag with
    [nosuid,nodev], from the field before the first colon onto the
    field after it (onto the source itself when there is none); it
    stops at the first one the plan refuses and, when it returns no
    error, has handed over all of them.  No field after the second is
    read, and nothing is remounted.  In a contained run it hands over
    none. *)
Theorem addBindsMount_in_order (h : Host) (c : container) (system : System)
        (w : World) :
  exists evs n,
    trace (snd (addBindsMount h c system w)) = trace w ++ evs
    /\ forallb binds_event evs = true
    /\ boundPairs evs = firstn n (map bindSpec (servedBindPaths c))
    /\ (fst (fst (addBindsMount h c system w)) = None ->
        n = List.length (servedBindPaths c)).
Proof.
  unfold addBindsMount, servedBindPaths, onPoints. cbv zeta.
  destruct (GetContain (EngineConfig_ (engine c))).
  - exists [ELog DEBUG "Skipping bind mounts as contain was requested" []], 0%nat.
    cbn. auto.
  - unfold bind, ret.
    destruct (bindsLoop_spec h (BindPath (File (EngineConfig_ (engine c))))
                             (SPoints system) w) as [evs [n [E [F [B Hs]]]]].
    destruct (bindsLoop h _ bindFlags (SPoints system) w) as [[err p] w1].
    exists evs, n. cbn [fst snd] in *. auto.
Qed.

(** *** The overlay images *)

Lemma sessionDirs_app (a b : list Event) :
  sessionDirs (a ++ b) = sessionDirs a ++ sessionDirs b.
Proof.
  induction a as [|e l IH]; [reflexivity|].
  destruct e; cbn; rewrite ?IH; reflexivity.
Qed.

Lemma sessionDirs_quiet (evs : list Event) :
  forallb no_session_dir evs = true -> sessionDirs evs = [].
Proof.
  induction evs as [|e l IH]; [reflexivity|]. cbn.
  intros H. apply andb_true_iff in H. destruct H as [He Hl].
  destruct e; cbn in He; try discriminate He; exact (IH Hl).
Qed.

Lemma overlayDirs_succ (nb : Z) (k : nat) :
  overlayDirs nb (S k)
  = ("/overlay-images/" ++ itoa nb)%string :: overlayDirs (nb + 1) k.
Proof.
  unfold overlayDirs. cbn [seq map]. rewrite Z.add_0_r. f_equal.
  rewrite <- seq_shift, map_map. apply map_ext. intros i.
  do 2 f_equal. lia.
Qed.

Lemma numbered_fail (nb : Z) (n : nat) (e : string) (system : System) :
  numbered nb n (ret (Some e, system)).
Proof.
  intros w. exists [], 0%nat. cbn. rewrite app_nil_r.
  (split; [reflexivity|]); (split; [lia|]); (split; [reflexivity|]); discriminate.
Qed.

Lemma numbered_done (nb : Z) (system : System) :
  numbered nb 0 (ret (None, system)).
Proof.
  intros w. exists [], 0%nat. cbn. rewrite app_nil_r. auto.
Qed.

Lemma numbered_quiet_bind (nb : Z) (n : nat) {A} (m : M A)
      (k : A -> M (error * System)) :
  emits no_session_dir m -> (forall a, numbered nb n (k a)) ->
  numbered nb n (bind m k).
Proof.
  intros Hm Hk w. unfold bind. destruct (Hm w) as [e1 [E1 F1]].
  destruct (m w) as [a w1]. cbn [snd] in E1.
  destruct (Hk a w1) as [e2 [j [E2 [L [D Hs]]]]].
  exists (e1 ++ e2), j.
  split; [rewrite E2, E1, app_assoc; reflexivity|].
  split; [exact L|].
  split; [rewrite sessionDirs_app, (sessionDirs_quiet e1 F1); exact D|exact Hs].
Qed.

Lemma numbered_step (h : Host) (nb : Z) (n : nat)
      (k : error -> M (error * System)) :
  (forall e, exists e' system, k (Some e) = ret (Some e', system)) ->
  numbered (nb + 1) n (k None) ->
  numbered nb (S n) (bind (sessionAddDir h ("/overlay-images/" ++ itoa nb)) k).
Proof.
  intros Hf Hk w. unfold bind, sessionAddDir.
  destruct (session_AddDir h w ("/overlay-images/" ++ itoa nb)) as [e|].
  - destruct (Hf e) as [e' [system ->]].
    exists [ESessionAddDir ("/overlay-images/" ++ itoa nb)], 1%nat.
    cbn [fst snd trace ret sessionDirs]. split; [reflexivity|].
    split; [lia|]. split; [rewrite overlayDirs_succ; reflexivity|].
    discriminate.
  - destruct (Hk (mkWorld (creds w)
                          (trace w ++ [ESessionAddDir
                                         ("/overlay-images/" ++ itoa nb)])))
      as [evs [j [E [L [D Hs]]]]].
    exists (ESessionAddDir ("/overlay-images/" ++ itoa nb) :: evs), (S j).
    split; [rewrite E; cbn [trace]; rewrite <- app_assoc; reflexivity|].
    split; [lia|].
    split; [cbn [sessionDirs]; rewrite D, overlayDirs_succ; reflexivity|].
    intros H. rewrite (Hs H). reflexivity.
Qed.

Lemma loadImage_no_session_dir (h : Host) (c : container) (path : string)
      (writable : bool) :
  emits no_session_dir (loadImage h c path writable).
Proof. unfold loadImage. plan_prep. repeat emits_walk. Qed.

Lemma overlayLoop_numbered (h : Host) (c : container) (imgs : list string) :
  forall nb system, numbered nb (List.length imgs) (overlayLoop h c imgs nb system).
Proof.
  induction imgs as [|img rest IH]; intros nb system;
    [apply numbered_done|].
  cbn [overlayLoop List.length]. unfold RunAfterTag. plan_prep.
  cbv beta iota zeta.
  apply numbered_quiet_bind; [apply loadImage_no_session_dir|].
  intros [imageObject [e|]];
    [intros w; exists [], 0%nat; cbn; rewrite app_nil_r;
     (split; [reflexivity|]); (split; [lia|]); (split; [reflexivity|]); discriminate|].
  apply numbered_step; [intros e; eexists; eexists; reflexivity|].
  cbv beta iota zeta.
  repeat (cbv beta iota zeta;
          lazymatch goal with
          | |- numbered _ _ (overlayLoop _ _ _ _ _) => apply IH
          | |- numbered _ _ (ret (Some _, _)) =>
              intros w; exists [], 0%nat; cbn; rewrite app_nil_r;
              (split; [reflexivity|]); (split; [lia|]); (split; [reflexivity|]); discriminate
          | |- numbered _ _ (bind _ _) =>
              apply numbered_quiet_bind; [repeat emits_walk|intros]
          | |- numbered _ _ (if ?b then _ else _) => destruct b
          | |- numbered _ _ (match ?x with _ => _ end) => destruct x
          end).
Qed.

(** X19: the numbering of the overlay images.  [addOverlayMount]
    stages one session directory per overlay image, in the order of the
    request: [/overlay-images/0], [/overlay-images/1] and so on; it
    stages no other directory, stops at the first image it cannot set
    up and, when it returns no error, has staged one for every image. *)
Theorem addOverlayMount_numbering (h : Host) (c : container) (system : System)
        (w : World) :
  exists evs k,
    trace (snd (addOverlayMount h c system w)) = trace w ++ evs
    /\ (k <= List.length (GetOverlayImage (EngineConfig_ (engine c))))%nat
    /\ sessionDirs evs = overlayDirs 0 k
    /\ (fst (fst (addOverlayMount h c system w)) = None ->
        k = List.length (GetOverlayImage (EngineConfig_ (engine c)))).
Proof.
  exact (overlayLoop_numbered h c _ 0 system w).
Qed.

Lemma upperHooks_succ (k : nat) :
  upperHooks (S k)
  = upperHooks k ++ [(mount.PreLayerTag, HookOther HookOverlayUpperWork)].
Proof.
  unfold upperHooks. induction k as [|k IH]; [reflexivity|].
  cbn [repeat app] in *. rewrite <- IH. reflexivity.
Qed.

Lemma overlayLoop_hooks (h : Host) (c : container) (imgs : list string) :
  forall nb system hooks0 k0,
    afterTagHooks system = hooks0 ++ upperHooks k0 ->
    always (fun r => exists k,
                afterTagHooks (snd r) = hooks0 ++ upperHooks k
                /\ (k0 <= k <= k0 + writableCount imgs)%nat)
           (overlayLoop h c imgs nb system).
Proof.
  induction imgs as [|img rest IH]; intros nb system hooks0 k0 H0.
  - apply always_ret. exists k0. cbn. split; [exact H0|lia].
  - assert (Hsame : forall (e : error) (p : Points),
               exists k,
                 afterTagHooks (snd (e, set_points system p))
                 = hooks0 ++ upperHooks k
                 /\ (k0 <= k <= k0 + writableCount (img :: rest))%nat)
      by (intros e p; exists k0; split; [exact H0|lia]).
    assert (Hkeep : forall nb' p,
               always (fun r => exists k,
                           afterTagHooks (snd r) = hooks0 ++ upperHooks k
                           /\ (k0 <= k <= k0 + writableCount (img :: rest))%nat)
                      (overlayLoop h c rest nb' (set_points system p))).
    { intros nb' p.
      refine (always_weaken _ _ _ _ (IH nb' (set_points system p) hooks0 k0 H0)).
      intros r [k [Hk Hb]]. exists k. split; [exact Hk|].
      unfold writableCount in *. cbn [filter].
      destruct (negb (marked_ro img)); cbn [List.length]; lia. }
    assert (Hmore : negb (marked_ro img) = true ->
               forall nb' p,
               always (fun r => exists k,
                           afterTagHooks (snd r) = hooks0 ++ upperHooks k
                           /\ (k0 <= k <= k0 + writableCount (img :: rest))%nat)
                      (overlayLoop h c rest nb'
                         (mkSystem p (SMount system)
                            (afterTagHooks system
                             ++ [(mount.PreLayerTag,
                                  HookOther HookOverlayUpperWork)])))).
    { intros Hw nb' p.
      refine (always_weaken _ _ _ _ (IH nb' _ hooks0 (S k0) _)).
      - intros r [k [Hk Hb]]. exists k. split; [exact Hk|].
        unfold writableCount in *. cbn [filter]. rewrite Hw.
        cbn [List.length]. lia.
      - cbn [afterTagHooks]. rewrite H0, upperHooks_succ, app_assoc.
        reflexivity. }
    revert Hmore. unfold marked_ro.
    cbn [overlayLoop]. unfold RunAfterTag. cbv beta iota zeta.
    destruct (Nat.eqb (List.length (strings.SplitN2 img ":")) 2
              && String.eqb (nth 1 (strings.SplitN2 img ":") "") "ro");
      cbn [negb]; intros Hmore;
      repeat (cbv beta iota zeta;
              lazymatch goal with
              | |- always _ (overlayLoop _ _ _ _ (set_points _ _)) =>
                  apply Hkeep
              | |- always _ (overlayLoop _ _ _ _ (mkSystem _ _ _)) =>
                  apply (Hmore eq_refl)
              | |- always _ (ret (_, system)) =>
                  apply always_ret;
                  destruct (Hsame None (SPoints system)) as [k Hk];
                  exists k; exact Hk
              | |- always _ (ret (_, set_points _ _)) =>
                  apply always_ret; apply Hsame
              | |- always _ (bind _ _) => apply always_bind; intros
              | |- always _ (if ?b then _ else _) => destruct b
              | |- always _ (match ?x with _ => _ end) => destruct x
              end).
Qed.

(** X20: the hooks of the overlay images.  The only hooks that
    [addOverlayMount] registers are runs of [overlayUpperWork] behind
    the PreLayer tag, appended to the hooks of the plan: at most one
    for every image that is not requested read-only ([<image>:ro]) and
    none for an image that is, so that a request made only of read-only
    images leaves the hooks of the plan as they are. *)
Theorem addOverlayMount_hooks (h : Host) (c : container) (system : System)
        (w : World) :
  exists k,
    afterTagHooks (snd (fst (addOverlayMount h c system w)))
    = afterTagHooks system ++ upperHooks k
    /\ (k <= writableCount (GetOverlayImage (EngineConfig_ (engine c))))%nat.
Proof.
  unfold addOverlayMount.
  destruct (overlayLoop_hooks h c (GetOverlayImage (EngineConfig_ (engine c)))
              0 system (afterTagHooks system) 0
              (eq_sym (app_nil_r _)) w) as [k [Hk Hb]].
  exists k. split; [exact Hk|lia].
Qed.

(** *** Computations under given credentials *)

Lemma runs_ret (cr : Creds) (P : Event -> bool) {A} (a : A) :
  runs_as cr P (ret a).
Proof.
  intros w Hc. exists []. cbn. rewrite app_nil_r. destruct w. cbn in *.
  subst. auto.
Qed.

Lemma runs_bind (cr : Creds) (P : Event -> bool) {A B} (m : M A)
      (k : A -> M B) :
  runs_as cr P m -> (forall a, runs_as cr P (k a)) -> runs_as cr P (bind m k).
Proof.
  intros Hm Hk w Hc. unfold bind. destruct (Hm w Hc) as [e1 [E1 F1]].
  destruct (m w) as [a w1]. cbn [snd] in E1. subst w1.
  destruct (Hk a (mkWorld cr (trace w ++ e1)) eq_refl) as [e2 [E2 F2]].
  exists (e1 ++ e2). rewrite E2. cbn [trace].
  rewrite app_assoc, forallb_app, F1, F2. auto.
Qed.

Lemma runs_lift (cr : Creds) (P : Event -> bool) {A} (m : M A) :
  emits P m -> keeps_creds m -> runs_as cr P m.
Proof.
  intros He Hk w Hc. destruct (He w) as [evs [E F]]. exists evs.
  specialize (Hk w). destruct (snd (m w)) as [c' t']. cbn in *.
  subst. auto.
Qed.

Lemma runs_geteuid (cr : Creds) (P : Event -> bool) {B} (k : Z -> M B) :
  runs_as cr P (k (euid cr)) -> runs_as cr P (bind osGeteuid k).
Proof.
  intros Hk w Hc. unfold bind, osGeteuid. rewrite Hc. apply Hk. exact Hc.
Qed.

Lemma loadImage_no_bind (h : Host) (c : container) (path : string)
      (writable : bool) :
  emits no_bind (loadImage h c path writable).
Proof. unfold loadImage. plan_prep. repeat emits_walk. Qed.

Lemma overlayLoop_unprivileged (h : Host) (c : container) (cr : Creds)
      (imgs : list string) :
  euid cr <> 0 ->
  forall nb system, runs_as cr no_bind (overlayLoop h c imgs nb system).
Proof.
  intros Hne. apply Z.eqb_neq in Hne.
  induction imgs as [|img rest IH]; intros nb system; [apply runs_ret|].
  cbn [overlayLoop]. unfold RunAfterTag. plan_prep.
  repeat (cbv beta iota zeta;
          lazymatch goal with
          | |- runs_as _ _ (overlayLoop _ _ _ _ _) => apply IH
          | |- runs_as _ _ (ret _) => apply runs_ret
          | |- runs_as _ _ (bind osGeteuid _) =>
              apply runs_geteuid; rewrite Hne; cbn [negb]
          | |- runs_as _ _ (bind (loadImage _ _ _ _) _) =>
              apply runs_bind;
              [apply runs_lift;
               [apply loadImage_no_bind|apply keeps_loadImage]|intros]
          | |- runs_as _ _ (bind _ _) =>
              apply runs_bind;
              [apply runs_lift; [repeat emits_walk|repeat keeps_walk]|intros]
          | |- runs_as _ _ (if ?b then _ else _) => destruct b
          | |- runs_as _ _ (match ?x with _ => _ end) => destruct x
          end).
Qed.

(** X21: directories as overlays.  For a caller whose effective user is
    not root, [addOverlayMount] hands no bind and no remount to the
    plan, whatever the images are: a directory is never bound as an
    overlay for an unprivileged caller.  It also leaves the credentials
    of the process alone. *)
Theorem addOverlayMount_unprivileged (h : Host) (c : container)
        (system : System) (w : World) :
  euid (creds w) <> 0 ->
  exists evs,
    snd (addOverlayMount h c system w) = mkWorld (creds w) (trace w ++ evs)
    /\ forallb no_bind evs = true.
Proof.
  intros Hne.
  exact (overlayLoop_unprivileged h c (creds w) _ Hne 0 system w eq_refl).
Qed.

Lemma addOverlayMount_unprivileged_witness :
  exists evs,
    snd (addOverlayMount (exampleHost [("/overlays/dir", true)] None false)
                         (overlayContainer ["/overlays/dir"])
                         (mkSystem [] MountLocal []) unprivilegedWorld)
    = mkWorld (creds unprivilegedWorld) (trace unprivilegedWorld ++ evs)
    /\ forallb no_bind evs = true.
Proof.
  apply (addOverlayMount_unprivileged
           (exampleHost [("/overlays/dir", true)] None false)
           (overlayContainer ["/overlays/dir"]) (mkSystem [] MountLocal [])
           unprivilegedWorld).
  cbn. discriminate.
Defined.

(** *** The loop back end, step by step *)

(** X22: the steps of the loop back end.  When [mountImage] returns no
    error it has attached the source of the point to a loop device,
    set the status of the device, and mounted [/dev/loop<n>], [n] being
    the number that the attachment has returned, on the destination of
    the point with the type, the flags and the options of the point,
    in this order and with nothing else but a message.  When it
    returns an error, either it has issued no [mount(2)] or the error
    is the one of [mount(2)], wrapped. *)
Theorem mountImage_sequence (h : Host) (c : container) (mnt : mount.Point)
        (w : World) :
  (fst (mountImage h c mnt w) = None ->
   exists attachFlag number info,
     loop_Attach h w (mount.Source mnt) attachFlag = (number, None)
     /\ trace (snd (mountImage h c mnt w))
        = trace w
          ++ [ELoopAttach (creds w) (mount.Source mnt) attachFlag;
              ELoopSetStatus (creds w) info;
              ELog DEBUG "Mounting loop device %s to %s\n"
                   [("/dev/loop" ++ itoa number)%string; mount.Destination mnt];
              EMount (creds w) ("/dev/loop" ++ itoa number)
                     (mount.Destination mnt) (mount.Type_ mnt)
                     (pointFlags mnt)
                     (strings.Join (snd (mount.ConvertOptions (mount.Options mnt)))
                                   ",")])
  /\ (fst (mountImage h c mnt w) <> None ->
      exists evs,
        trace (snd (mountImage h c mnt w)) = trace w ++ evs
        /\ (forallb (fun e => negb (is_sys_mount e)) evs = true
            \/ exists msg,
                 fst (mountImage h c mnt w)
                 = Some ("failed to mount " ++ mount.Type_ mnt
                         ++ " filesystem: " ++ msg)%string)).
Proof.
  unfold pointFlags, mountImage.
  destruct (mount.ConvertOptions (mount.Options mnt)) as [flags opts].
  cbn [fst snd].
  destruct (mount.GetOffset (mount.InternalOptions mnt)) as [offset [e|]];
    cbn [is_nil negb];
    [split; [discriminate|intros _; exists []; rewrite app_nil_r; auto]|].
  destruct (mount.GetSizeLimit (mount.InternalOptions mnt)) as [sizelimit [e|]];
    cbn [is_nil negb];
    [split; [discriminate|intros _; exists []; rewrite app_nil_r; auto]|].
  cbv zeta. unfold bind, loopdevAttach, loopdevSetStatus, sylog.Debugf, emit,
    syscallMount, ret. cbn [fst snd creds trace].
  match goal with
  | |- context [loop_Attach h w ?s ?f] =>
      destruct (loop_Attach h w s f) as [number [e|]] eqn:Ea
  end; cbn [is_nil negb fst snd trace creds].
  { split; [discriminate|]. intros _. eexists [_]. split; [reflexivity|].
    left. reflexivity. }
  match goal with
  | |- context [loop_SetStatus h ?w1 ?i] =>
      destruct (loop_SetStatus h w1 i) as [e|]
  end; cbn [is_nil negb fst snd trace creds].
  { split; [discriminate|]. intros _. eexists [_; _].
    split; [rewrite <- app_assoc; reflexivity|]. left. reflexivity. }
  match goal with
  | |- context [sys_Mount h ?w1 ?a ?b ?t ?f ?o] =>
      destruct (sys_Mount h w1 a b t f o) as [e|]
  end; cbn [is_nil negb fst snd trace creds errstr].
  - split; [discriminate|]. intros _. eexists [_; _; _; _].
    split; [rewrite <- !app_assoc; reflexivity|]. right. eexists. reflexivity.
  - split; [|intros H; contradiction H; reflexivity]. intros _.
    do 3 eexists. split; [exact Ea|]. rewrite <- !app_assoc. reflexivity.
Qed.

(** *** The change of root *)





















(** *** What is mounted where *)

(** X24: the mount of a point.  The only mount [mountGeneric] issues
    for a point carries the source, the type, the flags and the
    options of the point, and its target is the destination of the
    point when that lies in the session and the destination under the
    final path of the session otherwise; the direct mounter issues it
    as a [mount(2)] of the process and never through the helper, the
    other mounter through the helper and never as a [mount(2)]. *)
Theorem mountGeneric_target (h : Host) (c : container) (mnt : mount.Point)
        (local : bool) :
  emits (generic_event c mnt local) (mountGeneric h c mnt local).
Proof.
  assert (Hargs : mountArgs c mnt (mount.Source mnt) (mountTarget c mnt)
                            (mount.Type_ mnt) (pointFlags mnt)
                            (strings.Join
                               (snd (mount.ConvertOptions (mount.Options mnt)))
                               ",") = true)
    by (unfold mountArgs; rewrite !String.eqb_refl, Z.eqb_refl; reflexivity).
  revert Hargs. unfold mountTarget, pointFlags, mountGeneric.
  destruct (mount.ConvertOptions (mount.Options mnt)) as [flags opts].
  cbn [fst snd]. plan_prep. intros Hargs.
  apply emits_bind; [repeat emits_walk|]. intros [|]; [apply emits_ret|].
  destruct (strings.HasPrefix (mount.Destination mnt) (layout.Path (session c)));
    cbn [negb]; cbv beta iota zeta;
    (apply emits_bind; [emits_prim|]; intros st;
     destruct (IsNotExist st); [repeat emits_walk|];
     apply emits_bind; [repeat emits_walk|]; intros _;
     destruct local; cbn [negb]; cbv beta iota zeta;
     [apply emits_syscallMount; intros cr|apply emits_rpcOpsMount];
     unfold generic_event; cbn [negb andb]; exact Hargs).
Qed.

(** *** The temporary directories of the host *)

(** X25: the temporary directories of the host.  Outside a contained
    run [addTmpMount] stages nothing and creates nothing: it binds the
    host's [/tmp] and [/var/tmp] onto themselves and remounts them. *)
Theorem addTmpMount_host_tmp (h : Host) (c : container) (system : System) :
  GetContain (EngineConfig_ (engine c)) = false ->
  emits tmp_host_event (addTmpMount h c system).
Proof.
  intros H. unfold addTmpMount. rewrite H. plan_prep. repeat emits_walk.
Qed.

Lemma addTmpMount_host_tmp_witness :
  exists evs,
    trace (snd (addTmpMount (exampleHost [] None false) (exampleContainer false)
                            (mkSystem [] MountLocal []) setuidWorld))
    = trace setuidWorld ++ evs
    /\ forallb tmp_host_event evs = true.
Proof.
  exact (addTmpMount_host_tmp (exampleHost [] None false)
           (exampleContainer false) (mkSystem [] MountLocal []) eq_refl
           setuidWorld).
Defined.

(** *** The scratch directories *)

Lemma scratchLoop_events (h : Host) (c : container) (dirs : list string)
      (hasWorkdir : bool) (sourceDir : string) :
  forall p,
    emits (scratch_event hasWorkdir)
          (scratchLoop h c dirs hasWorkdir sourceDir p).
Proof.
  induction dirs as [|dir rest IH]; intros p; [apply emits_ret|].
  cbn [scratchLoop]. plan_prep. destruct hasWorkdir;
    repeat lazymatch goal with
           | |- emits _ (scratchLoop _ _ _ _ _ _) => apply IH
           | _ => emits_walk
           end.
Qed.

(** X26: the scratch directories.  Every registration of
    [addScratchMount] is a bind or a remount at the Scratch tag,
    [nosuid,nodev].  With a working directory the sources are
    directories it creates on the host, mode 0750, and nothing is
    staged in the session; without one the sources are staged in the
    session and nothing is created on the host. *)
Theorem addScratchMount_events (h : Host) (c : container) (system : System) :
  emits (scratch_event
           (negb (String.eqb (GetWorkdir (EngineConfig_ (engine c))) "")))
        (addScratchMount h c system).
Proof.
  unfold addScratchMount. plan_prep.
  destruct (String.eqb (GetWorkdir (EngineConfig_ (engine c))) "");
    cbn [negb];
    repeat lazymatch goal with
           | |- emits _ (scratchLoop _ _ _ _ _ _) => apply scratchLoop_events
           | _ => emits_walk
           end.
Qed.

(** *** The flags of the user binds *)

Lemma userbind_flags_ro (flags : Z) :
  userbind_flags flags = true ->
  userbind_flags (Z.lor flags syscall.MS_RDONLY) = true.
Proof.
  unfold userbind_flags. intros H. apply orb_true_iff in H.
  destruct H as [H|H]; apply Z.eqb_eq in H; subst flags.
  - rewrite Z.eqb_refl. apply orb_true_r.
  - rewrite <- Z.lor_assoc. rewrite Z.lor_diag. rewrite Z.eqb_refl.
    apply orb_true_r.
Qed.

Lemma userbindsLoop_events (h : Host) (binds : list string) :
  forall flags p,
    userbind_flags flags = true ->
    emits userbinds_event (userbindsLoop h binds flags p).
Proof.
  induction binds as [|b rest IH]; intros flags p Hf; [apply emits_ret|].
  cbn [userbindsLoop]. plan_prep.
  apply emits_bind; [emits_prim|]. intros [src [e|]]; cbn [is_nil negb];
    cbv beta iota zeta.
  - apply emits_bind; [emits_prim|]. intros _. apply IH. exact Hf.
  - apply (emits_bind_post userbinds_event (fun f => userbind_flags f = true)).
    + repeat emits_walk.
    + repeat always_walk ltac:(first [exact Hf|apply userbind_flags_ro, Hf]).
    + intros flags' Hf'.
      assert (Hb : forall src dst,
                 userbinds_event (EAddBind mount.UserbindsTag src dst flags')
                 = true) by (intros; cbn; rewrite Hf'; reflexivity).
      assert (Hr : forall dst,
                 userbinds_event (EAddRemount mount.UserbindsTag dst flags')
                 = true) by (intros; cbn; rewrite Hf'; reflexivity).
      apply emits_bind; [emits_prim|]. intros _.
      apply emits_bind; [apply emits_AddBind, Hb|]. intros [[e|] p'];
        cbn [is_nil negb]; cbv beta iota zeta; [apply emits_ret|].
      apply emits_bind; [apply emits_AddRemount, Hr|]. intros r.
      apply IH. exact Hf'.
Qed.

(** X27: the flags of the user binds.  Whatever the user asks for,
    every bind and remount that [addUserbindsMount] hands to the plan
    is at the Userbinds tag and carries [bind,nosuid,nodev,rec], with
    [ro] or without and nothing else: no option of a user removes
    [nosuid] or [nodev]. *)
Theorem addUserbindsMount_flags (h : Host) (c : container) (system : System) :
  emits userbinds_event (addUserbindsMount h c system).
Proof.
  unfold addUserbindsMount. plan_prep.
  repeat lazymatch goal with
         | |- emits _ (userbindsLoop _ _ _ _) =>
             apply userbindsLoop_events; reflexivity
         | _ => emits_walk
         end.
Qed.

(** *** The working directory, its registrations *)

(** X28: the working directory, its registrations.  The only directory
    [addCwdMount] changes to is the working directory of the request,
    and all it hands to the plan is a bind onto that directory and its
    remount, at the Cwd tag and [nosuid,nodev]; without a process in
    the request it does nothing. *)
Theorem addCwdMount_events (h : Host) (c : container) (system : System) :
  emits (cwd_event (OciProcessCwd (engine c))) (addCwdMount h c system).
Proof.
  unfold addCwdMount. plan_prep.
  destruct (OciProcessCwd (engine c)) as [cwd|]; [|repeat emits_walk].
  assert (Hc : cwd_event (Some cwd) (EChdir cwd) = true)
    by (cbn; apply String.eqb_refl).
  assert (Hb : forall src,
             cwd_event (Some cwd) (EAddBind mount.CwdTag src cwd bindFlags)
             = true) by (intros; cbn; apply String.eqb_refl).
  assert (Hr : cwd_event (Some cwd) (EAddRemount mount.CwdTag cwd bindFlags)
               = true) by (cbn; apply String.eqb_refl).
  repeat lazymatch goal with
         | |- emits _ (osChdir _ _) => apply emits_osChdir, Hc
         | |- emits _ (AddBind _ _ _ _ _ _) => apply emits_AddBind, Hb
         | |- emits _ (AddRemount _ _ _ _ _) => apply emits_AddRemount, Hr
         | _ => emits_walk
         end.
Qed.

(** *** The devices of a staged [/dev] *)

Lemma sessionFiles_app (a b : list Event) :
  sessionFiles (a ++ b) = sessionFiles a ++ sessionFiles b.
Proof.
  induction a as [|e l IH]; [reflexivity|].
  destruct e; cbn; rewrite ?IH; reflexivity.
Qed.

Lemma stages_prefix (l : list string) {A} (m : M A)
      (k : A -> M (error * Points)) :
  emits staging m -> (forall a, stages_files l (k a)) ->
  stages_files l (bind m k).
Proof.
  intros Hm Hk w. unfold bind. destruct (Hm w) as [e1 [E1 _]].
  destruct (m w) as [a w1]. cbn [snd] in E1. intros Hn.
  destruct (Hk a w1 Hn) as [e2 [x [y [E2 S2]]]].
  exists (e1 ++ e2), (sessionFiles e1 ++ x), y.
  split; [rewrite E2, E1, app_assoc; reflexivity|].
  rewrite sessionFiles_app, S2, <- app_assoc. reflexivity.
Qed.

Lemma stages_prefix_tryE (l : list string) (m : M error)
      (wrap : string -> string) (p : Points) (k : M (error * Points)) :
  emits staging m -> stages_files l k -> stages_files l (tryE m wrap p k).
Proof.
  intros Hm Hk. unfold tryE. apply stages_prefix; [exact Hm|].
  intros [e|]; [intros w H; discriminate H|exact Hk].
Qed.

Lemma stages_prefix_tryP (l : list string) (m : M (error * Points))
      (wrap : string -> string) (k : Points -> M (error * Points)) :
  emits staging m -> (forall p, stages_files l (k p)) ->
  stages_files l (tryP m wrap k).
Proof.
  intros Hm Hk. unfold tryP. apply stages_prefix; [exact Hm|].
  intros [[e|] p]; [intros w H; discriminate H|apply Hk].
Qed.

Lemma stages_fail (l : list string) (e : string) (p : Points) :
  stages_files l (ret (Some e, p)).
Proof. intros w H. discriminate H. Qed.

Lemma bindDev_stages (h : Host) (c : container) (devpath : string)
      (p : Points) (w : World) :
  fst (fst (bindDev h c devpath p w)) = None ->
  exists evs,
    trace (snd (bindDev h c devpath p w)) = trace w ++ evs
    /\ sessionFiles evs = [devpath].
Proof.
  unfold bindDev, tryE, tryP, AddBind, sylog.Debugf.
  unfold bind, sessionAddFile, sessionGetPath, emit, get_world, ret.
  cbn [fst snd creds trace].
  destruct (session_AddFile h w devpath) as [e|]; [discriminate|].
  match goal with
  | |- context [points_add_err h ?w0 ?p0 ?t ?s ?d ?f] =>
      destruct (points_add_err h w0 p0 t s d f) as [e|]
  end; [discriminate|].
  intros _. cbn [fst snd trace]. eexists [_; _; _].
  split; [rewrite <- !app_assoc; reflexivity|reflexivity].
Qed.

Lemma stages_first_nil (P : Event -> bool) (m : M (error * Points)) :
  emits P m -> stages_first [] m.
Proof.
  intros Hm w _. destruct (Hm w) as [evs [E _]].
  exists evs, (sessionFiles evs). auto.
Qed.

Lemma stages_device (h : Host) (c : container) (d : string) (l : list string)
      (p : Points) (k : Points -> M (error * Points)) :
  (forall p', stages_first l (k p')) ->
  stages_first (d :: l) (tryP (bindDev h c d p) (fun e => e) k).
Proof.
  intros Hk w. unfold tryP, bind.
  pose proof (bindDev_stages h c d p w) as Hb.
  destruct (bindDev h c d p w) as [[[e|] p1] w1]; cbn [fst snd] in *;
    [discriminate|].
  destruct (Hb eq_refl) as [e1 [E1 S1]]. intros Hn.
  destruct (Hk p1 w1 Hn) as [e2 [y [E2 S2]]].
  exists (e1 ++ e2), y.
  split; [rewrite E2, E1, app_assoc; reflexivity|].
  rewrite sessionFiles_app, S1, S2. reflexivity.
Qed.

Lemma stages_first_files (l : list string) (m : M (error * Points)) :
  stages_first l m -> stages_files l m.
Proof.
  intros H w Hn. destruct (H w Hn) as [evs [b [E S]]].
  exists evs, [], b. auto.
Qed.

Lemma stages_onPoints (l : list string) (system : System)
      (f : Points -> M (error * Points)) :
  stages_files l (f (SPoints system)) ->
  forall w,
    fst (fst (onPoints system f w)) = None ->
    exists evs a b,
      trace (snd (onPoints system f w)) = trace w ++ evs
      /\ sessionFiles evs = a ++ l ++ b.
Proof.
  intros H w. unfold onPoints, bind, ret. specialize (H w).
  destruct (f (SPoints system) w) as [[e p] w1]. exact H.
Qed.

(** One step through a concern whose events are those of staging. *)
Ltac staged_walk :=
  lazymatch goal with
  | |- emits _ (nvidiaLoop _ _ _ _) => apply stages_nvidiaLoop
  | |- emits _ (bindDev _ _ _ _) => apply stages_bindDev
  | _ => emits_walk
  end.

(** X29: the devices of a staged [/dev].  With [mount dev = minimal]
    or in a contained run, when [addDevMount] returns no error it has
    staged [/dev/null], [/dev/zero], [/dev/random] and [/dev/urandom]
    in the session, in this order and one after the other, whatever
    the switches for the pseudo-terminals and the graphics devices. *)
Theorem addDevMount_devices (h : Host) (c : container) (system : System)
        (w : World) :
  String.eqb (MountDev (File (EngineConfig_ (engine c)))) "minimal"
  || GetContain (EngineConfig_ (engine c)) = true ->
  fst (fst (addDevMount h c system w)) = None ->
  exists evs a b,
    trace (snd (addDevMount h c system w)) = trace w ++ evs
    /\ sessionFiles evs = a ++ baseDevices ++ b.
Proof.
  intros Hs. revert w. unfold addDevMount. apply stages_onPoints.
  plan_prep. rewrite Hs. unfold baseDevices.
  repeat (cbv beta iota zeta;
          lazymatch goal with
          | |- stages_files _ (tryP (bindDev _ _ "/dev/null" _) _ _) =>
              apply stages_first_files;
              do 4 (apply stages_device; intros);
              apply (stages_first_nil staging); repeat staged_walk
          | |- stages_files _ (ret (Some _, _)) => apply stages_fail
          | |- stages_files _ (tryP _ _ _) =>
              apply stages_prefix_tryP; [repeat staged_walk|intros]
          | |- stages_files _ (tryE _ _ _ _) =>
              apply stages_prefix_tryE; [repeat staged_walk|]
          | |- stages_files _ (bind _ _) =>
              apply stages_prefix; [repeat staged_walk|intros]
          | |- stages_files _ (if ?b then _ else _) => destruct b
          | |- stages_files _ (match ?x with _ => _ end) => destruct x
          end).
Qed.

Lemma addDevMount_devices_witness :
  exists evs a b,
    trace (snd (addDevMount (exampleHost [("/dev/pts/ptmx", false)] None false)
                            (devContainer "minimal" true)
                            (mkSystem [] MountLocal []) setuidWorld))
    = trace setuidWorld ++ evs
    /\ sessionFiles evs = a ++ baseDevices ++ b.
Proof.
  exact (addDevMount_devices (exampleHost [("/dev/pts/ptmx", false)] None false)
           (devContainer "minimal" true) (mkSystem [] MountLocal [])
           setuidWorld eq_refl eq_refl).
Defined.
